(** * Darian calendar arithmetic: a shallow embedding of [darian_datetime]

    The Python module [darian_datetime/__init__.py] is embedded function by
    function.  Python integers are unbounded, so they are [Z]; the integer
    operators [//] and [%] floor towards minus infinity and give a remainder
    with the sign of the divisor, which is what [Z.div] and [Z.modulo] do.
    Raised exceptions and failed [assert] statements are results of the
    error monad below. *)

From Stdlib Require Import ZArith List Bool Lia.
From Stdlib Require Import SpecFloat.
From Stdlib Require String Ascii DecimalString.
Import ListNotations.
Local Open Scope Z_scope.

(** ** Exceptions as results *)

Inductive exn : Type :=
| AssertionError
| ValueError
| OverflowError
| TypeError
| ZeroDivisionError
| RecursionError.

Inductive result (A : Type) : Type :=
| Ok (a : A)
| Raise (e : exn).

Arguments Ok {A} a.
Arguments Raise {A} e.

Definition bind {A B : Type} (c : result A) (k : A -> result B) : result B :=
  match c with
  | Ok a => k a
  | Raise e => Raise e
  end.

(** [assert b] of Python: nothing happens when [b] holds, [AssertionError]
    otherwise. *)
Definition py_assert (b : bool) : result unit :=
  if b then Ok tt else Raise AssertionError.

Declare Scope py_scope.
Delimit Scope py_scope with py.
Notation "x <- c ;; k" := (bind c (fun x => k))
  (at level 61, c at next level, right associativity) : py_scope.
Notation "' pat <- c ;; k" := (bind c (fun x => match x with pat => k end))
  (at level 61, pat pattern, c at next level, right associativity) : py_scope.
Notation "'assert' b ;; k" := (bind (py_assert b) (fun _ => k))
  (at level 61, b at next level, right associativity) : py_scope.
Local Open Scope py_scope.

(** [divmod(a, b)] on integers. *)
Definition divmod (a b : Z) : Z * Z := (a / b, a mod b).

(** [_cmp(x, y)]: [0 if x == y else 1 if x > y else -1], on an ordering. *)
Definition cmp_of (c : comparison) : Z :=
  match c with
  | Eq => 0
  | Gt => 1
  | Lt => -1
  end.

(** Lexicographic comparison of Python tuples of integers. *)
Fixpoint tuple_compare (xs ys : list Z) : comparison :=
  match xs, ys with
  | [], [] => Eq
  | [], _ :: _ => Lt
  | _ :: _, [] => Gt
  | x :: xs', y :: ys' =>
      match x ?= y with
      | Eq => tuple_compare xs' ys'
      | c => c
      end
  end.

Definition _cmp (xs ys : list Z) : Z := cmp_of (tuple_compare xs ys).

(** A bounded universal check, used to settle facts about the finitely many
    years and sols of the calendar by evaluation. *)
Fixpoint forall_range (k : nat) (lo : Z) (p : Z -> bool) : bool :=
  match k with
  | O => true
  | S k' => p lo && forall_range k' (lo + 1) p
  end.

(** ** Calendar math *)

Definition MMINYEAR : Z := 0.
Definition MMAXYEAR : Z := 9999.
Definition _MAXORDINAL : Z := 6685945.

Definition _is_leap (y : Z) : bool :=
  if y <=? 2000 then
    if y mod 1000 =? 0 then true
    else if y mod 100 =? 0 then false
    else if y mod 10 =? 0 then true
    else if y mod 2 =? 1 then true
    else false
  else if y <=? 4800 then
    if y mod 150 =? 0 then false
    else if y mod 10 =? 0 then true
    else if y mod 2 =? 1 then true
    else false
  else if y <=? 6800 then
    if y mod 200 =? 0 then false
    else if y mod 10 =? 0 then true
    else if y mod 2 =? 1 then true
    else false
  else if y <=? 8400 then
    if y mod 300 =? 0 then false
    else if y mod 10 =? 0 then true
    else if y mod 2 =? 1 then true
    else false
  else
    if y mod 600 =? 0 then false
    else if y mod 10 =? 0 then true
    else if y mod 2 =? 1 then true
    else false.

Definition _sols_before_year (y : Z) : Z :=
  let x := y - 1 in
  if y <=? 2000 then y * 669 - x / 2 + x / 10 - x / 100 + x / 1000
  else if y <=? 4800 then y * 669 - x / 2 + x / 10 - x / 150 - 5
  else if y <=? 6800 then y * 669 - x / 2 + x / 10 - x / 200 - 13
  else if y <=? 8400 then y * 669 - x / 2 + x / 10 - x / 300 - 25
  else y * 669 - x / 2 + x / 10 - x / 600 - 39.

Definition _sols_in_month (y m : Z) : result Z :=
  assert ((1 <=? m) && (m <=? 24)) ;;
  if (m =? 6) || (m =? 12) || (m =? 18) then Ok 27
  else if (m =? 24) && negb (_is_leap y) then Ok 27
  else Ok 28.

Definition _sols_before_month (month : Z) : result Z :=
  assert ((1 <=? month) && (month <=? 24)) ;;
  Ok ((month - 1) * 28 - (month - 1) / 6).

Definition _ymd2ord (year month sol : Z) : result Z :=
  assert ((1 <=? month) && (month <=? 24)) ;;
  dim <- _sols_in_month year month ;;
  assert ((1 <=? sol) && (sol <=? dim)) ;;
  sbm <- _sols_before_month month ;;
  Ok (_sols_before_year year + sbm + sol).

(** The float literal [668.59] is the IEEE-754 double
    [5880979833718047 / 2^43].  For an integer [n] below [2^53] the
    conversion of [n] to a double is exact, and Python's float [//] returns
    the floor of the exact quotient of the two doubles (the remainder it
    takes first, [fmod], is exact).  [int] of that integral float is the
    integer itself. *)
Definition float_668_59_num : Z := 5880979833718047.
Definition float_668_59_den : Z := 8796093022208.

Definition floordiv_668_59 (n : Z) : Z :=
  (n * float_668_59_den) / float_668_59_num.

Definition _ord2ymd (n : Z) : result (Z * Z * Z) :=
  let year := floordiv_668_59 n in
  let year :=
    if n <=? _sols_before_year year then year - 1
    else if n >? _sols_before_year (year + 1) then year + 1
    else year in
  let n := n - _sols_before_year year in
  let month := n / 28 + 1 in
  sbm <- _sols_before_month month ;;
  month <-
    (if n <=? sbm then Ok (month - 1)
     else if month <? 24 then
       sbm1 <- _sols_before_month (month + 1) ;;
       if n >? sbm1 then Ok (month + 1) else Ok month
     else Ok month) ;;
  sbm' <- _sols_before_month month ;;
  Ok (year, month, n - sbm').

(** The sum of [_sols_in_month(y, m)] over the months [months]. *)
Fixpoint sum_sols_in_months (y : Z) (months : list Z) : result Z :=
  match months with
  | [] => Ok 0
  | m :: rest =>
      d <- _sols_in_month y m ;;
      s <- sum_sols_in_months y rest ;;
      Ok (d + s)
  end.

Definition all_months : list Z :=
  [1; 2; 3; 4; 5; 6; 7; 8; 9; 10; 11; 12;
   13; 14; 15; 16; 17; 18; 19; 20; 21; 22; 23; 24].

(** ** Field checks *)

(** [_check_int_field] returns an [int] argument unchanged; the arguments of
    this development are integers throughout. *)
Definition _check_int_field (value : Z) : result Z := Ok value.

Definition _check_date_fields (year month sol : Z) : result (Z * Z * Z) :=
  year <- _check_int_field year ;;
  month <- _check_int_field month ;;
  sol <- _check_int_field sol ;;
  if negb ((MMINYEAR <=? year) && (year <=? MMAXYEAR)) then Raise ValueError
  else if negb ((1 <=? month) && (month <=? 24)) then Raise ValueError
  else
    dim <- _sols_in_month year month ;;
    if negb ((1 <=? sol) && (sol <=? dim)) then Raise ValueError
    else Ok (year, month, sol).

Definition _check_time_fields (hour minute second microsecond fold : Z)
  : result (Z * Z * Z * Z * Z) :=
  hour <- _check_int_field hour ;;
  minute <- _check_int_field minute ;;
  second <- _check_int_field second ;;
  microsecond <- _check_int_field microsecond ;;
  if negb ((0 <=? hour) && (hour <=? 23)) then Raise ValueError
  else if negb ((0 <=? minute) && (minute <=? 59)) then Raise ValueError
  else if negb ((0 <=? second) && (second <=? 59)) then Raise ValueError
  else if negb ((0 <=? microsecond) && (microsecond <=? 999999))
  then Raise ValueError
  else if negb ((fold =? 0) || (fold =? 1)) then Raise ValueError
  else Ok (hour, minute, second, microsecond, fold).

(** [bytes([...])]: every item must be in [range(256)]. *)
Definition bytes_of (items : list Z) : result (list Z) :=
  if forallb (fun b => (0 <=? b) && (b <? 256)) items then Ok items
  else Raise ValueError.

(** [not x] on an integer used as a truth value, as an integer again. *)
Definition py_not (x : Z) : Z := if x =? 0 then 1 else 0.

(** [_divide_and_round(a, b)]: [a / b] rounded to the nearest integer,
    halves to the even one.  [divmod] raises when [b] is zero. *)
Definition _divide_and_round (a b : Z) : result Z :=
  if b =? 0 then Raise ZeroDivisionError
  else
    let '(q, r) := divmod a b in
    let r := r * 2 in
    let greater_than_half := if b >? 0 then r >? b else r <? b in
    if greater_than_half || ((r =? b) && (q mod 2 =? 1)) then Ok (q + 1)
    else Ok q.

(** ** Text: the [%d] conversions and list subscripts [ctime] uses *)

(** [l[i]]: a negative index counts from the end; [None] stands for the
    [IndexError] of an index outside the list. *)
Definition getitem {A : Type} (l : list A) (i : Z) : option A :=
  let n := Z.of_nat (length l) in
  let i := if i <? 0 then i + n else i in
  if (0 <=? i) && (i <? n) then nth_error l (Z.to_nat i) else None.

Section Text.
Import Ascii String.
Local Open Scope string_scope.

(** The decimal digits of [abs(z)]. *)
Definition digits_of (z : Z) : string :=
  DecimalString.NilZero.string_of_uint (N.to_uint (Z.to_N (Z.abs z))).

Fixpoint repeat_char (c : ascii) (n : nat) : string :=
  match n with
  | O => ""
  | S n' => String c (repeat_char c n')
  end.

(** ["%<width>d" % z], and with [zero] set ["%0<width>d" % z]: the field
    is filled on the left, with spaces before the sign or with zeros
    after it, and is never cut. *)
Definition format_d (zero : bool) (width : nat) (z : Z) : string :=
  let sign := if (z <? 0)%Z then "-" else "" in
  let body := digits_of z in
  let missing := (width - (length sign + length body))%nat in
  if zero then sign ++ repeat_char "0" missing ++ body
  else repeat_char " " missing ++ sign ++ body.

(** ["%s" % name] for an entry of [_MONTHNAMES]. *)
Definition format_s (name : option string) : string :=
  match name with
  | Some s => s
  | None => "None"
  end.

Definition _MONTHNAMES : list (option string) :=
  None ::
  map Some
    ["Sag"; "Dha"; "Cap"; "Mak"; "Aqu"; "Kum";
     "Pis"; "Min"; "Ari"; "Mes"; "Tau"; "Ris";
     "Gem"; "Mit"; "Can"; "Kar"; "Leo"; "Sim";
     "Vir"; "Kan"; "Lib"; "Tul"; "Sco"; "Vri"]%list.

Definition _SOLNAMES : list string :=
  ["Lu"; "Ma"; "Me"; "Jo"; "Ve"; "Sa"; "So"]%list.

End Text.

(** What a method that builds text ends in: the text, the [IndexError]
    of a subscript, or one of the exceptions above. *)
Inductive text : Type :=
| Text (s : String.string)
| IndexError
| Failed (e : exn).

(** ** Numbers: [int] and [float]

    A Python [float] is an IEEE 754 binary64 value; [spec_float] with 53
    bits of precision and the exponent bound 1024 is that format, and the
    operations of [SpecFloat] round to nearest, ties to even, as the
    machine does. *)

Inductive number : Type :=
| Int (z : Z)
| Float (f : spec_float).

Definition float_add : spec_float -> spec_float -> spec_float :=
  SFadd 53 1024.
Definition float_mul : spec_float -> spec_float -> spec_float :=
  SFmul 53 1024.

(** The float of the value [m * 2^e] with the sign [s]. *)
Definition float_of_parts (s : bool) (m e : Z) : spec_float :=
  match m with
  | Zpos p => binary_round 53 1024 s p e
  | _ => S754_zero s
  end.

(** A float literal with an integer value, such as [3600.] or [1e6]. *)
Definition float_literal (z : Z) : spec_float :=
  binary_normalize 53 1024 z 0 false.

(** The conversion of an [int] operand that meets a [float]: the nearest
    float, and [OverflowError] when the integer is beyond the floats. *)
Definition float_of_int (z : Z) : result spec_float :=
  match binary_normalize 53 1024 z 0 false with
  | S754_infinity _ => Raise OverflowError
  | f => Ok f
  end.

(** [a + b] and [a * b] on numbers: exact on two [int]s, in floats as soon
    as one operand is a float. *)
Definition number_add (a b : number) : result number :=
  match a, b with
  | Int x, Int y => Ok (Int (x + y))
  | Int x, Float y => x <- float_of_int x ;; Ok (Float (float_add x y))
  | Float x, Int y => y <- float_of_int y ;; Ok (Float (float_add x y))
  | Float x, Float y => Ok (Float (float_add x y))
  end.

Definition number_mul (a b : number) : result number :=
  match a, b with
  | Int x, Int y => Ok (Int (x * y))
  | Int x, Float y => x <- float_of_int x ;; Ok (Float (float_mul x y))
  | Float x, Int y => y <- float_of_int y ;; Ok (Float (float_mul x y))
  | Float x, Float y => Ok (Float (float_mul x y))
  end.

(** [math.modf(x)]: the fractional and the integer part of [x], both
    floats with the sign of [x]; an infinity has the fractional part zero
    and a NaN gives two NaNs. *)
Definition modf (x : spec_float) : spec_float * spec_float :=
  match x with
  | S754_nan => (S754_nan, S754_nan)
  | S754_infinity s => (S754_zero s, x)
  | S754_zero s => (S754_zero s, S754_zero s)
  | S754_finite s m e =>
      if 0 <=? e then (S754_zero s, x)
      else
        (float_of_parts s (Zpos m mod 2 ^ (- e)) e,
         float_of_parts s (Zpos m / 2 ^ (- e)) 0)
  end.

(** [int(x)] on a float: towards zero; [ValueError] on a NaN and
    [OverflowError] on an infinity. *)
Definition int_of_float (x : spec_float) : result Z :=
  match x with
  | S754_nan => Raise ValueError
  | S754_infinity _ => Raise OverflowError
  | S754_zero _ => Ok 0
  | S754_finite s m e =>
      let magnitude :=
        if 0 <=? e then Zpos m * 2 ^ e else Zpos m / 2 ^ (- e) in
      Ok (if s then - magnitude else magnitude)
  end.

(** [round(x)] on a float: the nearest integer, a tie going to the even
    one; it fails as [int(x)] does. *)
Definition round_float (x : spec_float) : result Z :=
  match x with
  | S754_nan => Raise ValueError
  | S754_infinity _ => Raise OverflowError
  | S754_zero _ => Ok 0
  | S754_finite s m e =>
      let magnitude :=
        if 0 <=? e then Zpos m * 2 ^ e
        else
          let q := Zpos m / 2 ^ (- e) in
          let r := Zpos m mod 2 ^ (- e) in
          match 2 * r ?= 2 ^ (- e) with
          | Lt => q
          | Gt => q + 1
          | Eq => if Z.even q then q else q + 1
          end in
      Ok (if s then - magnitude else magnitude)
  end.

(** [x == z] between a float and an [int], which Python settles on the
    exact values. *)
Definition float_eq_int (x : spec_float) (z : Z) : bool :=
  match x with
  | S754_zero _ => z =? 0
  | S754_finite s m e =>
      if 0 <=? e then z =? (if s then - (Zpos m * 2 ^ e) else Zpos m * 2 ^ e)
      else
        (Zpos m mod 2 ^ (- e) =? 0)
        && (z =? (if s then - (Zpos m / 2 ^ (- e))
                  else Zpos m / 2 ^ (- e)))
  | _ => false
  end.

(** ** Mtimedelta *)

Module Mtimedelta.

Record t : Type := {
  _sols : Z;
  _seconds : Z;
  _microseconds : Z
}.

(** The constructor on integer arguments.  None of the [isinstance(_,
    float)] branches is taken then: [solsecondsfrac], [secondsfrac] and
    [usdouble] are the float zero, and [round(microseconds + usdouble)]
    is [microseconds], an integer in [0, 10^6) at that point.  The
    assertions on integers are kept. *)
Definition __new__
  (sols seconds microseconds milliseconds minutes hours weeks : Z)
  : result t :=
  let s := 0 in
  let sols := sols + weeks * 7 in
  let seconds := seconds + (minutes * 60 + hours * 3600) in
  let microseconds := microseconds + milliseconds * 1000 in
  let d := sols in
  assert (Z.abs s <=? 24 * 3600) ;;
  let '(sols, seconds) := divmod seconds (24 * 3600) in
  let d := d + sols in
  let s := s + seconds in
  assert (Z.abs s <=? 2 * 24 * 3600) ;;
  let '(seconds, microseconds) := divmod microseconds 1000000 in
  let '(sols, seconds) := divmod seconds (24 * 3600) in
  let d := d + sols in
  let s := s + seconds in
  assert (Z.abs s <=? 3 * 24 * 3600) ;;
  assert (Z.abs microseconds <? 3100000) ;;
  let '(seconds, us) := divmod microseconds 1000000 in
  let s := s + seconds in
  let '(sols, s) := divmod s (24 * 3600) in
  let d := d + sols in
  assert ((0 <=? s) && (s <? 24 * 3600)) ;;
  assert ((0 <=? us) && (us <? 1000000)) ;;
  if Z.abs d >? 999999999 then Raise OverflowError
  else Ok {| _sols := d; _seconds := s; _microseconds := us |}.

Definition _getstate (self : t) : list Z :=
  [_sols self; _seconds self; _microseconds self].

Definition _cmp (self other : t) : Z :=
  _cmp (_getstate self) (_getstate other).

Definition __eq__ (self other : t) : bool := _cmp self other =? 0.
Definition __le__ (self other : t) : bool := _cmp self other <=? 0.
Definition __lt__ (self other : t) : bool := _cmp self other <? 0.
Definition __ge__ (self other : t) : bool := _cmp self other >=? 0.
Definition __gt__ (self other : t) : bool := _cmp self other >? 0.

Definition __add__ (self other : t) : result t :=
  __new__ (_sols self + _sols other)
          (_seconds self + _seconds other)
          (_microseconds self + _microseconds other) 0 0 0 0.

Definition __sub__ (self other : t) : result t :=
  __new__ (_sols self - _sols other)
          (_seconds self - _seconds other)
          (_microseconds self - _microseconds other) 0 0 0 0.

Definition __neg__ (self : t) : result t :=
  __new__ (- _sols self) (- _seconds self) (- _microseconds self) 0 0 0 0.

Definition _to_microseconds (self : t) : Z :=
  (_sols self * (24 * 3600) + _seconds self) * 1000000
  + _microseconds self.

Definition __bool__ (self : t) : bool :=
  negb (_sols self =? 0) || negb (_seconds self =? 0)
  || negb (_microseconds self =? 0).

(** Division of two durations, on their microsecond counts. *)
Definition __floordiv__ (self other : t) : result Z :=
  if _to_microseconds other =? 0 then Raise ZeroDivisionError
  else Ok (_to_microseconds self / _to_microseconds other).

Definition __mod__ (self other : t) : result t :=
  if _to_microseconds other =? 0 then Raise ZeroDivisionError
  else __new__ 0 0 (_to_microseconds self mod _to_microseconds other)
               0 0 0 0.

Definition __divmod__ (self other : t) : result (Z * t) :=
  if _to_microseconds other =? 0 then Raise ZeroDivisionError
  else
    let '(q, r) := divmod (_to_microseconds self)
                          (_to_microseconds other) in
    r <- __new__ 0 0 r 0 0 0 0 ;;
    Ok (q, r).

Definition __pos__ (self : t) : t := self.

Definition __abs__ (self : t) : result t :=
  if _sols self <? 0 then __neg__ self else Ok self.

(** [self * other] for an [int]. *)
Definition __mul__ (self : t) (other : Z) : result t :=
  __new__ (_sols self * other) (_seconds self * other)
          (_microseconds self * other) 0 0 0 0.

(** [self // other] for an [int]. *)
Definition __floordiv__int (self : t) (other : Z) : result t :=
  if other =? 0 then Raise ZeroDivisionError
  else __new__ 0 0 (_to_microseconds self / other) 0 0 0 0.

(** [self / other] for an [int]. *)
Definition __truediv__int (self : t) (other : Z) : result t :=
  q <- _divide_and_round (_to_microseconds self) other ;;
  __new__ 0 0 q 0 0 0 0.

(** The class attributes [min], [max] and [resolution]. *)
Definition min : result t := __new__ (-999999999) 0 0 0 0 0 0.
Definition max : result t := __new__ 999999999 59 999999 0 59 23 0.
Definition resolution : result t := __new__ 0 0 1 0 0 0 0.

(** The constructor on arguments that are [int]s or [float]s, in two
    steps.  [whole_units] is the body down to the assertion
    [abs(microseconds) < 3.1e6]: it gets rid of all fractions and leaves
    the integers [d], [s] and [microseconds].  [carry] is the rest: the
    last carrying, the three closing assertions and the overflow test.
    The [isinstance] assertions hold by the types here; every other
    assertion is kept, with the [int(...)] calls inside it, which can
    raise before the comparison is made. *)
Definition whole_units
  (sols seconds microseconds milliseconds minutes hours weeks : number)
  : result (Z * Z * Z) :=
  let s := 0 in
  weeks7 <- number_mul weeks (Int 7) ;;
  sols <- number_add sols weeks7 ;;
  minutes60 <- number_mul minutes (Int 60) ;;
  hours3600 <- number_mul hours (Int 3600) ;;
  more <- number_add minutes60 hours3600 ;;
  seconds <- number_add seconds more ;;
  milliseconds1000 <- number_mul milliseconds (Int 1000) ;;
  microseconds <- number_add microseconds milliseconds1000 ;;
  '(solsecondsfrac, d, s) <-
    match sols with
    | Float sols =>
        let '(solfrac, sols) := modf sols in
        let '(solsecondsfrac, solsecondswhole) :=
          modf (float_mul solfrac
                  (float_mul (float_literal 24) (float_literal 3600))) in
        whole <- int_of_float solsecondswhole ;;
        assert (float_eq_int solsecondswhole whole) ;;
        s <- int_of_float solsecondswhole ;;
        whole <- int_of_float sols ;;
        assert (float_eq_int sols whole) ;;
        d <- int_of_float sols ;;
        Ok (solsecondsfrac, d, s)
    | Int sols => Ok (S754_zero false, sols, s)
    end ;;
  assert (SFleb (SFabs solsecondsfrac) (float_literal 1)) ;;
  assert (Z.abs s <=? 24 * 3600) ;;
  '(secondsfrac, seconds) <-
    match seconds with
    | Float seconds =>
        let '(secondsfrac, seconds) := modf seconds in
        whole <- int_of_float seconds ;;
        assert (float_eq_int seconds whole) ;;
        seconds <- int_of_float seconds ;;
        let secondsfrac := float_add secondsfrac solsecondsfrac in
        assert (SFleb (SFabs secondsfrac) (float_literal 2)) ;;
        Ok (secondsfrac, seconds)
    | Int seconds => Ok (solsecondsfrac, seconds)
    end ;;
  assert (SFleb (SFabs secondsfrac) (float_literal 2)) ;;
  let '(sols, seconds) := divmod seconds (24 * 3600) in
  let d := d + sols in
  let s := s + seconds in
  assert (Z.abs s <=? 2 * 24 * 3600) ;;
  let usdouble := float_mul secondsfrac (float_literal 1000000) in
  assert (SFltb (SFabs usdouble) (float_literal 2100000)) ;;
  '(d, s, microseconds) <-
    match microseconds with
    | Float microseconds =>
        microseconds <- round_float (float_add microseconds usdouble) ;;
        let '(seconds, microseconds) := divmod microseconds 1000000 in
        let '(sols, seconds) := divmod seconds (24 * 3600) in
        let d := d + sols in
        let s := s + seconds in
        Ok (d, s, microseconds)
    | Int microseconds =>
        let '(seconds, microseconds) := divmod microseconds 1000000 in
        let '(sols, seconds) := divmod seconds (24 * 3600) in
        let d := d + sols in
        let s := s + seconds in
        microseconds <- float_of_int microseconds ;;
        microseconds <- round_float (float_add microseconds usdouble) ;;
        Ok (d, s, microseconds)
    end ;;
  assert (Z.abs s <=? 3 * 24 * 3600) ;;
  assert (Z.abs microseconds <? 3100000) ;;
  Ok (d, s, microseconds).

Definition carry (d s microseconds : Z) : result t :=
  let '(seconds, us) := divmod microseconds 1000000 in
  let s := s + seconds in
  let '(sols, s) := divmod s (24 * 3600) in
  let d := d + sols in
  assert ((0 <=? s) && (s <? 24 * 3600)) ;;
  assert ((0 <=? us) && (us <? 1000000)) ;;
  if Z.abs d >? 999999999 then Raise OverflowError
  else Ok {| _sols := d; _seconds := s; _microseconds := us |}.

Definition __new__number
  (sols seconds microseconds milliseconds minutes hours weeks : number)
  : result t :=
  '(d, s, microseconds) <-
    whole_units sols seconds microseconds milliseconds minutes hours
                weeks ;;
  carry d s microseconds.

End Mtimedelta.

(** ** Mdate *)

Module Mdate.

Record t : Type := {
  _year : Z;
  _month : Z;
  _sol : Z
}.

Definition __new__ (year month sol : Z) : result t :=
  '(year, month, sol) <- _check_date_fields year month sol ;;
  Ok {| _year := year; _month := month; _sol := sol |}.

Definition fromordinal (n : Z) : result t :=
  '(y, m, d) <- _ord2ymd n ;;
  __new__ y m d.

Definition toordinal (self : t) : result Z :=
  _ymd2ord (_year self) (_month self) (_sol self).

Definition _cmp (self other : t) : Z :=
  _cmp [_year self; _month self; _sol self]
       [_year other; _month other; _sol other].

Definition __eq__ (self other : t) : bool := _cmp self other =? 0.

Definition __add__ (self : t) (other : Mtimedelta.t) : result t :=
  o <- toordinal self ;;
  let o := o + Mtimedelta._sols other in
  if (0 <? o) && (o <=? _MAXORDINAL) then fromordinal o
  else Raise OverflowError.

Definition __le__ (self other : t) : bool := _cmp self other <=? 0.
Definition __lt__ (self other : t) : bool := _cmp self other <? 0.
Definition __ge__ (self other : t) : bool := _cmp self other >=? 0.
Definition __gt__ (self other : t) : bool := _cmp self other >? 0.

(** [self - other] for a [Mtimedelta]. *)
Definition __sub__delta (self : t) (other : Mtimedelta.t) : result t :=
  back <- Mtimedelta.__new__ (- Mtimedelta._sols other) 0 0 0 0 0 0 ;;
  __add__ self back.

(** [self - other] for a [Mdate]. *)
Definition __sub__ (self other : t) : result Mtimedelta.t :=
  sols1 <- toordinal self ;;
  sols2 <- toordinal other ;;
  Mtimedelta.__new__ (sols1 - sols2) 0 0 0 0 0 0.

Definition weeksol (self : t) : Z := (_sol self + 5) mod 7.

(** Pickle support: the state is four bytes. *)
Definition _getstate (self : t) : result (list Z) :=
  let '(yhi, ylo) := divmod (_year self) 256 in
  bytes_of [yhi; ylo; _month self; _sol self].

(** [__setstate] unpacks exactly four items. *)
Definition __setstate (string : list Z) : result t :=
  match string with
  | [yhi; ylo; month; sol] =>
      Ok {| _year := yhi * 256 + ylo; _month := month; _sol := sol |}
  | _ => Raise ValueError
  end.

(** [Mdate(state)], the constructor on a [bytes] object alone, as
    [__reduce__] has it called.  When the pickle test fails the object
    goes to [_check_date_fields], where [_check_int_field] raises
    [TypeError] on it. *)
Definition __new__bytes (year : list Z) : result t :=
  if (Z.of_nat (length year) =? 4)
     && ((1 <=? nth 2 year 0) && (nth 2 year 0 <=? 24))
  then __setstate year
  else Raise TypeError.

End Mdate.

(** ** Mtzinfo: the offset provider *)

Module Mtzinfo.

(** What a provider method hands back to its caller: Python is dynamically
    typed, so besides [None] and a [Mtimedelta] it can be an object of any
    other type, and the method can raise. *)
Inductive ret : Type :=
| RetNone
| RetDelta (d : Mtimedelta.t)
| RetOther
| RetRaise (e : exn).

(** The fields of the [Mdatetime] a provider is asked about. *)
Record dt_fields : Type := {
  dt_year : Z;
  dt_month : Z;
  dt_sol : Z;
  dt_hour : Z;
  dt_minute : Z;
  dt_second : Z;
  dt_microsecond : Z;
  dt_fold : Z
}.

(** A provider object: its identity (what [is] compares) and its
    overridden methods; the argument is [None] when a [Mtime] asks. *)
Record t : Type := {
  ident : nat;
  mtcoffset : option dt_fields -> ret;
  dst : option dt_fields -> ret
}.

(** [a is b] on [tzinfo] attributes. *)
Definition is_ (a b : option t) : bool :=
  match a, b with
  | None, None => true
  | Some x, Some y => Nat.eqb (ident x) (ident y)
  | _, _ => false
  end.

End Mtzinfo.

(** [==] and [!=] on values that are [None] or a [Mtimedelta]. *)
Definition offset_eq (a b : option Mtimedelta.t) : bool :=
  match a, b with
  | None, None => true
  | Some x, Some y => Mtimedelta.__eq__ x y
  | _, _ => false
  end.

Definition offset_ne (a b : option Mtimedelta.t) : bool := negb (offset_eq a b).

Definition _check_mtc_offset (offset : Mtzinfo.ret)
  : result (option Mtimedelta.t) :=
  match offset with
  | Mtzinfo.RetRaise e => Raise e
  | Mtzinfo.RetNone => Ok None
  | Mtzinfo.RetOther => Raise TypeError
  | Mtzinfo.RetDelta offset =>
      one <- Mtimedelta.__new__ 1 0 0 0 0 0 0 ;;
      lo <- Mtimedelta.__neg__ one ;;
      inside <-
        (if Mtimedelta.__lt__ lo offset then
           hi <- Mtimedelta.__new__ 1 0 0 0 0 0 0 ;;
           Ok (Mtimedelta.__lt__ offset hi)
         else Ok false) ;;
      if negb inside then Raise ValueError else Ok (Some offset)
  end.

(** ** Mtime *)

Module Mtime.

Record t : Type := {
  _hour : Z;
  _minute : Z;
  _second : Z;
  _microsecond : Z;
  _tzinfo : option Mtzinfo.t;
  _fold : Z
}.

(** What [hash] is taken of in the end: the packed state bytes, or a
    tuple of four integers. *)
Inductive hashed : Type :=
| HashBytes (state : list Z)
| HashTuple (h m s us : Z).

Definition __new__ (hour minute second microsecond : Z)
  (tzinfo : option Mtzinfo.t) (fold : Z) : result t :=
  '(hour, minute, second, microsecond, fold) <-
    _check_time_fields hour minute second microsecond fold ;;
  Ok {| _hour := hour; _minute := minute; _second := second;
        _microsecond := microsecond; _tzinfo := tzinfo; _fold := fold |}.

Definition mtcoffset (self : t) : result (option Mtimedelta.t) :=
  match _tzinfo self with
  | None => Ok None
  | Some tz => _check_mtc_offset (Mtzinfo.mtcoffset tz None)
  end.

(** [replace]: an argument left out keeps the field of [self]. *)
Definition replace (self : t) (hour minute second microsecond : option Z)
  (tzinfo : option (option Mtzinfo.t)) (fold : option Z) : result t :=
  let hour := match hour with None => _hour self | Some v => v end in
  let minute := match minute with None => _minute self | Some v => v end in
  let second := match second with None => _second self | Some v => v end in
  let microsecond :=
    match microsecond with None => _microsecond self | Some v => v end in
  let tzinfo := match tzinfo with None => _tzinfo self | Some v => v end in
  let fold := match fold with None => _fold self | Some v => v end in
  __new__ hour minute second microsecond tzinfo fold.

Definition _getstate (self : t) (protocol : Z)
  : result (list Z * option Mtzinfo.t) :=
  let '(us2, us3) := divmod (_microsecond self) 256 in
  let '(us1, us2) := divmod us2 256 in
  let h := _hour self in
  let h :=
    if negb (_fold self =? 0) && (protocol >? 3) then h + 128 else h in
  basestate <- bytes_of [h; _minute self; _second self; us1; us2; us3] ;;
  Ok (basestate, _tzinfo self).

(** The body of [__hash__].  The memo field [_hashcode] only caches the
    value and is left out.  [hash] stands for the built-in [hash], which
    the last branch calls on a [Mtime] and which enters [__hash__]
    again. *)
Definition hash_body (hash : t -> result hashed) (self : t)
  : result hashed :=
  t <- (if negb (_fold self =? 0)
        then replace self None None None None None (Some 0)
        else Ok self) ;;
  tzoff <- mtcoffset t ;;
  match tzoff with
  | None =>
      '(basestate, _) <- _getstate t 3 ;;
      Ok (HashBytes basestate)
  | Some tzoff =>
      if negb (Mtimedelta.__bool__ tzoff) then
        '(basestate, _) <- _getstate t 3 ;;
        Ok (HashBytes basestate)
      else
        hm <- Mtimedelta.__new__ 0 0 0 0 (_minute self) (_hour self) 0 ;;
        diff <- Mtimedelta.__sub__ hm tzoff ;;
        one_hour <- Mtimedelta.__new__ 0 0 0 0 0 1 0 ;;
        '(h, m) <- Mtimedelta.__divmod__ diff one_hour ;;
        one_minute <- Mtimedelta.__new__ 0 0 0 0 1 0 0 ;;
        r <- Mtimedelta.__mod__ m one_minute ;;
        assert (negb (Mtimedelta.__bool__ r)) ;;
        one_minute <- Mtimedelta.__new__ 0 0 0 0 1 0 0 ;;
        m <- Mtimedelta.__floordiv__ m one_minute ;;
        if (0 <=? h) && (h <? 24) then
          naive <- __new__ h m (_second self) (_microsecond self)
                           None 0 ;;
          hash naive
        else Ok (HashTuple h m (_second self) (_microsecond self))
  end.

(** [__hash__] with its re-entry bounded by [depth]. *)
Fixpoint hash_at (depth : nat) (self : t) : result hashed :=
  match depth with
  | O => Raise RecursionError
  | S depth' => hash_body (hash_at depth') self
  end.

(** The re-entry is on a [Mtime] without [tzinfo], which hashes its
    state, so depth 2 is all that [__hash__] uses. *)
Definition __hash__ (self : t) : result hashed := hash_at 2 self.

Definition base_cmp (self other : t) : Z :=
  _cmp [_hour self; _minute self; _second self; _microsecond self]
       [_hour other; _minute other; _second other; _microsecond other].

(** [_cmp] against another [Mtime]. *)
Definition _cmp (self other : t) (allow_mixed : bool) : result Z :=
  let mytz := _tzinfo self in
  let ottz := _tzinfo other in
  if Mtzinfo.is_ mytz ottz then Ok (base_cmp self other)
  else
    myoff <- mtcoffset self ;;
    otoff <- mtcoffset other ;;
    if offset_eq myoff otoff then Ok (base_cmp self other)
    else
      match myoff, otoff with
      | Some myoff, Some otoff =>
          one_minute <- Mtimedelta.__new__ 0 0 0 0 1 0 0 ;;
          mymin <- Mtimedelta.__floordiv__ myoff one_minute ;;
          let myhhmm := _hour self * 60 + _minute self - mymin in
          one_minute <- Mtimedelta.__new__ 0 0 0 0 1 0 0 ;;
          otmin <- Mtimedelta.__floordiv__ otoff one_minute ;;
          let othhmm := _hour other * 60 + _minute other - otmin in
          Ok (_cmp [myhhmm; _second self; _microsecond self]
                   [othhmm; _second other; _microsecond other])
      | _, _ => if allow_mixed then Ok 2 else Raise TypeError
      end.

Definition __eq__ (self other : t) : result bool :=
  c <- _cmp self other true ;;
  Ok (c =? 0).

Definition __le__ (self other : t) : result bool :=
  c <- _cmp self other false ;;
  Ok (c <=? 0).

Definition __lt__ (self other : t) : result bool :=
  c <- _cmp self other false ;;
  Ok (c <? 0).

Definition __ge__ (self other : t) : result bool :=
  c <- _cmp self other false ;;
  Ok (c >=? 0).

Definition __gt__ (self other : t) : result bool :=
  c <- _cmp self other false ;;
  Ok (c >? 0).

(** [__setstate] unpacks exactly six bytes; the high bit of the first one
    is the fold. *)
Definition __setstate (string : list Z) (tzinfo : option Mtzinfo.t)
  : result t :=
  match string with
  | [h; minute; second; us1; us2; us3] =>
      let '(fold, hour) := if h >? 127 then (1, h - 128) else (0, h) in
      Ok {| _hour := hour; _minute := minute; _second := second;
            _microsecond :=
              Z.lor (Z.shiftl (Z.lor (Z.shiftl us1 8) us2) 8) us3;
            _tzinfo := tzinfo; _fold := fold |}
  | _ => Raise ValueError
  end.

(** [Mtime(state)] and [Mtime(state, tzinfo)] on a [bytes] object, as
    [__reduce_ex__] has them called; the second argument is [None] when it
    is left out.  [__setstate] is given [minute or None], so a provider
    object that is false as a truth value is dropped; [truth] is the truth
    value Python finds for a provider object (its [__bool__] or [__len__],
    and true when its class has neither).  When the pickle test fails the
    object goes to [_check_time_fields], where [_check_int_field] raises
    [TypeError] on it. *)
Definition __new__bytes (truth : Mtzinfo.t -> bool) (hour : list Z)
  (minute : option Mtzinfo.t) : result t :=
  if (Z.of_nat (length hour) =? 6) && (Z.land (nth 0 hour 0) 127 <? 24)
  then
    __setstate hour
      match minute with
      | Some tz => if truth tz then Some tz else None
      | None => None
      end
  else Raise TypeError.

End Mtime.

(** ** Mtimezone: the fixed-offset provider *)

Module Mtimezone.

(** [_create] at the address [addr] of the new object. *)
Definition _create (addr : nat) (offset : Mtimedelta.t) : Mtzinfo.t :=
  {| Mtzinfo.ident := addr;
     Mtzinfo.mtcoffset := fun _ => Mtzinfo.RetDelta offset;
     Mtzinfo.dst := fun _ => Mtzinfo.RetNone |}.

Definition _maxoffset : result Mtimedelta.t :=
  Mtimedelta.__new__ 0 0 (-1) 0 0 24 0.

Definition _minoffset : result Mtimedelta.t :=
  m <- _maxoffset ;;
  Mtimedelta.__neg__ m.

(** [Mtimezone.mtc], created once when the module is loaded. *)
Definition mtc : Mtzinfo.t :=
  _create 0 {| Mtimedelta._sols := 0; Mtimedelta._seconds := 0;
               Mtimedelta._microseconds := 0 |}.

(** [name] is [None] when the argument is omitted. *)
Definition __new__ (addr : nat) (offset : Mtimedelta.t)
  (name : option String.string) : result Mtzinfo.t :=
  if match name with
     | None => negb (Mtimedelta.__bool__ offset)
     | Some _ => false
     end
  then Ok mtc
  else
    lo <- _minoffset ;;
    inside <-
      (if Mtimedelta.__le__ lo offset then
         hi <- _maxoffset ;;
         Ok (Mtimedelta.__le__ offset hi)
       else Ok false) ;;
    if negb inside then Raise ValueError
    else Ok (_create addr offset).

End Mtimezone.

(** ** Mdatetime *)

Module Mdatetime.

Record t : Type := {
  _year : Z;
  _month : Z;
  _sol : Z;
  _hour : Z;
  _minute : Z;
  _second : Z;
  _microsecond : Z;
  _tzinfo : option Mtzinfo.t;
  _fold : Z
}.

Definition __new__ (year month sol hour minute second microsecond : Z)
  (tzinfo : option Mtzinfo.t) (fold : Z) : result t :=
  '(year, month, sol) <- _check_date_fields year month sol ;;
  '(hour, minute, second, microsecond, fold) <-
    _check_time_fields hour minute second microsecond fold ;;
  Ok {| _year := year; _month := month; _sol := sol;
        _hour := hour; _minute := minute; _second := second;
        _microsecond := microsecond; _tzinfo := tzinfo; _fold := fold |}.

(** The object as a provider sees it. *)
Definition fields (self : t) : Mtzinfo.dt_fields :=
  {| Mtzinfo.dt_year := _year self; Mtzinfo.dt_month := _month self;
     Mtzinfo.dt_sol := _sol self; Mtzinfo.dt_hour := _hour self;
     Mtzinfo.dt_minute := _minute self; Mtzinfo.dt_second := _second self;
     Mtzinfo.dt_microsecond := _microsecond self;
     Mtzinfo.dt_fold := _fold self |}.

Definition mtcoffset (self : t) : result (option Mtimedelta.t) :=
  match _tzinfo self with
  | None => Ok None
  | Some tz => _check_mtc_offset (Mtzinfo.mtcoffset tz (Some (fields self)))
  end.

(** [self.replace(fold=fold)]; the other fields are those of [self]. *)
Definition replace_fold (self : t) (fold : Z) : result t :=
  __new__ (_year self) (_month self) (_sol self) (_hour self)
          (_minute self) (_second self) (_microsecond self)
          (_tzinfo self) fold.

Definition toordinal (self : t) : result Z :=
  _ymd2ord (_year self) (_month self) (_sol self).

(** [combine] with its default [tzinfo=True]. *)
Definition combine (date : Mdate.t) (time : Mtime.t) : result t :=
  let tzinfo := Mtime._tzinfo time in
  __new__ (Mdate._year date) (Mdate._month date) (Mdate._sol date)
          (Mtime._hour time) (Mtime._minute time) (Mtime._second time)
          (Mtime._microsecond time) tzinfo (Mtime._fold time).

Definition __add__ (self : t) (other : Mtimedelta.t) : result t :=
  o <- toordinal self ;;
  delta <- Mtimedelta.__new__ o (_second self) (_microsecond self) 0
                              (_minute self) (_hour self) 0 ;;
  delta <- Mtimedelta.__add__ delta other ;;
  let '(hour, rem) := divmod (Mtimedelta._seconds delta) 3600 in
  let '(minute, second) := divmod rem 60 in
  if (0 <? Mtimedelta._sols delta)
     && (Mtimedelta._sols delta <=? _MAXORDINAL)
  then
    date <- Mdate.fromordinal (Mtimedelta._sols delta) ;;
    time <- Mtime.__new__ hour minute second
              (Mtimedelta._microseconds delta) (_tzinfo self) 0 ;;
    combine date time
  else Raise OverflowError.

(** [self - other] for two [Mdatetime]s. *)
Definition __sub__ (self other : t) : result Mtimedelta.t :=
  sols1 <- toordinal self ;;
  sols2 <- toordinal other ;;
  let secs1 := _second self + _minute self * 60 + _hour self * 3600 in
  let secs2 := _second other + _minute other * 60 + _hour other * 3600 in
  base <- Mtimedelta.__new__ (sols1 - sols2) (secs1 - secs2)
            (_microsecond self - _microsecond other) 0 0 0 0 ;;
  if Mtzinfo.is_ (_tzinfo self) (_tzinfo other) then Ok base
  else
    myoff <- mtcoffset self ;;
    otoff <- mtcoffset other ;;
    if offset_eq myoff otoff then Ok base
    else
      match myoff, otoff with
      | Some myoff, Some otoff =>
          shifted <- Mtimedelta.__add__ base otoff ;;
          Mtimedelta.__sub__ shifted myoff
      | _, _ => Raise TypeError
      end.

Definition base_cmp (self other : t) : Z :=
  _cmp [_year self; _month self; _sol self; _hour self; _minute self;
        _second self; _microsecond self]
       [_year other; _month other; _sol other; _hour other; _minute other;
        _second other; _microsecond other].

(** [_cmp] against another [Mdatetime]. *)
Definition _cmp (self other : t) (allow_mixed : bool) : result Z :=
  let mytz := _tzinfo self in
  let ottz := _tzinfo other in
  if Mtzinfo.is_ mytz ottz then Ok (base_cmp self other)
  else
    myoff <- mtcoffset self ;;
    otoff <- mtcoffset other ;;
    folded <-
      (if allow_mixed then
         self' <- replace_fold self (py_not (_fold self)) ;;
         myoff' <- mtcoffset self' ;;
         if offset_ne myoff myoff' then Ok true
         else
           other' <- replace_fold other (py_not (_fold other)) ;;
           otoff' <- mtcoffset other' ;;
           Ok (offset_ne otoff otoff')
       else Ok false) ;;
    if (folded : bool) then Ok 2
    else if offset_eq myoff otoff then Ok (base_cmp self other)
    else
      match myoff, otoff with
      | Some _, Some _ =>
          diff <- __sub__ self other ;;
          if Mtimedelta._sols diff <? 0 then Ok (-1)
          else Ok (if Mtimedelta.__bool__ diff then 1 else 0)
      | _, _ => if allow_mixed then Ok 2 else Raise TypeError
      end.

Definition __eq__ (self other : t) : result bool :=
  c <- _cmp self other true ;;
  Ok (c =? 0).

Definition __le__ (self other : t) : result bool :=
  c <- _cmp self other false ;;
  Ok (c <=? 0).

Definition __lt__ (self other : t) : result bool :=
  c <- _cmp self other false ;;
  Ok (c <? 0).

Definition __ge__ (self other : t) : result bool :=
  c <- _cmp self other false ;;
  Ok (c >=? 0).

Definition __gt__ (self other : t) : result bool :=
  c <- _cmp self other false ;;
  Ok (c >? 0).

Definition dst (self : t) : result (option Mtimedelta.t) :=
  match _tzinfo self with
  | None => Ok None
  | Some tz => _check_mtc_offset (Mtzinfo.dst tz (Some (fields self)))
  end.

Definition date (self : t) : result Mdate.t :=
  Mdate.__new__ (_year self) (_month self) (_sol self).

Definition time (self : t) : result Mtime.t :=
  Mtime.__new__ (_hour self) (_minute self) (_second self)
                (_microsecond self) None (_fold self).

Definition timetz (self : t) : result Mtime.t :=
  Mtime.__new__ (_hour self) (_minute self) (_second self)
                (_microsecond self) (_tzinfo self) (_fold self).

(** [self - other] for a [Mtimedelta]. *)
Definition __sub__delta (self : t) (other : Mtimedelta.t) : result t :=
  back <- Mtimedelta.__neg__ other ;;
  __add__ self back.

(** Pickle support: the state is ten bytes, the high bit of the month
    byte being the fold from protocol 4 on. *)
Definition _getstate (self : t) (protocol : Z)
  : result (list Z * option Mtzinfo.t) :=
  let '(yhi, ylo) := divmod (_year self) 256 in
  let '(us2, us3) := divmod (_microsecond self) 256 in
  let '(us1, us2) := divmod us2 256 in
  let m := _month self in
  let m :=
    if negb (_fold self =? 0) && (protocol >? 3) then m + 128 else m in
  basestate <- bytes_of [yhi; ylo; m; _sol self; _hour self; _minute self;
                         _second self; us1; us2; us3] ;;
  Ok (basestate, _tzinfo self).

Definition __setstate (string : list Z) (tzinfo : option Mtzinfo.t)
  : result t :=
  match string with
  | [yhi; ylo; m; sol; hour; minute; second; us1; us2; us3] =>
      let '(fold, month) := if m >? 127 then (1, m - 128) else (0, m) in
      Ok {| _year := yhi * 256 + ylo; _month := month; _sol := sol;
            _hour := hour; _minute := minute; _second := second;
            _microsecond :=
              Z.lor (Z.shiftl (Z.lor (Z.shiftl us1 8) us2) 8) us3;
            _tzinfo := tzinfo; _fold := fold |}
  | _ => Raise ValueError
  end.

(** [Mdatetime(state)] and [Mdatetime(state, tzinfo)] on a [bytes]
    object, as [__reduce_ex__] has them called.  When the pickle test
    fails the object goes to [_check_date_fields], where
    [_check_int_field] raises [TypeError] on it. *)
Definition __new__bytes (year : list Z) (month : option Mtzinfo.t)
  : result t :=
  if (Z.of_nat (length year) =? 10)
     && ((1 <=? Z.land (nth 2 year 0) 127)
         && (Z.land (nth 2 year 0) 127 <=? 12))
  then __setstate year month
  else Raise TypeError.

(** What [hash] is taken of: the packed state bytes, or the state of a
    [Mtimedelta]. *)
Inductive hashed : Type :=
| HashBytes (state : list Z)
| HashDelta (state : list Z).

(** [__hash__]; the memo field [_hashcode] only caches the value and is
    left out. *)
Definition __hash__ (self : t) : result hashed :=
  t <- (if negb (_fold self =? 0) then replace_fold self 0
        else Ok self) ;;
  tzoff <- mtcoffset t ;;
  match tzoff with
  | None =>
      '(basestate, _) <- _getstate t 3 ;;
      Ok (HashBytes basestate)
  | Some tzoff =>
      sols <- _ymd2ord (_year self) (_month self) (_sol self) ;;
      let seconds :=
        _hour self * 3600 + _minute self * 60 + _second self in
      delta <- Mtimedelta.__new__ sols seconds (_microsecond self)
                                  0 0 0 0 ;;
      instant <- Mtimedelta.__sub__ delta tzoff ;;
      Ok (HashDelta (Mtimedelta._getstate instant))
  end.

(** [ctime()]; the subscripts are evaluated before the text is put
    together, [_SOLNAMES[weeksol]] first. *)
Section Ctime.
Import String.
Local Open Scope string_scope.

Definition ctime (self : t) : text :=
  match toordinal self with
  | Raise e => Failed e
  | Ok o =>
      let weeksol := if (o mod 7 =? 0)%Z then 7 else o mod 7 in
      match getitem _SOLNAMES weeksol with
      | None => IndexError
      | Some solname =>
          match getitem _MONTHNAMES (_month self) with
          | None => IndexError
          | Some monthname =>
              Text (solname ++ " " ++ format_s monthname ++ " "
                    ++ format_d false 2 (_sol self) ++ " "
                    ++ format_d true 2 (_hour self) ++ ":"
                    ++ format_d true 2 (_minute self) ++ ":"
                    ++ format_d true 2 (_second self) ++ " "
                    ++ format_d true 4 (_year self))
          end
      end
  end.

End Ctime.

(** [replace]; an omitted argument is [None], so [tzinfo] has two layers:
    omitted, or given as [None] or as a provider. *)
Definition replace (self : t)
  (year month sol hour minute second microsecond : option Z)
  (tzinfo : option (option Mtzinfo.t)) (fold : option Z) : result t :=
  let year := match year with None => _year self | Some v => v end in
  let month := match month with None => _month self | Some v => v end in
  let sol := match sol with None => _sol self | Some v => v end in
  let hour := match hour with None => _hour self | Some v => v end in
  let minute := match minute with None => _minute self | Some v => v end in
  let second := match second with None => _second self | Some v => v end in
  let microsecond :=
    match microsecond with None => _microsecond self | Some v => v end in
  let tzinfo := match tzinfo with None => _tzinfo self | Some v => v end in
  let fold := match fold with None => _fold self | Some v => v end in
  __new__ year month sol hour minute second microsecond tzinfo fold.

(** [astimezone(tz)]; [frommtc] is the method of that name that the class
    of [tz] has.  [mytz.mtcoffset(self)] is the bare provider method, not
    the checked [self.mtcoffset()]; subtracting what it returns fails with
    [TypeError] unless it is a [Mtimedelta]. *)
Definition astimezone (self : t) (tz : Mtzinfo.t)
  (frommtc : t -> result t) : result t :=
  let by_mtc :=
    (Mtimezone.mtc, Mtzinfo.mtcoffset Mtimezone.mtc (Some (fields self))) in
  '(mytz, myoffset) <-
    match _tzinfo self with
    | None => Ok by_mtc
    | Some mytz =>
        match Mtzinfo.mtcoffset mytz (Some (fields self)) with
        | Mtzinfo.RetRaise e => Raise e
        | Mtzinfo.RetNone => Ok by_mtc
        | myoffset => Ok (mytz, myoffset)
        end
    end ;;
  if Mtzinfo.is_ (Some tz) (Some mytz) then Ok self
  else
    match myoffset with
    | Mtzinfo.RetRaise e => Raise e
    | Mtzinfo.RetDelta myoffset =>
        shifted <- __sub__delta self myoffset ;;
        mtc <- replace shifted None None None None None None None
                       (Some (Some tz)) None ;;
        frommtc mtc
    | _ => Raise TypeError
    end.

End Mdatetime.

(** ** Conversion from MTC *)

(** [Mtimezone.frommtc]: [self] is the provider object and [_offset] the
    slot of that name. *)
Definition Mtimezone_frommtc (self : Mtzinfo.t) (_offset : Mtimedelta.t)
  (dt : Mdatetime.t) : result Mdatetime.t :=
  if negb (Mtzinfo.is_ (Mdatetime._tzinfo dt) (Some self))
  then Raise ValueError
  else Mdatetime.__add__ dt _offset.

(** [Mtzinfo.frommtc], which a provider class inherits unless it has its
    own. *)
Definition Mtzinfo_frommtc (self : Mtzinfo.t) (dt : Mdatetime.t)
  : result Mdatetime.t :=
  if negb (Mtzinfo.is_ (Mdatetime._tzinfo dt) (Some self))
  then Raise ValueError
  else
    dtoff <- Mdatetime.mtcoffset dt ;;
    match dtoff with
    | None => Raise ValueError
    | Some dtoff =>
        dtdst <- Mdatetime.dst dt ;;
        match dtdst with
        | None => Raise ValueError
        | Some dtdst =>
            delta <- Mtimedelta.__sub__ dtoff dtdst ;;
            if Mtimedelta.__bool__ delta then
              dt <- Mdatetime.__add__ dt delta ;;
              dtdst <- Mdatetime.dst dt ;;
              match dtdst with
              | None => Raise ValueError
              | Some dtdst => Mdatetime.__add__ dt dtdst
              end
            else Mdatetime.__add__ dt dtdst
        end
    end.

(** ** The leap rule as the specification words it *)

(** One row of the band table: the inclusive upper end of the band (none for
    the last band), its always-leap modulus when it has one, and its
    exception modulus. *)
Record leap_band : Type := {
  band_upto : option Z;
  band_always : option Z;
  band_exception : Z
}.

Definition leap_bands : list leap_band :=
  [ {| band_upto := Some 2000; band_always := Some 1000;
       band_exception := 100 |};
    {| band_upto := Some 4800; band_always := None;
       band_exception := 150 |};
    {| band_upto := Some 6800; band_always := None;
       band_exception := 200 |};
    {| band_upto := Some 8400; band_always := None;
       band_exception := 300 |};
    {| band_upto := None; band_always := None; band_exception := 600 |} ].

Definition divides (k y : Z) : bool := Z.eqb (Z.rem y k) 0.

(** The priority order inside one band. *)
Definition band_rule (b : leap_band) (y : Z) : bool :=
  if match band_always b with Some k => divides k y | None => false end
  then true
  else if divides (band_exception b) y then false
  else if divides 10 y then true
  else if Z.odd y then true
  else false.

Fixpoint leap_by_bands (bs : list leap_band) (y : Z) : bool :=
  match bs with
  | [] => false
  | b :: rest =>
      match band_upto b with
      | Some hi => if y <=? hi then band_rule b y else leap_by_bands rest y
      | None => band_rule b y
      end
  end.

Definition is_leap_spec (y : Z) : bool := leap_by_bands leap_bands y.

(** ** Definitions used to state and prove the properties *)

(** The year that [_ord2ymd] settles on, and what it does with the sols
    left in that year. *)
Definition year_of (n : Z) : Z :=
  let year := floordiv_668_59 n in
  if n <=? _sols_before_year year then year - 1
  else if n >? _sols_before_year (year + 1) then year + 1
  else year.

Definition month_sol (n : Z) : result (Z * Z) :=
  let month := n / 28 + 1 in
  sbm <- _sols_before_month month ;;
  month <-
    (if n <=? sbm then Ok (month - 1)
     else if month <? 24 then
       sbm1 <- _sols_before_month (month + 1) ;;
       if n >? sbm1 then Ok (month + 1) else Ok month
     else Ok month) ;;
  sbm' <- _sols_before_month month ;;
  Ok (month, n - sbm').

(** The values of [_sols_before_month] and [_sols_in_month] on months
    1..24. *)
Definition sbm_value (m : Z) : Z := (m - 1) * 28 - (m - 1) / 6.

Definition month_length (y m : Z) : Z :=
  if (m =? 6) || (m =? 12) || (m =? 18) then 27
  else if (m =? 24) && negb (_is_leap y) then 27
  else 28.

Definition longest (m : Z) : Z :=
  if (m =? 6) || (m =? 12) || (m =? 18) then 27 else 28.

(** Per year: the float estimate of [_ord2ymd] is within one year on the
    first and on the last sol of the year, and the year lies inside the
    ordinal range. *)
Definition year_check (y : Z) : bool :=
  (y - 1 <=? floordiv_668_59 (_sols_before_year y + 1))
  && (floordiv_668_59 (_sols_before_year (y + 1)) <=? y + 1)
  && (0 <=? _sols_before_year y)
  && (_sols_before_year (y + 1) <=? _MAXORDINAL).

(** Per sol of a year: [month_sol] splits it into a month and a sol of that
    month. *)
Definition month_sol_check (n : Z) : bool :=
  match month_sol n with
  | Ok (m, s) =>
      (1 <=? m) && (m <=? 24) && (1 <=? s) && (s <=? longest m)
      && (sbm_value m + s =? n)
      && ((m <? 24) || (n =? 669) || (s <=? 27))
  | Raise _ => false
  end.

(** Per month: [month_sol] finds every sol of the month again. *)
Definition month_sol_inv_check (m : Z) : bool :=
  forall_range 28 1 (fun s =>
    if s <=? longest m then
      match month_sol (sbm_value m + s) with
      | Ok (m', s') =>
          (m' =? m) && (s' =? s)
          && ((sbm_value m + s <=? 668) || ((m =? 24) && (s =? 28)))
      | Raise _ => false
      end
    else true).

(** The net duration of the constructor's arguments in microseconds, and
    the normalized triple of a microsecond count. *)
Definition total_microseconds
  (sols seconds microseconds milliseconds minutes hours weeks : Z) : Z :=
  ((sols + weeks * 7) * 86400 + seconds + minutes * 60 + hours * 3600)
  * 1000000 + microseconds + milliseconds * 1000.

Definition normalized (total : Z) : Mtimedelta.t :=
  {| Mtimedelta._sols := total / 86400000000;
     Mtimedelta._seconds := (total / 1000000) mod 86400;
     Mtimedelta._microseconds := total mod 1000000 |}.

(** The invariant of a constructed [Mtimedelta]. *)
Definition normal (t : Mtimedelta.t) : Prop :=
  0 <= Mtimedelta._seconds t <= 86399 /\
  0 <= Mtimedelta._microseconds t <= 999999 /\
  Z.abs (Mtimedelta._sols t) <= 999999999.

(** A value is valid when the constructor of its class returns it from its
    own fields. *)
Definition valid_Mdate (d : Mdate.t) : Prop :=
  Mdate.__new__ (Mdate._year d) (Mdate._month d) (Mdate._sol d) = Ok d.

Definition valid_Mdatetime (x : Mdatetime.t) : Prop :=
  Mdatetime.__new__ (Mdatetime._year x) (Mdatetime._month x)
    (Mdatetime._sol x) (Mdatetime._hour x) (Mdatetime._minute x)
    (Mdatetime._second x) (Mdatetime._microsecond x) (Mdatetime._tzinfo x)
    (Mdatetime._fold x) = Ok x.

(** The offset of a [Mdatetime] asked again with the other [fold], as
    [_cmp] does for [==]. *)
Definition flipped_offset (b : Mdatetime.t) : result (option Mtimedelta.t) :=
  b' <- Mdatetime.replace_fold b (py_not (Mdatetime._fold b)) ;;
  Mdatetime.mtcoffset b'.

(** A provider whose offset depends on [fold]: one hour for the first
    fold, [Mtimedelta(hours=25)] for the second. *)
Definition fold_sensitive_tz : Mtzinfo.t :=
  {| Mtzinfo.ident := 7;
     Mtzinfo.mtcoffset := fun dt =>
       match dt with
       | Some f =>
           if Mtzinfo.dt_fold f =? 0
           then Mtzinfo.RetDelta
                  {| Mtimedelta._sols := 0; Mtimedelta._seconds := 3600;
                     Mtimedelta._microseconds := 0 |}
           else Mtzinfo.RetDelta
                  {| Mtimedelta._sols := 1; Mtimedelta._seconds := 3600;
                     Mtimedelta._microseconds := 0 |}
       | None => Mtzinfo.RetNone
       end;
     Mtzinfo.dst := fun _ => Mtzinfo.RetNone |}.

Definition naive_example : Mdatetime.t :=
  {| Mdatetime._year := 219; Mdatetime._month := 13; Mdatetime._sol := 27;
     Mdatetime._hour := 9; Mdatetime._minute := 24; Mdatetime._second := 59;
     Mdatetime._microsecond := 0; Mdatetime._tzinfo := None;
     Mdatetime._fold := 0 |}.

Definition aware_example : Mdatetime.t :=
  {| Mdatetime._year := 219; Mdatetime._month := 13; Mdatetime._sol := 27;
     Mdatetime._hour := 9; Mdatetime._minute := 24; Mdatetime._second := 59;
     Mdatetime._microsecond := 0;
     Mdatetime._tzinfo := Some fold_sensitive_tz;
     Mdatetime._fold := 0 |}.

(** The ordinal of a date of the calendar, and the microseconds from the
    start of ordinal 0 to the wall-clock reading of a date-time. *)
Definition ordinal_value (y m d : Z) : Z :=
  _sols_before_year y + sbm_value m + d.

Definition instant (x : Mdatetime.t) : Z :=
  (ordinal_value (Mdatetime._year x) (Mdatetime._month x)
                 (Mdatetime._sol x) * 86400
   + Mdatetime._hour x * 3600 + Mdatetime._minute x * 60
   + Mdatetime._second x) * 1000000
  + Mdatetime._microsecond x.

(** The microseconds from midnight to the reading of a time. *)
Definition time_of_sol (x : Mtime.t) : Z :=
  (Mtime._hour x * 3600 + Mtime._minute x * 60 + Mtime._second x)
  * 1000000 + Mtime._microsecond x.

(** Two provider objects with one identity are one object. *)
Definition same_object (a b : option Mtzinfo.t) : Prop :=
  Mtzinfo.is_ a b = true -> a = b.

(** Every [Mtimedelta] a provider hands back is a constructed one. *)
Definition normal_offsets (tz : option Mtzinfo.t) : Prop :=
  forall p arg d,
    tz = Some p -> Mtzinfo.mtcoffset p arg = Mtzinfo.RetDelta d -> normal d.

(** A date-time with its fold set to 0, and the ten state bytes of a
    date-time below protocol 4. *)
Definition first_fold (x : Mdatetime.t) : Mdatetime.t :=
  {| Mdatetime._year := Mdatetime._year x;
     Mdatetime._month := Mdatetime._month x;
     Mdatetime._sol := Mdatetime._sol x;
     Mdatetime._hour := Mdatetime._hour x;
     Mdatetime._minute := Mdatetime._minute x;
     Mdatetime._second := Mdatetime._second x;
     Mdatetime._microsecond := Mdatetime._microsecond x;
     Mdatetime._tzinfo := Mdatetime._tzinfo x;
     Mdatetime._fold := 0 |}.

Definition state_bytes (x : Mdatetime.t) : list Z :=
  [Mdatetime._year x / 256; Mdatetime._year x mod 256;
   Mdatetime._month x; Mdatetime._sol x; Mdatetime._hour x;
   Mdatetime._minute x; Mdatetime._second x;
   Mdatetime._microsecond x / 256 / 256;
   Mdatetime._microsecond x / 256 mod 256;
   Mdatetime._microsecond x mod 256].

(** The six state bytes of a time below protocol 4, and what [hash] of an
    aware time is taken of when its reading less its offset is [minutes]
    whole minutes, [s] seconds and [us] microseconds. *)
Definition time_state (h m s us : Z) : list Z :=
  [h; m; s; us / 256 / 256; us / 256 mod 256; us mod 256].

Definition time_hash_key (minutes s us : Z) : Mtime.hashed :=
  if (0 <=? minutes / 60) && (minutes / 60 <? 24)
  then Mtime.HashBytes (time_state (minutes / 60) (minutes mod 60) s us)
  else Mtime.HashTuple (minutes / 60) (minutes mod 60) s us.

Definition valid_Mtime (x : Mtime.t) : Prop :=
  Mtime.__new__ (Mtime._hour x) (Mtime._minute x) (Mtime._second x)
                (Mtime._microsecond x) (Mtime._tzinfo x) (Mtime._fold x)
  = Ok x.

(** The reading of a time less its offset, the offset counted in whole
    minutes as [_cmp] and [__hash__] count it. *)
Definition mtc_minutes (x : Mtime.t) (off : Mtimedelta.t) : Z :=
  Mtime._hour x * 60 + Mtime._minute x
  - Mtimedelta._to_microseconds off / 60000000.

(** Two fixed-offset providers and three readings used as examples: noon
    one hour east of MTC, eleven at MTC, and a minute past a sol's end. *)
Definition east_tz : Mtzinfo.t :=
  Mtimezone._create 1 {| Mtimedelta._sols := 0; Mtimedelta._seconds := 3600;
                         Mtimedelta._microseconds := 0 |}.

Definition noon_east : Mdatetime.t :=
  {| Mdatetime._year := 219; Mdatetime._month := 13; Mdatetime._sol := 27;
     Mdatetime._hour := 12; Mdatetime._minute := 0; Mdatetime._second := 0;
     Mdatetime._microsecond := 0; Mdatetime._tzinfo := Some east_tz;
     Mdatetime._fold := 0 |}.

Definition eleven_mtc : Mdatetime.t :=
  {| Mdatetime._year := 219; Mdatetime._month := 13; Mdatetime._sol := 27;
     Mdatetime._hour := 11; Mdatetime._minute := 0; Mdatetime._second := 0;
     Mdatetime._microsecond := 0; Mdatetime._tzinfo := Some Mtimezone.mtc;
     Mdatetime._fold := 1 |}.

Definition noon_east_time : Mtime.t :=
  {| Mtime._hour := 12; Mtime._minute := 0; Mtime._second := 0;
     Mtime._microsecond := 0; Mtime._tzinfo := Some east_tz;
     Mtime._fold := 0 |}.

Definition eleven_mtc_time : Mtime.t :=
  {| Mtime._hour := 11; Mtime._minute := 0; Mtime._second := 0;
     Mtime._microsecond := 0; Mtime._tzinfo := Some Mtimezone.mtc;
     Mtime._fold := 1 |}.

(** A provider with the inherited [frommtc]: two hours east of MTC, one
    of them daylight saving time, and noon there. *)
Definition summer_tz : Mtzinfo.t :=
  {| Mtzinfo.ident := 3;
     Mtzinfo.mtcoffset := fun _ =>
       Mtzinfo.RetDelta {| Mtimedelta._sols := 0;
                           Mtimedelta._seconds := 7200;
                           Mtimedelta._microseconds := 0 |};
     Mtzinfo.dst := fun _ =>
       Mtzinfo.RetDelta {| Mtimedelta._sols := 0;
                           Mtimedelta._seconds := 3600;
                           Mtimedelta._microseconds := 0 |} |}.

Definition noon_summer : Mdatetime.t :=
  {| Mdatetime._year := 219; Mdatetime._month := 13; Mdatetime._sol := 27;
     Mdatetime._hour := 12; Mdatetime._minute := 0; Mdatetime._second := 0;
     Mdatetime._microsecond := 0; Mdatetime._tzinfo := Some summer_tz;
     Mdatetime._fold := 0 |}.

(** Case analysis on every integer comparison in sight. *)
Ltac compare_cases :=
  repeat match goal with
  | H : context [ ?a ?= ?b ] |- _ => destruct (Z.compare_spec a b)
  | |- context [ ?a ?= ?b ] => destruct (Z.compare_spec a b)
  end.

(** ** Facts about the helpers *)

Lemma forall_range_spec (k : nat) :
  forall lo p, forall_range k lo p = true ->
  forall z, lo <= z < lo + Z.of_nat k -> p z = true.
Proof.
  induction k as [|k IH]; intros lo p H z Hz.
  - simpl in Hz. lia.
  - simpl in H. apply andb_true_iff in H. destruct H as [H0 H1].
    destruct (Z.eq_dec z lo) as [->|Hne]; [exact H0|].
    apply (IH (lo + 1) p H1). lia.
Qed.

Lemma divides_mod (k y : Z) : 0 < k -> divides k y = (y mod k =? 0).
Proof.
  intros Hk. unfold divides.
  destruct (Z.eqb_spec (Z.rem y k) 0) as [Hr|Hr];
    destruct (Z.eqb_spec (y mod k) 0) as [Hm|Hm]; try reflexivity; exfalso.
  - apply Hm. apply Z.rem_divide in Hr; [|lia].
    apply Z.mod_divide; [lia|exact Hr].
  - apply Hr. apply Z.mod_divide in Hm; [|lia].
    apply Z.rem_divide; [lia|exact Hm].
Qed.

Lemma odd_mod2 (y : Z) : Z.odd y = (y mod 2 =? 1).
Proof.
  rewrite Zmod_odd. destruct (Z.odd y); reflexivity.
Qed.

(** C3. [_is_leap] is the five-band rule of the specification for every
    year: bands up to 2000 (always-leap modulus 1000, exception modulus 100),
    2001..4800 (exception 150), 4801..6800 (200), 6801..8400 (300) and above
    8400 (600); inside a band, in this order: divisible by the always-leap
    modulus is leap, divisible by the exception modulus is not, divisible by
    10 is leap, odd is leap, anything else is not.  Years 2000, 2010 and 2001
    are leap and 2100 is not. *)
Theorem is_leap_five_band_rule :
  (forall y : Z, _is_leap y = is_leap_spec y) /\
  _is_leap 2000 = true /\
  _is_leap 2100 = false /\
  _is_leap 2010 = true /\
  _is_leap 2001 = true.
Proof.
  split; [|repeat split; reflexivity].
  intros y. unfold is_leap_spec, leap_bands, leap_by_bands, band_rule,
    _is_leap; cbn [band_upto band_always band_exception].
  rewrite !divides_mod by lia. rewrite odd_mod2.
  reflexivity.
Qed.

(** ** Year lengths *)

Lemma year_length (y : Z) :
  _sols_before_year (y + 1) - _sols_before_year y
  = if _is_leap y then 669 else 668.
Proof.
  unfold _sols_before_year, _is_leap. cbv zeta.
  replace (y + 1 - 1) with y by lia.
  repeat match goal with
  | |- context [ ?a <=? ?b ] => destruct (Z.leb_spec a b)
  end; try lia;
  repeat match goal with
  | |- context [ ?a =? ?b ] => destruct (Z.eqb_spec a b)
  end; Z.div_mod_to_equations; lia.
Qed.

Lemma sols_in_month_value (y m : Z) :
  1 <= m <= 24 -> _sols_in_month y m = Ok (month_length y m).
Proof.
  intros Hm. unfold _sols_in_month, month_length.
  replace ((1 <=? m) && (m <=? 24)) with true
    by (symmetry; apply andb_true_iff; split; apply Z.leb_le; lia).
  cbn [py_assert bind].
  destruct ((m =? 6) || (m =? 12) || (m =? 18)); [reflexivity|].
  destruct ((m =? 24) && negb (_is_leap y)); reflexivity.
Qed.

Lemma sols_before_month_value (m : Z) :
  1 <= m <= 24 -> _sols_before_month m = Ok (sbm_value m).
Proof.
  intros Hm. unfold _sols_before_month, sbm_value.
  replace ((1 <=? m) && (m <=? 24)) with true
    by (symmetry; apply andb_true_iff; split; apply Z.leb_le; lia).
  reflexivity.
Qed.

Lemma sum_all_months (y : Z) :
  sum_sols_in_months y all_months = Ok (if _is_leap y then 669 else 668).
Proof.
  unfold all_months. cbn [sum_sols_in_months].
  rewrite !sols_in_month_value by lia.
  unfold month_length. cbn [bind Z.eqb Pos.eqb orb andb].
  destruct (_is_leap y); reflexivity.
Qed.

(** C2. For every year [y] with [0 <= y <= 9998], the difference
    [_sols_before_year(y+1) - _sols_before_year(y)] is the sum of
    [_sols_in_month(y, m)] over the months 1..24, which is 669 when
    [_is_leap(y)] holds and 668 otherwise; and [_sols_before_year(0)] is
    0. *)
Theorem sols_before_year_consistent (y : Z) :
  0 <= y <= 9998 ->
  sum_sols_in_months y all_months
  = Ok (_sols_before_year (y + 1) - _sols_before_year y)
  /\ _sols_before_year (y + 1) - _sols_before_year y
     = (if _is_leap y then 669 else 668)
  /\ _sols_before_year 0 = 0.
Proof.
  intros _. rewrite year_length, sum_all_months.
  repeat split; reflexivity.
Qed.

Lemma sols_before_year_consistent_witness :
  sum_sols_in_months 218 all_months
  = Ok (_sols_before_year (218 + 1) - _sols_before_year 218)
  /\ _sols_before_year (218 + 1) - _sols_before_year 218
     = (if _is_leap 218 then 669 else 668)
  /\ _sols_before_year 0 = 0.
Proof. apply (sols_before_year_consistent 218). lia. Defined.

(** ** Ordinals and dates *)

Lemma year_check_all : forall_range (Z.to_nat 10000) 0 year_check = true.
Proof. vm_compute. reflexivity. Qed.

Lemma month_sol_check_all : forall_range 669 1 month_sol_check = true.
Proof. vm_compute. reflexivity. Qed.

Lemma month_sol_inv_check_all :
  forall_range 24 1 month_sol_inv_check = true.
Proof. vm_compute. reflexivity. Qed.

Lemma year_facts (y : Z) :
  0 <= y <= 9999 ->
  y - 1 <= floordiv_668_59 (_sols_before_year y + 1)
  /\ floordiv_668_59 (_sols_before_year (y + 1)) <= y + 1
  /\ 0 <= _sols_before_year y
  /\ _sols_before_year (y + 1) <= _MAXORDINAL.
Proof.
  intros Hy.
  pose proof (forall_range_spec _ _ _ year_check_all y) as H.
  rewrite Z2Nat.id in H by lia. specialize (H ltac:(lia)).
  unfold year_check in H.
  repeat (apply andb_true_iff in H; destruct H as [H ?]).
  repeat split; apply Z.leb_le; assumption.
Qed.

Lemma floordiv_668_59_mono (a b : Z) :
  a <= b -> floordiv_668_59 a <= floordiv_668_59 b.
Proof.
  intros Hab. unfold floordiv_668_59.
  apply Z.div_le_mono; [reflexivity|].
  unfold float_668_59_den. lia.
Qed.

Lemma year_length_bounds (y : Z) :
  668 <= _sols_before_year (y + 1) - _sols_before_year y <= 669.
Proof. rewrite year_length. destruct (_is_leap y); lia. Qed.

Lemma year_of_correct (y n : Z) :
  0 <= y <= 9999 ->
  _sols_before_year y < n <= _sols_before_year (y + 1) ->
  year_of n = y.
Proof.
  intros Hy Hn.
  destruct (year_facts y Hy) as (Hlo & Hhi & _ & _).
  pose proof (floordiv_668_59_mono (_sols_before_year y + 1) n ltac:(lia)).
  pose proof (floordiv_668_59_mono n (_sols_before_year (y + 1)) ltac:(lia)).
  pose proof (year_length_bounds (y - 1)) as Hprev.
  replace (y - 1 + 1) with y in Hprev by lia.
  unfold year_of. cbv zeta.
  set (e := floordiv_668_59 n) in *.
  assert (He : e = y - 1 \/ e = y \/ e = y + 1) by lia.
  destruct He as [-> | [-> | ->]].
  - replace (y - 1 + 1) with y by lia.
    destruct (Z.leb_spec n (_sols_before_year (y - 1))); [lia|].
    destruct (Z.gtb_spec n (_sols_before_year y)); lia.
  - destruct (Z.leb_spec n (_sols_before_year y)); [lia|].
    destruct (Z.gtb_spec n (_sols_before_year (y + 1))); lia.
  - destruct (Z.leb_spec n (_sols_before_year (y + 1))); lia.
Qed.

Lemma find_year_upto (n : Z) (k : nat) :
  _sols_before_year 0 < n <= _sols_before_year (Z.of_nat k) ->
  exists y, 0 <= y < Z.of_nat k
            /\ _sols_before_year y < n <= _sols_before_year (y + 1).
Proof.
  induction k as [|k IH]; intros Hn.
  - simpl in Hn. lia.
  - destruct (Z_le_gt_dec n (_sols_before_year (Z.of_nat k))) as [Hle|Hgt].
    + destruct (IH ltac:(lia)) as (y & Hy & Hb). exists y.
      split; [lia|exact Hb].
    + exists (Z.of_nat k). rewrite Nat2Z.inj_succ in Hn.
      unfold Z.succ in Hn. split; lia.
Qed.

Lemma find_year (n : Z) :
  1 <= n <= _MAXORDINAL ->
  exists y, 0 <= y <= 9999
            /\ _sols_before_year y < n <= _sols_before_year (y + 1).
Proof.
  intros Hn.
  destruct (find_year_upto n (Z.to_nat 10000)) as (y & Hy & Hb).
  - rewrite Z2Nat.id by lia.
    change (_sols_before_year 0) with 0.
    change (_sols_before_year 10000) with 6685945.
    unfold _MAXORDINAL in Hn. lia.
  - rewrite Z2Nat.id in Hy by lia. exists y. split; [lia|exact Hb].
Qed.

Lemma ord2ymd_split (n : Z) :
  _ord2ymd n =
  ('(m, s) <- month_sol (n - _sols_before_year (year_of n)) ;;
   Ok (year_of n, m, s)).
Proof.
  unfold _ord2ymd, month_sol, year_of. cbv zeta.
  destruct (_sols_before_month _) as [sbm|e]; cbn [bind]; [|reflexivity].
  destruct (if _ <=? sbm then _ else _) as [m|e]; cbn [bind]; [|reflexivity].
  destruct (_sols_before_month m); reflexivity.
Qed.

Lemma month_sol_facts (n : Z) :
  1 <= n <= 669 ->
  exists m s, month_sol n = Ok (m, s)
    /\ 1 <= m <= 24 /\ 1 <= s <= longest m /\ sbm_value m + s = n
    /\ (m < 24 \/ n = 669 \/ s <= 27).
Proof.
  intros Hn.
  pose proof (forall_range_spec _ _ _ month_sol_check_all n ltac:(lia)) as H.
  unfold month_sol_check in H.
  destruct (month_sol n) as [[m s]|e]; [|discriminate].
  exists m, s.
  repeat (apply andb_true_iff in H; destruct H as [H ?]).
  repeat match goal with
  | H : (_ <=? _) = true |- _ => apply Z.leb_le in H
  | H : (_ =? _) = true |- _ => apply Z.eqb_eq in H
  end.
  repeat split; try assumption.
  repeat match goal with
  | H : (_ || _) = true |- _ => apply orb_true_iff in H; destruct H as [H|H]
  end.
  - left. apply Z.ltb_lt. assumption.
  - right. left. apply Z.eqb_eq. assumption.
  - right. right. apply Z.leb_le. assumption.
Qed.

Lemma month_sol_inverse (m s : Z) :
  1 <= m <= 24 -> 1 <= s <= longest m ->
  month_sol (sbm_value m + s) = Ok (m, s)
  /\ (sbm_value m + s <= 668 \/ (m = 24 /\ s = 28)).
Proof.
  intros Hm Hs.
  pose proof (forall_range_spec _ _ _ month_sol_inv_check_all m ltac:(lia))
    as H.
  unfold month_sol_inv_check in H.
  assert (Hs28 : 1 <= s < 1 + Z.of_nat 28).
  { unfold longest in Hs. destruct (_ || _) in Hs; lia. }
  pose proof (forall_range_spec _ _ _ H s Hs28) as H'.
  clear H. cbv beta in H'.
  destruct (Z.leb_spec s (longest m)); [|lia].
  destruct (month_sol (sbm_value m + s)) as [[m' s']|e]; [|discriminate].
  apply andb_true_iff in H'. destruct H' as [Hfound Hin].
  apply andb_true_iff in Hfound. destruct Hfound as [Hm' Hs'].
  apply Z.eqb_eq in Hm', Hs'. subst m' s'.
  split; [reflexivity|].
  apply orb_true_iff in Hin. destruct Hin as [Hin|Hin].
  - left. apply Z.leb_le. assumption.
  - right. apply andb_true_iff in Hin. destruct Hin as [Hm24 Hd28].
    apply Z.eqb_eq in Hm24, Hd28. split; assumption.
Qed.

Lemma month_length_le_longest (y m : Z) : month_length y m <= longest m.
Proof.
  unfold month_length, longest.
  destruct (_ || _); [lia|]. destruct (_ && _); lia.
Qed.

Lemma ymd2ord_value (y m d : Z) :
  1 <= m <= 24 -> 1 <= d <= month_length y m ->
  _ymd2ord y m d = Ok (_sols_before_year y + sbm_value m + d).
Proof.
  intros Hm Hd. unfold _ymd2ord.
  rewrite sols_in_month_value, sols_before_month_value by assumption.
  replace ((1 <=? m) && (m <=? 24)) with true
    by (symmetry; apply andb_true_iff; split; apply Z.leb_le; lia).
  cbn [py_assert bind].
  replace ((1 <=? d) && (d <=? month_length y m)) with true
    by (symmetry; apply andb_true_iff; split; apply Z.leb_le; lia).
  reflexivity.
Qed.

(** From an ordinal of the supported range to a date of the calendar. *)
Lemma ord2ymd_valid (n : Z) :
  1 <= n <= _MAXORDINAL ->
  exists y m d,
    _ord2ymd n = Ok (y, m, d)
    /\ 0 <= y <= 9999 /\ 1 <= m <= 24 /\ 1 <= d <= month_length y m
    /\ _sols_before_year y + sbm_value m + d = n.
Proof.
  intros Hn.
  destruct (find_year n Hn) as (y & Hy & Hb).
  pose proof (year_length y) as Hlen.
  destruct (month_sol_facts (n - _sols_before_year y)) as
    (m & s & Hms & Hm & Hs & Hsum & Hlast).
  { pose proof (year_length_bounds y). lia. }
  exists y, m, s.
  rewrite ord2ymd_split, (year_of_correct y n Hy Hb), Hms.
  split; [reflexivity|].
  repeat split; try lia.
  unfold month_length, longest in *.
  destruct ((m =? 6) || (m =? 12) || (m =? 18)); [lia|].
  destruct (Z.eqb_spec m 24) as [->|Hne]; cbn [andb]; [|lia].
  destruct (_is_leap y); cbn [negb]; lia.
Qed.

(** From a date of the calendar to an ordinal of the supported range, and
    back. *)
Lemma ymd2ord_inverse (y m d : Z) :
  0 <= y <= 9999 -> 1 <= m <= 24 -> 1 <= d <= month_length y m ->
  let n := _sols_before_year y + sbm_value m + d in
  _ymd2ord y m d = Ok n /\ 1 <= n <= _MAXORDINAL
  /\ _ord2ymd n = Ok (y, m, d).
Proof.
  intros Hy Hm Hd n.
  pose proof (month_length_le_longest y m) as Hlong.
  destruct (month_sol_inverse m d Hm ltac:(lia)) as [Hms Hin].
  destruct (year_facts y Hy) as (_ & _ & H0 & Hmax).
  pose proof (year_length y) as Hlen.
  assert (Hsb : 0 <= sbm_value m).
  { unfold sbm_value. Z.div_mod_to_equations. lia. }
  assert (Hb : _sols_before_year y < n <= _sols_before_year (y + 1)).
  { subst n. destruct Hin as [Hle|[-> ->]].
    - destruct (_is_leap y); lia.
    - unfold month_length in Hd. cbn [Z.eqb Pos.eqb orb andb] in Hd.
      destruct (_is_leap y); cbn [negb] in Hd; [|lia].
      change (sbm_value 24) with 641. lia. }
  split; [apply ymd2ord_value; assumption|].
  split; [lia|].
  rewrite ord2ymd_split, (year_of_correct y n Hy Hb).
  replace (n - _sols_before_year y) with (sbm_value m + d) by (subst n; lia).
  rewrite Hms. reflexivity.
Qed.

(** C1. Ordinals and dates convert into each other without loss on the
    supported range: for every ordinal [n] in [1, 6685945], [_ymd2ord] of
    the triple returned by [_ord2ymd(n)] is [n]; and for every year in
    0..9999, month in 1..24 and sol between 1 and [_sols_in_month(year,
    month)], [_ord2ymd] of [_ymd2ord(year, month, sol)] is exactly (year,
    month, sol). *)
Theorem ordinal_date_roundtrip :
  (forall n : Z, 1 <= n <= 6685945 ->
     exists y m d, _ord2ymd n = Ok (y, m, d) /\ _ymd2ord y m d = Ok n)
  /\
  (forall year month sol dim : Z,
     0 <= year <= 9999 -> 1 <= month <= 24 ->
     _sols_in_month year month = Ok dim -> 1 <= sol <= dim ->
     exists n, _ymd2ord year month sol = Ok n
               /\ _ord2ymd n = Ok (year, month, sol)).
Proof.
  split.
  - intros n Hn.
    destruct (ord2ymd_valid n Hn) as (y & m & d & Ho & Hy & Hm & Hd & Hsum).
    exists y, m, d. split; [exact Ho|].
    rewrite ymd2ord_value by assumption. f_equal. exact Hsum.
  - intros year month sol dim Hy Hm Hdim Hs.
    rewrite sols_in_month_value in Hdim by assumption.
    injection Hdim as <-.
    destruct (ymd2ord_inverse year month sol Hy Hm Hs) as (Ho & _ & Hback).
    eexists. split; [exact Ho|exact Hback].
Qed.

Lemma ordinal_date_roundtrip_witness :
  (exists y m d, _ord2ymd 146400 = Ok (y, m, d)
                 /\ _ymd2ord y m d = Ok 146400)
  /\ (exists n, _ymd2ord 219 13 27 = Ok n
                /\ _ord2ymd n = Ok (219, 13, 27)).
Proof.
  destruct ordinal_date_roundtrip as [Hord Hdate]. split.
  - apply (Hord 146400). lia.
  - apply (Hdate 219 13 27 28); [lia|lia|reflexivity|lia].
Defined.

(** ** Durations *)

Lemma assert_pass {A : Type} (b : bool) (k : unit -> result A) :
  b = true -> bind (py_assert b) k = k tt.
Proof. intros ->. reflexivity. Qed.

(** The constructor computes the normalized triple of the net duration, or
    raises [OverflowError]. *)
Lemma new_normalizes
  (sols seconds microseconds milliseconds minutes hours weeks : Z) :
  let total := total_microseconds sols seconds microseconds milliseconds
                                  minutes hours weeks in
  Mtimedelta.__new__ sols seconds microseconds milliseconds minutes hours
                     weeks
  = if Z.abs (total / 86400000000) >? 999999999 then Raise OverflowError
    else Ok (normalized total).
Proof.
  intros total. subst total.
  unfold Mtimedelta.__new__, total_microseconds, normalized, divmod.
  cbv zeta. cbv beta iota.
  change (24 * 3600) with 86400.
  set (S := seconds + (minutes * 60 + hours * 3600)).
  set (U := microseconds + milliseconds * 1000).
  set (D := sols + weeks * 7).
  rewrite assert_pass by reflexivity.
  rewrite assert_pass
    by (apply Z.leb_le; pose proof (Z.mod_pos_bound S 86400); lia).
  rewrite assert_pass by
    (apply Z.leb_le; pose proof (Z.mod_pos_bound S 86400);
     pose proof (Z.mod_pos_bound (U / 1000000) 86400); lia).
  rewrite assert_pass by
    (apply Z.ltb_lt; pose proof (Z.mod_pos_bound U 1000000); lia).
  rewrite assert_pass by
    (apply andb_true_iff; split; [apply Z.leb_le|apply Z.ltb_lt];
     match goal with |- context [ ?a mod 86400 ] =>
       pose proof (Z.mod_pos_bound a 86400) end; lia).
  rewrite assert_pass by
    (apply andb_true_iff; split; [apply Z.leb_le|apply Z.ltb_lt];
     pose proof (Z.mod_pos_bound (U mod 1000000) 1000000); lia).
  assert (Hd : D + S / 86400 + U / 1000000 / 86400
               + (0 + S mod 86400 + U / 1000000 mod 86400
                  + U mod 1000000 / 1000000) / 86400
               = ((D * 86400 + seconds + minutes * 60 + hours * 3600)
                  * 1000000 + microseconds + milliseconds * 1000)
                 / 86400000000).
  { subst S U D. Z.div_mod_to_equations. lia. }
  rewrite Hd.
  destruct (_ >? 999999999); [reflexivity|].
  f_equal. f_equal.
  - subst S U D. Z.div_mod_to_equations. lia.
  - subst S U D. Z.div_mod_to_equations. lia.
Qed.

Lemma normalized_normal (total : Z) :
  Z.abs (total / 86400000000) <= 999999999 -> normal (normalized total).
Proof.
  intros Hb. unfold normal, normalized. cbn.
  pose proof (Z.mod_pos_bound (total / 1000000) 86400).
  pose proof (Z.mod_pos_bound total 1000000).
  lia.
Qed.

(** A triple that satisfies the invariant is the normalized triple of its
    own microsecond count. *)
Lemma normalized_to_microseconds (t : Mtimedelta.t) :
  0 <= Mtimedelta._seconds t <= 86399 ->
  0 <= Mtimedelta._microseconds t <= 999999 ->
  normalized (Mtimedelta._to_microseconds t) = t.
Proof.
  destruct t as [d s us]. unfold normalized, Mtimedelta._to_microseconds.
  cbn. intros Hs Hus. f_equal; Z.div_mod_to_equations; lia.
Qed.

Lemma sols_of_to_microseconds (t : Mtimedelta.t) :
  0 <= Mtimedelta._seconds t <= 86399 ->
  0 <= Mtimedelta._microseconds t <= 999999 ->
  Mtimedelta._to_microseconds t / 86400000000 = Mtimedelta._sols t.
Proof.
  intros Hs Hus.
  pose proof (normalized_to_microseconds t Hs Hus) as H.
  apply (f_equal Mtimedelta._sols) in H. exact H.
Qed.

Lemma new_ok_inv
  (sols seconds microseconds milliseconds minutes hours weeks : Z)
  (t : Mtimedelta.t) :
  Mtimedelta.__new__ sols seconds microseconds milliseconds minutes hours
                     weeks = Ok t ->
  let total := total_microseconds sols seconds microseconds milliseconds
                                  minutes hours weeks in
  t = normalized total /\ Z.abs (total / 86400000000) <= 999999999.
Proof.
  rewrite new_normalizes. cbv zeta.
  destruct (Z.gtb_spec (Z.abs (total_microseconds sols seconds microseconds
    milliseconds minutes hours weeks / 86400000000)) 999999999) as [Hgt|Hle];
    [discriminate|].
  intros [= <-]. split; [reflexivity|lia].
Qed.

Lemma new_ok_to_microseconds
  (sols seconds microseconds milliseconds minutes hours weeks : Z)
  (t : Mtimedelta.t) :
  Mtimedelta.__new__ sols seconds microseconds milliseconds minutes hours
                     weeks = Ok t ->
  normal t /\
  Mtimedelta._to_microseconds t
  = total_microseconds sols seconds microseconds milliseconds minutes hours
                       weeks.
Proof.
  intros H. apply new_ok_inv in H. cbv zeta in H. destruct H as [-> Hb].
  split; [apply normalized_normal; exact Hb|].
  unfold normalized, Mtimedelta._to_microseconds. cbn.
  Z.div_mod_to_equations. lia.
Qed.

Lemma tuple_compare_refl (xs : list Z) : tuple_compare xs xs = Eq.
Proof.
  induction xs as [|x xs IH]; [reflexivity|].
  cbn. rewrite Z.compare_refl. exact IH.
Qed.

Lemma Mtimedelta_eq_refl (a : Mtimedelta.t) : Mtimedelta.__eq__ a a = true.
Proof.
  unfold Mtimedelta.__eq__, Mtimedelta._cmp, _cmp.
  rewrite tuple_compare_refl. reflexivity.
Qed.

(** C4. Normalization does not depend on the decomposition, for integer
    arguments: two argument tuples (sols, seconds, microseconds,
    milliseconds, minutes, hours, weeks) with the same net total in
    microseconds construct the same value, and [==] holds between the two
    constructed values.  In particular [Mtimedelta(sols=1)],
    [Mtimedelta(seconds=86400)] and [Mtimedelta(hours=24)] are equal. *)
Theorem normalization_decomposition_independent :
  (forall sols1 seconds1 microseconds1 milliseconds1 minutes1 hours1 weeks1
          sols2 seconds2 microseconds2 milliseconds2 minutes2 hours2 weeks2,
     total_microseconds sols1 seconds1 microseconds1 milliseconds1 minutes1
                        hours1 weeks1
     = total_microseconds sols2 seconds2 microseconds2 milliseconds2 minutes2
                          hours2 weeks2 ->
     Mtimedelta.__new__ sols1 seconds1 microseconds1 milliseconds1 minutes1
                        hours1 weeks1
     = Mtimedelta.__new__ sols2 seconds2 microseconds2 milliseconds2 minutes2
                          hours2 weeks2
     /\ forall a b,
          Mtimedelta.__new__ sols1 seconds1 microseconds1 milliseconds1
                             minutes1 hours1 weeks1 = Ok a ->
          Mtimedelta.__new__ sols2 seconds2 microseconds2 milliseconds2
                             minutes2 hours2 weeks2 = Ok b ->
          Mtimedelta.__eq__ a b = true)
  /\
  (exists a b c,
     Mtimedelta.__new__ 1 0 0 0 0 0 0 = Ok a
     /\ Mtimedelta.__new__ 0 86400 0 0 0 0 0 = Ok b
     /\ Mtimedelta.__new__ 0 0 0 0 0 24 0 = Ok c
     /\ Mtimedelta.__eq__ a b = true /\ Mtimedelta.__eq__ b c = true).
Proof.
  split.
  - intros s1 e1 u1 m1 n1 h1 w1 s2 e2 u2 m2 n2 h2 w2 Htotal.
    assert (Hsame : Mtimedelta.__new__ s1 e1 u1 m1 n1 h1 w1
                    = Mtimedelta.__new__ s2 e2 u2 m2 n2 h2 w2).
    { rewrite !new_normalizes. cbv zeta. rewrite Htotal. reflexivity. }
    split; [exact Hsame|].
    intros a b Ha Hb. rewrite Hsame, Hb in Ha. injection Ha as ->.
    apply Mtimedelta_eq_refl.
  - eexists. eexists. eexists.
    repeat split; reflexivity.
Qed.

Lemma normalization_decomposition_independent_witness :
  Mtimedelta.__new__ 0 90061 0 0 0 0 0
  = Mtimedelta.__new__ 1 1 0 0 1 1 0.
Proof.
  destruct normalization_decomposition_independent as [Hindep _].
  apply (Hindep 0 90061 0 0 0 0 0 1 1 0 0 1 1 0). reflexivity.
Defined.

(** ** The constructor on [int]s and [float]s *)

Lemma digits2_pos_bounds (p : positive) :
  2 ^ (Zpos (digits2_pos p) - 1) <= Zpos p < 2 ^ Zpos (digits2_pos p).
Proof.
  induction p as [p IH|p IH|]; cbn [digits2_pos].
  - rewrite Pos2Z.inj_succ.
    replace (Z.succ (Zpos (digits2_pos p)) - 1)
      with (Z.succ (Zpos (digits2_pos p) - 1)) by lia.
    rewrite !Z.pow_succ_r by lia. lia.
  - rewrite Pos2Z.inj_succ.
    replace (Z.succ (Zpos (digits2_pos p)) - 1)
      with (Z.succ (Zpos (digits2_pos p) - 1)) by lia.
    rewrite !Z.pow_succ_r by lia. lia.
  - vm_compute. split; [discriminate|reflexivity].
Qed.

Lemma iter_xO_value (p k : positive) :
  Zpos (Pos.iter xO p k) = Zpos p * 2 ^ Zpos k.
Proof.
  induction k as [|k IH] using Pos.peano_ind.
  - cbn [Pos.iter]. lia.
  - rewrite Pos.iter_succ, Pos2Z.inj_succ, Z.pow_succ_r by lia.
    change (Zpos (Pos.iter xO p k)~0) with (2 * Zpos (Pos.iter xO p k)).
    rewrite IH. lia.
Qed.

Lemma iter_xO_digits (p k : positive) :
  Zpos (digits2_pos (Pos.iter xO p k)) = Zpos (digits2_pos p) + Zpos k.
Proof.
  induction k as [|k IH] using Pos.peano_ind.
  - cbn [Pos.iter digits2_pos]. lia.
  - rewrite Pos.iter_succ. cbn [digits2_pos].
    rewrite Pos2Z.inj_succ, IH. lia.
Qed.

(** A mantissa of 53 bits with an exponent in range is kept as it is. *)
Lemma binary_round_aux_exact (s : bool) (m : positive) (e : Z) :
  Zpos (digits2_pos m) = 53 -> -1074 <= e <= 971 ->
  binary_round_aux 53 1024 s (Zpos m) e loc_Exact = S754_finite s m e.
Proof.
  intros Hd He.
  assert (Hshift : fexp 53 1024 (Zdigits2 (Zpos m) + e) - e = 0).
  { unfold fexp, emin. cbn [Zdigits2]. rewrite Hd. lia. }
  unfold binary_round_aux, shr_fexp.
  rewrite Hshift.
  cbn [shr shr_record_of_loc shr_m loc_of_shr_record round_nearest_even].
  rewrite Hshift.
  cbn [shr shr_record_of_loc shr_m].
  destruct (Z.leb_spec e (1024 - 53)) as [_|Hbad]; [reflexivity|lia].
Qed.

(** The float of a positive integer below [2^52] holds it exactly, with
    a negative exponent. *)
Lemma float_of_int_small (z : Z) :
  0 < z < 2 ^ 52 ->
  exists m e, float_of_int z = Ok (S754_finite false m e)
              /\ e < 0 /\ Zpos m = z * 2 ^ (- e).
Proof.
  intros Hz. destruct z as [|p|p]; try lia.
  pose proof (digits2_pos_bounds p) as Hd.
  assert (Hlen : Zpos (digits2_pos p) <= 52).
  { destruct (Z_le_dec (Zpos (digits2_pos p)) 52) as [H|H]; [exact H|].
    exfalso.
    assert (2 ^ 52 <= 2 ^ (Zpos (digits2_pos p) - 1))
      by (apply Z.pow_le_mono_r; lia).
    lia. }
  unfold float_of_int, binary_normalize, binary_round.
  set (target := fexp 53 1024 (Zpos (digits2_pos p) + 0)).
  assert (Ht : target = Zpos (digits2_pos p) - 53)
    by (unfold target, fexp, emin; lia).
  unfold shl_align.
  destruct (target - 0) as [|k|k] eqn:Hk; try lia.
  assert (Hkv : Zpos k = 53 - Zpos (digits2_pos p)) by lia.
  rewrite binary_round_aux_exact.
  - exists (Pos.iter xO p k), target.
    split; [reflexivity|]. split; [lia|].
    rewrite iter_xO_value. f_equal. f_equal. lia.
  - rewrite iter_xO_digits. lia.
  - lia.
Qed.

(** An integer below [2^52] survives the trip through a float that
    [round(microseconds + usdouble)] makes when [usdouble] is zero. *)
Lemma round_small {A : Type} (z : Z) (k : Z -> result A) :
  0 <= z < 2 ^ 52 ->
  (m <- float_of_int z ;;
   r <- round_float (float_add m (S754_zero false)) ;;
   k r)
  = k z.
Proof.
  intros Hz. destruct (Z.eq_dec z 0) as [->|Hnz]; [reflexivity|].
  destruct (float_of_int_small z ltac:(lia)) as (m & e & Hf & He & Hm).
  rewrite Hf. cbn [bind].
  change (float_add (S754_finite false m e) (S754_zero false))
    with (S754_finite false m e).
  unfold round_float.
  destruct (Z.leb_spec 0 e) as [Hbad|_]; [lia|].
  assert (Hpow : 0 < 2 ^ (- e)) by (apply Z.pow_pos_nonneg; lia).
  rewrite Hm.
  rewrite Z.mod_mul by lia. rewrite Z.div_mul by lia.
  destruct (Z.compare_spec (2 * 0) (2 ^ (- e))) as [H|H|H]; try lia.
  reflexivity.
Qed.

(** The last step of the constructor: the normalized triple of the
    microseconds in [d], [s] and [microseconds], or [OverflowError]. *)
Lemma carry_normalizes (d s microseconds : Z) :
  let total := (d * 86400 + s) * 1000000 + microseconds in
  Mtimedelta.carry d s microseconds
  = if Z.abs (total / 86400000000) >? 999999999 then Raise OverflowError
    else Ok (normalized total).
Proof.
  intros total. subst total.
  unfold Mtimedelta.carry, normalized, divmod.
  cbv zeta. cbv beta iota.
  change (24 * 3600) with 86400.
  rewrite assert_pass by
    (apply andb_true_iff; split; [apply Z.leb_le|apply Z.ltb_lt];
     match goal with |- context [ ?a mod 86400 ] =>
       pose proof (Z.mod_pos_bound a 86400) end; lia).
  rewrite assert_pass by
    (apply andb_true_iff; split; [apply Z.leb_le|apply Z.ltb_lt];
     pose proof (Z.mod_pos_bound microseconds 1000000); lia).
  assert (Hd : d + (s + microseconds / 1000000) / 86400
               = ((d * 86400 + s) * 1000000 + microseconds) / 86400000000)
    by (Z.div_mod_to_equations; lia).
  rewrite Hd.
  destruct (_ >? 999999999); [reflexivity|].
  f_equal. f_equal; Z.div_mod_to_equations; lia.
Qed.

(** On [int] arguments no fraction is met, and the integers left are
    those of the integer constructor. *)
Lemma whole_units_int
  (sols seconds microseconds milliseconds minutes hours weeks : Z) :
  let D := sols + weeks * 7 in
  let S := seconds + (minutes * 60 + hours * 3600) in
  let U := microseconds + milliseconds * 1000 in
  Mtimedelta.whole_units (Int sols) (Int seconds) (Int microseconds)
    (Int milliseconds) (Int minutes) (Int hours) (Int weeks)
  = Ok (D + S / 86400 + U / 1000000 / 86400,
        0 + S mod 86400 + U / 1000000 mod 86400,
        U mod 1000000).
Proof.
  intros D S U.
  unfold Mtimedelta.whole_units, number_mul, number_add, divmod.
  cbn [bind]. cbv zeta. cbv beta iota.
  change (24 * 3600) with 86400.
  fold D. fold S. fold U.
  pose proof (Z.mod_pos_bound S 86400 ltac:(lia)) as HS.
  pose proof (Z.mod_pos_bound (U / 1000000) 86400 ltac:(lia)) as HU.
  pose proof (Z.mod_pos_bound U 1000000 ltac:(lia)) as Hus.
  rewrite assert_pass by (vm_compute; reflexivity).
  rewrite assert_pass by reflexivity.
  rewrite assert_pass by (vm_compute; reflexivity).
  rewrite assert_pass by (apply Z.leb_le; lia).
  change (float_mul (S754_zero false) (float_literal 1000000))
    with (S754_zero false).
  rewrite assert_pass by (vm_compute; reflexivity).
  rewrite round_small by lia.
  cbn [bind].
  rewrite assert_pass by (apply Z.leb_le; lia).
  rewrite assert_pass by (apply Z.ltb_lt; lia).
  reflexivity.
Qed.

(** The constructor on numbers, given [int]s, is the integer
    constructor. *)
Lemma new_number_int
  (sols seconds microseconds milliseconds minutes hours weeks : Z) :
  Mtimedelta.__new__number (Int sols) (Int seconds) (Int microseconds)
    (Int milliseconds) (Int minutes) (Int hours) (Int weeks)
  = Mtimedelta.__new__ sols seconds microseconds milliseconds minutes
                       hours weeks.
Proof.
  unfold Mtimedelta.__new__number.
  rewrite whole_units_int. cbv zeta. cbn [bind].
  rewrite carry_normalizes, new_normalizes. cbv zeta.
  unfold total_microseconds.
  set (D := sols + weeks * 7).
  set (S := seconds + (minutes * 60 + hours * 3600)).
  set (U := microseconds + milliseconds * 1000).
  assert (Ht : (((D + S / 86400 + U / 1000000 / 86400) * 86400
                 + (0 + S mod 86400 + U / 1000000 mod 86400)) * 1000000
                + U mod 1000000)
               = (D * 86400 + seconds + minutes * 60 + hours * 3600)
                 * 1000000 + microseconds + milliseconds * 1000).
  { subst D S U. Z.div_mod_to_equations. lia. }
  rewrite Ht. reflexivity.
Qed.

(** Whatever the arguments, a value that the constructor returns obeys
    the invariant. *)
Lemma new_number_normal
  (sols seconds microseconds milliseconds minutes hours weeks : number)
  (t : Mtimedelta.t) :
  Mtimedelta.__new__number sols seconds microseconds milliseconds minutes
                           hours weeks = Ok t ->
  normal t.
Proof.
  unfold Mtimedelta.__new__number.
  destruct (Mtimedelta.whole_units _ _ _ _ _ _ _) as [[[d s] us]|e];
    [|discriminate].
  cbn [bind]. rewrite carry_normalizes. cbv zeta.
  destruct (Z.gtb_spec
              (Z.abs (((d * 86400 + s) * 1000000 + us) / 86400000000))
              999999999) as [Hgt|Hle]; [discriminate|].
  intros [= <-]. apply normalized_normal. exact Hle.
Qed.

(** C5. Every successfully constructed [Mtimedelta] has [0 <= seconds <=
    86399], [0 <= microseconds <= 999999] and [|sols| <= 999999999],
    whatever the signs of the arguments and whether they are [int]s or
    [float]s; a construction whose normalized sols count exceeds 999999999
    in absolute value raises [OverflowError], both when that count is taken
    of the integers the constructor is left with once the fractions are
    gone and, for [int] arguments, when it is taken of their net total.
    [Mtimedelta(sols=1000000000)] overflows and
    [Mtimedelta(sols=999999999)] succeeds. *)
Theorem constructed_duration_invariant :
  (forall sols seconds microseconds milliseconds minutes hours weeks t,
     Mtimedelta.__new__number sols seconds microseconds milliseconds
                              minutes hours weeks = Ok t ->
     0 <= Mtimedelta._seconds t <= 86399
     /\ 0 <= Mtimedelta._microseconds t <= 999999
     /\ Z.abs (Mtimedelta._sols t) <= 999999999)
  /\
  (forall sols seconds microseconds milliseconds minutes hours weeks d s us,
     Mtimedelta.whole_units sols seconds microseconds milliseconds minutes
                            hours weeks = Ok (d, s, us) ->
     Z.abs (Mtimedelta._sols
              (normalized ((d * 86400 + s) * 1000000 + us)))
     > 999999999 ->
     Mtimedelta.__new__number sols seconds microseconds milliseconds
                              minutes hours weeks = Raise OverflowError)
  /\
  (forall sols seconds microseconds milliseconds minutes hours weeks,
     Z.abs (Mtimedelta._sols
              (normalized (total_microseconds sols seconds microseconds
                             milliseconds minutes hours weeks)))
     > 999999999 ->
     Mtimedelta.__new__number (Int sols) (Int seconds) (Int microseconds)
       (Int milliseconds) (Int minutes) (Int hours) (Int weeks)
     = Raise OverflowError)
  /\ Mtimedelta.__new__number (Int 1000000000) (Int 0) (Int 0) (Int 0)
       (Int 0) (Int 0) (Int 0) = Raise OverflowError
  /\ Mtimedelta.__new__number (Int 999999999) (Int 0) (Int 0) (Int 0)
       (Int 0) (Int 0) (Int 0)
     = Ok {| Mtimedelta._sols := 999999999; Mtimedelta._seconds := 0;
             Mtimedelta._microseconds := 0 |}.
Proof.
  split; [|split; [|split; [|split]]].
  - intros sols seconds microseconds milliseconds minutes hours weeks t H.
    exact (new_number_normal _ _ _ _ _ _ _ t H).
  - intros sols seconds microseconds milliseconds minutes hours weeks
      d s us Hparts H.
    unfold Mtimedelta.__new__number. rewrite Hparts. cbn [bind].
    rewrite carry_normalizes. cbv zeta. unfold normalized in H. cbn in H.
    destruct (Z.gtb_spec
                (Z.abs (((d * 86400 + s) * 1000000 + us) / 86400000000))
                999999999); [reflexivity|lia].
  - intros sols seconds microseconds milliseconds minutes hours weeks H.
    rewrite new_number_int, new_normalizes. cbv zeta.
    unfold normalized in H. cbn in H.
    destruct (Z.gtb_spec (Z.abs (total_microseconds sols seconds microseconds
      milliseconds minutes hours weeks / 86400000000)) 999999999);
      [reflexivity|lia].
  - rewrite new_number_int. reflexivity.
  - rewrite new_number_int. reflexivity.
Qed.

Lemma constructed_duration_invariant_witness :
  (0 <= 86399 <= 86399 /\ 0 <= 500000 <= 999999 /\ Z.abs (-1) <= 999999999)
  /\ Mtimedelta.__new__number (Float (float_literal 1000000000)) (Int 0)
       (Float (float_of_parts true 1 (-1))) (Int 0) (Int 0) (Int 0) (Int 0)
     = Raise OverflowError
  /\ Mtimedelta.__new__number (Int (-1000000000)) (Int 0) (Int (-1)) (Int 0)
       (Int 0) (Int 0) (Int 0) = Raise OverflowError.
Proof.
  destruct constructed_duration_invariant as (Hinv & Hover & Hint & _).
  split; [|split].
  - apply (Hinv (Int 0) (Float (float_of_parts true 1 (-1))) (Int 0)
             (Int 0) (Int 0) (Int 0) (Int 0)
             {| Mtimedelta._sols := -1; Mtimedelta._seconds := 86399;
                Mtimedelta._microseconds := 500000 |}).
    vm_compute. reflexivity.
  - apply (Hover (Float (float_literal 1000000000)) (Int 0)
             (Float (float_of_parts true 1 (-1))) (Int 0) (Int 0) (Int 0)
             (Int 0) 1000000000 0 0).
    + vm_compute. reflexivity.
    + vm_compute. reflexivity.
  - apply (Hint (-1000000000) 0 (-1) 0 0 0 0). vm_compute. reflexivity.
Defined.

(** C6. Addition of [Mtimedelta] values is commutative and subtraction
    undoes it: for all values [a] and [b] whose sum does not overflow,
    [(a + b) - b == a] and [a + b == b + a]. *)
Theorem duration_add_sub (a b c : Mtimedelta.t) :
  normal a -> normal b ->
  Mtimedelta.__add__ a b = Ok c ->
  (exists r, Mtimedelta.__sub__ c b = Ok r /\ r = a
             /\ Mtimedelta.__eq__ r a = true)
  /\ (exists c', Mtimedelta.__add__ b a = Ok c' /\ c' = c
                 /\ Mtimedelta.__eq__ c c' = true).
Proof.
  intros (Has & Hau & Had) _ Hsum. split.
  - exists a. split; [|split; [reflexivity|apply Mtimedelta_eq_refl]].
    unfold Mtimedelta.__add__ in Hsum.
    apply new_ok_to_microseconds in Hsum. destruct Hsum as [_ Hc].
    unfold Mtimedelta.__sub__. rewrite new_normalizes. cbv zeta.
    assert (Ht : total_microseconds
                   (Mtimedelta._sols c - Mtimedelta._sols b)
                   (Mtimedelta._seconds c - Mtimedelta._seconds b)
                   (Mtimedelta._microseconds c - Mtimedelta._microseconds b)
                   0 0 0 0
                 = Mtimedelta._to_microseconds a).
    { unfold total_microseconds, Mtimedelta._to_microseconds in *. lia. }
    rewrite Ht, sols_of_to_microseconds, normalized_to_microseconds
      by assumption.
    destruct (Z.gtb_spec (Z.abs (Mtimedelta._sols a)) 999999999);
      [lia|reflexivity].
  - exists c. split; [|split; [reflexivity|apply Mtimedelta_eq_refl]].
    rewrite <- Hsum. unfold Mtimedelta.__add__.
    f_equal; apply Z.add_comm.
Qed.

Lemma duration_add_sub_witness :
  (exists r, Mtimedelta.__sub__
               {| Mtimedelta._sols := 1; Mtimedelta._seconds := 1;
                  Mtimedelta._microseconds := 1 |}
               {| Mtimedelta._sols := 2; Mtimedelta._seconds := 5;
                  Mtimedelta._microseconds := 8 |} = Ok r
             /\ r = {| Mtimedelta._sols := -2; Mtimedelta._seconds := 86395;
                       Mtimedelta._microseconds := 999993 |}
             /\ Mtimedelta.__eq__ r
                  {| Mtimedelta._sols := -2; Mtimedelta._seconds := 86395;
                     Mtimedelta._microseconds := 999993 |} = true)
  /\ (exists c', Mtimedelta.__add__
                   {| Mtimedelta._sols := 2; Mtimedelta._seconds := 5;
                      Mtimedelta._microseconds := 8 |}
                   {| Mtimedelta._sols := -2; Mtimedelta._seconds := 86395;
                      Mtimedelta._microseconds := 999993 |} = Ok c'
                 /\ c' = {| Mtimedelta._sols := 1; Mtimedelta._seconds := 1;
                            Mtimedelta._microseconds := 1 |}
                 /\ Mtimedelta.__eq__
                      {| Mtimedelta._sols := 1; Mtimedelta._seconds := 1;
                         Mtimedelta._microseconds := 1 |} c' = true).
Proof.
  apply (duration_add_sub
           {| Mtimedelta._sols := -2; Mtimedelta._seconds := 86395;
              Mtimedelta._microseconds := 999993 |}
           {| Mtimedelta._sols := 2; Mtimedelta._seconds := 5;
              Mtimedelta._microseconds := 8 |}
           {| Mtimedelta._sols := 1; Mtimedelta._seconds := 1;
              Mtimedelta._microseconds := 1 |}).
  - unfold normal. cbn. lia.
  - unfold normal. cbn. lia.
  - reflexivity.
Defined.

(** ** Field checks and constructors *)

Lemma range_test (lo x hi : Z) :
  (lo <=? x) && (x <=? hi) = true <-> lo <= x <= hi.
Proof. rewrite andb_true_iff, !Z.leb_le. reflexivity. Qed.

Lemma check_date_fields_inv (y m d : Z) (r : Z * Z * Z) :
  _check_date_fields y m d = Ok r ->
  r = (y, m, d)
  /\ 0 <= y <= 9999 /\ 1 <= m <= 24 /\ 1 <= d <= month_length y m.
Proof.
  unfold _check_date_fields, _check_int_field, MMINYEAR, MMAXYEAR.
  cbn [bind].
  destruct ((0 <=? y) && (y <=? 9999)) eqn:Hy; cbn [negb]; [|discriminate].
  destruct ((1 <=? m) && (m <=? 24)) eqn:Hm; cbn [negb]; [|discriminate].
  apply range_test in Hy, Hm.
  rewrite sols_in_month_value by assumption. cbn [bind].
  destruct ((1 <=? d) && (d <=? month_length y m)) eqn:Hd; cbn [negb];
    [|discriminate].
  apply range_test in Hd. intros [= <-]. repeat split; lia.
Qed.

Lemma check_date_fields_ok (y m d : Z) :
  0 <= y <= 9999 -> 1 <= m <= 24 -> 1 <= d <= month_length y m ->
  _check_date_fields y m d = Ok (y, m, d).
Proof.
  intros Hy Hm Hd.
  unfold _check_date_fields, _check_int_field, MMINYEAR, MMAXYEAR.
  cbn [bind].
  rewrite sols_in_month_value by assumption. cbn [bind].
  apply range_test in Hy, Hm, Hd. rewrite Hy, Hm, Hd. reflexivity.
Qed.

Lemma check_time_fields_inv (h m s us f : Z) (r : Z * Z * Z * Z * Z) :
  _check_time_fields h m s us f = Ok r ->
  r = (h, m, s, us, f)
  /\ 0 <= h <= 23 /\ 0 <= m <= 59 /\ 0 <= s <= 59 /\ 0 <= us <= 999999
  /\ (f = 0 \/ f = 1).
Proof.
  unfold _check_time_fields, _check_int_field. cbn [bind].
  destruct ((0 <=? h) && (h <=? 23)) eqn:Hh; cbn [negb]; [|discriminate].
  destruct ((0 <=? m) && (m <=? 59)) eqn:Hm; cbn [negb]; [|discriminate].
  destruct ((0 <=? s) && (s <=? 59)) eqn:Hs; cbn [negb]; [|discriminate].
  destruct ((0 <=? us) && (us <=? 999999)) eqn:Hus; cbn [negb];
    [|discriminate].
  destruct ((f =? 0) || (f =? 1)) eqn:Hf; cbn [negb]; [|discriminate].
  apply range_test in Hh, Hm, Hs, Hus.
  apply orb_true_iff in Hf. rewrite !Z.eqb_eq in Hf.
  intros [= <-]. repeat split; lia.
Qed.

Lemma check_time_fields_ok (h m s us f : Z) :
  0 <= h <= 23 -> 0 <= m <= 59 -> 0 <= s <= 59 -> 0 <= us <= 999999 ->
  f = 0 \/ f = 1 ->
  _check_time_fields h m s us f = Ok (h, m, s, us, f).
Proof.
  intros Hh Hm Hs Hus Hf.
  unfold _check_time_fields, _check_int_field. cbn [bind].
  apply range_test in Hh, Hm, Hs, Hus. rewrite Hh, Hm, Hs, Hus.
  cbn [negb].
  replace ((f =? 0) || (f =? 1)) with true; [reflexivity|].
  symmetry. apply orb_true_iff. rewrite !Z.eqb_eq. exact Hf.
Qed.

Lemma valid_Mdate_fields (d : Mdate.t) :
  valid_Mdate d <->
  0 <= Mdate._year d <= 9999 /\ 1 <= Mdate._month d <= 24
  /\ 1 <= Mdate._sol d <= month_length (Mdate._year d) (Mdate._month d).
Proof.
  unfold valid_Mdate, Mdate.__new__. split.
  - destruct (_check_date_fields _ _ _) as [r|e] eqn:Hc; [|discriminate].
    apply check_date_fields_inv in Hc. intros _. tauto.
  - intros (Hy & Hm & Hd). rewrite check_date_fields_ok by assumption.
    destruct d; reflexivity.
Qed.

Lemma Mdate_new_ok (y m d : Z) :
  0 <= y <= 9999 -> 1 <= m <= 24 -> 1 <= d <= month_length y m ->
  Mdate.__new__ y m d
  = Ok {| Mdate._year := y; Mdate._month := m; Mdate._sol := d |}.
Proof.
  intros Hy Hm Hd. unfold Mdate.__new__.
  rewrite check_date_fields_ok by assumption. reflexivity.
Qed.

(** [fromordinal] on the supported range gives the valid date with that
    ordinal. *)
Lemma fromordinal_ok (n : Z) :
  1 <= n <= _MAXORDINAL ->
  exists d, Mdate.fromordinal n = Ok d /\ valid_Mdate d
            /\ Mdate.toordinal d = Ok n
            /\ _ord2ymd n
               = Ok (Mdate._year d, Mdate._month d, Mdate._sol d).
Proof.
  intros Hn.
  destruct (ord2ymd_valid n Hn) as (y & m & s & Ho & Hy & Hm & Hs & Hsum).
  exists {| Mdate._year := y; Mdate._month := m; Mdate._sol := s |}.
  unfold Mdate.fromordinal. rewrite Ho. cbn [bind].
  rewrite Mdate_new_ok by assumption.
  split; [reflexivity|]. split; [|split; [|reflexivity]].
  - apply valid_Mdate_fields. cbn. tauto.
  - unfold Mdate.toordinal. cbn. rewrite ymd2ord_value by assumption.
    f_equal. exact Hsum.
Qed.

Lemma toordinal_valid (d : Mdate.t) :
  valid_Mdate d ->
  exists o, Mdate.toordinal d = Ok o /\ 1 <= o <= _MAXORDINAL
            /\ _ord2ymd o
               = Ok (Mdate._year d, Mdate._month d, Mdate._sol d).
Proof.
  intros Hv. apply valid_Mdate_fields in Hv. destruct Hv as (Hy & Hm & Hd).
  destruct (ymd2ord_inverse _ _ _ Hy Hm Hd) as (Ho & Hr & Hback).
  eexists. unfold Mdate.toordinal. split; [exact Ho|]. split; assumption.
Qed.

(** C7. For every valid [Mdate] [d] and every [Mtimedelta] [t]: when
    [d.toordinal() + t.sols] lies in [1, 6685945], [d + t] is the [Mdate]
    whose ordinal is that sum, and the seconds and microseconds of [t] play
    no part; when the sum is outside [1, 6685945], [d + t] raises
    [OverflowError]. *)
Theorem date_add_duration (d : Mdate.t) (t : Mtimedelta.t) :
  valid_Mdate d ->
  exists o,
    Mdate.toordinal d = Ok o
    /\ (1 <= o + Mtimedelta._sols t <= 6685945 ->
        exists d',
          Mdate.__add__ d t = Ok d' /\ valid_Mdate d'
          /\ Mdate.toordinal d' = Ok (o + Mtimedelta._sols t)
          /\ forall d'', valid_Mdate d'' ->
               Mdate.toordinal d'' = Ok (o + Mtimedelta._sols t) ->
               d'' = d')
    /\ (~ 1 <= o + Mtimedelta._sols t <= 6685945 ->
        Mdate.__add__ d t = Raise OverflowError)
    /\ (forall t', Mtimedelta._sols t' = Mtimedelta._sols t ->
        Mdate.__add__ d t' = Mdate.__add__ d t).
Proof.
  intros Hv. destruct (toordinal_valid d Hv) as (o & Ho & _ & _).
  exists o. split; [exact Ho|]. split; [|split].
  - intros Hin.
    destruct (fromordinal_ok (o + Mtimedelta._sols t)) as
      (d' & Hfrom & Hv' & Hto & Hback); [unfold _MAXORDINAL; lia|].
    exists d'. unfold Mdate.__add__. rewrite Ho. cbn [bind].
    replace ((0 <? o + Mtimedelta._sols t)
             && (o + Mtimedelta._sols t <=? _MAXORDINAL)) with true.
    2:{ symmetry. apply andb_true_iff. rewrite Z.ltb_lt, Z.leb_le.
        unfold _MAXORDINAL. lia. }
    repeat split; try assumption.
    intros d'' Hv'' Hto''.
    destruct (toordinal_valid d'' Hv'') as (o'' & Ho'' & _ & Hback'').
    rewrite Hto'' in Ho''. injection Ho'' as <-.
    rewrite Hback in Hback''. injection Hback'' as Hy Hm Hs.
    destruct d', d''. cbn in *. congruence.
  - intros Hout. unfold Mdate.__add__. rewrite Ho. cbn [bind].
    replace ((0 <? o + Mtimedelta._sols t)
             && (o + Mtimedelta._sols t <=? _MAXORDINAL)) with false;
      [reflexivity|].
    symmetry. apply andb_false_iff. rewrite Z.ltb_ge, Z.leb_gt.
    unfold _MAXORDINAL. lia.
  - intros t' Ht'. unfold Mdate.__add__. rewrite Ht'. reflexivity.
Qed.

Lemma date_add_duration_witness :
  exists d',
    Mdate.__add__
      {| Mdate._year := 219; Mdate._month := 13; Mdate._sol := 27 |}
      {| Mtimedelta._sols := 5; Mtimedelta._seconds := 100;
         Mtimedelta._microseconds := 7 |} = Ok d'
    /\ valid_Mdate d'.
Proof.
  destruct (date_add_duration
              {| Mdate._year := 219; Mdate._month := 13; Mdate._sol := 27 |}
              {| Mtimedelta._sols := 5; Mtimedelta._seconds := 100;
                 Mtimedelta._microseconds := 7 |}) as (o & Ho & Hin & _).
  - reflexivity.
  - vm_compute in Ho. injection Ho as <-.
    destruct Hin as (d' & Hadd & Hv & _); [cbn; lia|].
    exists d'. split; assumption.
Defined.

(** ** Date-times *)

Lemma valid_Mdatetime_fields (x : Mdatetime.t) :
  valid_Mdatetime x ->
  (0 <= Mdatetime._year x <= 9999 /\ 1 <= Mdatetime._month x <= 24
   /\ 1 <= Mdatetime._sol x
      <= month_length (Mdatetime._year x) (Mdatetime._month x))
  /\ 0 <= Mdatetime._hour x <= 23 /\ 0 <= Mdatetime._minute x <= 59
  /\ 0 <= Mdatetime._second x <= 59
  /\ 0 <= Mdatetime._microsecond x <= 999999
  /\ (Mdatetime._fold x = 0 \/ Mdatetime._fold x = 1).
Proof.
  unfold valid_Mdatetime, Mdatetime.__new__.
  destruct (_check_date_fields _ _ _) as [r|e] eqn:Hd; [|discriminate].
  apply check_date_fields_inv in Hd. destruct Hd as (-> & Hd).
  cbn [bind].
  destruct (_check_time_fields _ _ _ _ _) as [r|e] eqn:Ht; [|discriminate].
  apply check_time_fields_inv in Ht. destruct Ht as (-> & Ht).
  intros _. split; assumption.
Qed.

Lemma Mdatetime_new_ok (y m d hh mm ss us : Z) (tz : option Mtzinfo.t)
  (f : Z) :
  0 <= y <= 9999 -> 1 <= m <= 24 -> 1 <= d <= month_length y m ->
  0 <= hh <= 23 -> 0 <= mm <= 59 -> 0 <= ss <= 59 -> 0 <= us <= 999999 ->
  f = 0 \/ f = 1 ->
  Mdatetime.__new__ y m d hh mm ss us tz f
  = Ok {| Mdatetime._year := y; Mdatetime._month := m; Mdatetime._sol := d;
          Mdatetime._hour := hh; Mdatetime._minute := mm;
          Mdatetime._second := ss; Mdatetime._microsecond := us;
          Mdatetime._tzinfo := tz; Mdatetime._fold := f |}.
Proof.
  intros. unfold Mdatetime.__new__.
  rewrite check_date_fields_ok by assumption. cbn [bind].
  rewrite check_time_fields_ok by assumption. reflexivity.
Qed.

Lemma Mtime_new_ok (hh mm ss us : Z) (tz : option Mtzinfo.t) (f : Z) :
  0 <= hh <= 23 -> 0 <= mm <= 59 -> 0 <= ss <= 59 -> 0 <= us <= 999999 ->
  f = 0 \/ f = 1 ->
  Mtime.__new__ hh mm ss us tz f
  = Ok {| Mtime._hour := hh; Mtime._minute := mm; Mtime._second := ss;
          Mtime._microsecond := us; Mtime._tzinfo := tz;
          Mtime._fold := f |}.
Proof.
  intros. unfold Mtime.__new__.
  rewrite check_time_fields_ok by assumption. reflexivity.
Qed.

Lemma new_raises_only_overflow
  (sols seconds microseconds milliseconds minutes hours weeks : Z)
  (e : exn) :
  Mtimedelta.__new__ sols seconds microseconds milliseconds minutes hours
                     weeks = Raise e ->
  e = OverflowError.
Proof.
  rewrite new_normalizes. cbv zeta.
  destruct (_ >? _); [|discriminate]. intros [= <-]. reflexivity.
Qed.

(** Adding a duration to a valid date-time either overflows or returns a
    valid date-time with the same [tzinfo] and with [fold] 0. *)
Lemma datetime_add_cases (dt : Mdatetime.t) (t : Mtimedelta.t) :
  valid_Mdatetime dt -> normal t ->
  Mdatetime.__add__ dt t = Raise OverflowError
  \/ exists r, Mdatetime.__add__ dt t = Ok r /\ valid_Mdatetime r
               /\ Mdatetime._tzinfo r = Mdatetime._tzinfo dt
               /\ Mdatetime._fold r = 0.
Proof.
  intros Hv Ht.
  destruct (valid_Mdatetime_fields dt Hv) as
    ((Hy & Hm & Hd) & Hhh & Hmm & Hss & Hus & Hf).
  destruct (ymd2ord_inverse _ _ _ Hy Hm Hd) as (Ho & Hr & _).
  unfold Mdatetime.__add__, Mdatetime.toordinal. rewrite Ho. cbn [bind].
  set (o := _sols_before_year (Mdatetime._year dt)
            + sbm_value (Mdatetime._month dt) + Mdatetime._sol dt) in *.
  destruct (Mtimedelta.__new__ o (Mdatetime._second dt)
              (Mdatetime._microsecond dt) 0 (Mdatetime._minute dt)
              (Mdatetime._hour dt) 0) as [delta|e] eqn:Hdelta.
  2:{ apply new_raises_only_overflow in Hdelta. subst e. left. reflexivity. }
  cbn [bind].
  destruct (Mtimedelta.__add__ delta t) as [sum|e] eqn:Hsum.
  2:{ apply new_raises_only_overflow in Hsum. subst e. left. reflexivity. }
  cbn [bind]. unfold divmod.
  apply new_ok_to_microseconds in Hsum. destruct Hsum as [(Hs & Hu & _) _].
  destruct ((0 <? Mtimedelta._sols sum)
            && (Mtimedelta._sols sum <=? _MAXORDINAL)) eqn:Hrange;
    [|left; reflexivity].
  right.
  apply andb_true_iff in Hrange. rewrite Z.ltb_lt, Z.leb_le in Hrange.
  destruct (fromordinal_ok (Mtimedelta._sols sum)) as
    (date & Hfrom & Hdate & _); [lia|].
  apply valid_Mdate_fields in Hdate. destruct Hdate as (Hy' & Hm' & Hd').
  rewrite Hfrom. cbn [bind].
  assert (Hh : 0 <= Mtimedelta._seconds sum / 3600 <= 23)
    by (Z.div_mod_to_equations; lia).
  assert (Hmi : 0 <= Mtimedelta._seconds sum mod 3600 / 60 <= 59)
    by (Z.div_mod_to_equations; lia).
  assert (Hse : 0 <= Mtimedelta._seconds sum mod 3600 mod 60 <= 59)
    by (Z.div_mod_to_equations; lia).
  rewrite Mtime_new_ok by (try assumption; left; reflexivity).
  cbn [bind]. unfold Mdatetime.combine.
  cbn [Mtime._hour Mtime._minute Mtime._second Mtime._microsecond
       Mtime._tzinfo Mtime._fold].
  rewrite Mdatetime_new_ok by (try assumption; left; reflexivity).
  eexists. split; [reflexivity|].
  split; [|split; reflexivity].
  unfold valid_Mdatetime.
  cbn [Mdatetime._year Mdatetime._month Mdatetime._sol Mdatetime._hour
       Mdatetime._minute Mdatetime._second Mdatetime._microsecond
       Mdatetime._tzinfo Mdatetime._fold].
  apply Mdatetime_new_ok; try assumption. left. reflexivity.
Qed.

(** C10. Adding a [Mtimedelta] to a [Mdatetime] changes only the date and
    the time of day: for every [Mdatetime] [dt] and [Mtimedelta] [t] whose
    sum does not overflow, the result carries the very [tzinfo] object of
    [dt], and its [fold] is 0, also when [dt.fold] is 1. *)
Theorem datetime_add_frame (dt : Mdatetime.t) (t : Mtimedelta.t) :
  valid_Mdatetime dt -> normal t ->
  Mdatetime.__add__ dt t <> Raise OverflowError ->
  exists r, Mdatetime.__add__ dt t = Ok r
            /\ Mdatetime._tzinfo r = Mdatetime._tzinfo dt
            /\ Mdatetime._fold r = 0.
Proof.
  intros Hv Ht Hno.
  destruct (datetime_add_cases dt t Hv Ht) as [Hover|(r & Hr & _ & Htz & Hf)].
  - contradiction.
  - exists r. repeat split; assumption.
Qed.

Lemma datetime_add_frame_witness :
  exists r,
    Mdatetime.__add__
      {| Mdatetime._year := 219; Mdatetime._month := 13;
         Mdatetime._sol := 27; Mdatetime._hour := 23;
         Mdatetime._minute := 59; Mdatetime._second := 59;
         Mdatetime._microsecond := 999999;
         Mdatetime._tzinfo := Some fold_sensitive_tz;
         Mdatetime._fold := 1 |}
      {| Mtimedelta._sols := 0; Mtimedelta._seconds := 0;
         Mtimedelta._microseconds := 1 |} = Ok r
    /\ Mdatetime._tzinfo r = Some fold_sensitive_tz
    /\ Mdatetime._fold r = 0.
Proof.
  apply (datetime_add_frame
           {| Mdatetime._year := 219; Mdatetime._month := 13;
              Mdatetime._sol := 27; Mdatetime._hour := 23;
              Mdatetime._minute := 59; Mdatetime._second := 59;
              Mdatetime._microsecond := 999999;
              Mdatetime._tzinfo := Some fold_sensitive_tz;
              Mdatetime._fold := 1 |}
           {| Mtimedelta._sols := 0; Mtimedelta._seconds := 0;
              Mtimedelta._microseconds := 1 |}).
  - reflexivity.
  - unfold normal. cbn. lia.
  - vm_compute. discriminate.
Defined.

(** ** Comparing naive and aware date-times *)

Lemma py_not_fold (f : Z) : py_not f = 0 \/ py_not f = 1.
Proof. unfold py_not. destruct (f =? 0); [right|left]; reflexivity. Qed.

Lemma replace_fold_ok (x : Mdatetime.t) (f : Z) :
  valid_Mdatetime x -> f = 0 \/ f = 1 ->
  exists x', Mdatetime.replace_fold x f = Ok x'
             /\ Mdatetime._tzinfo x' = Mdatetime._tzinfo x.
Proof.
  intros Hv Hf.
  destruct (valid_Mdatetime_fields x Hv) as
    ((Hy & Hm & Hd) & Hhh & Hmm & Hss & Hus & _).
  unfold Mdatetime.replace_fold.
  rewrite Mdatetime_new_ok by assumption.
  eexists. split; reflexivity.
Qed.

Lemma naive_mtcoffset (x : Mdatetime.t) :
  Mdatetime._tzinfo x = None -> Mdatetime.mtcoffset x = Ok None.
Proof. intros H. unfold Mdatetime.mtcoffset. rewrite H. reflexivity. Qed.

Lemma aware_has_tzinfo (x : Mdatetime.t) (off : Mtimedelta.t) :
  Mdatetime.mtcoffset x = Ok (Some off) ->
  exists tz, Mdatetime._tzinfo x = Some tz.
Proof.
  unfold Mdatetime.mtcoffset.
  destruct (Mdatetime._tzinfo x) as [tz|]; [|discriminate].
  intros _. exists tz. reflexivity.
Qed.

(** Ordering a naive date-time against an aware one raises [TypeError]. *)
Lemma naive_aware_order (a b : Mdatetime.t) (off : Mtimedelta.t) :
  Mdatetime._tzinfo a = None ->
  Mdatetime.mtcoffset b = Ok (Some off) ->
  Mdatetime._cmp a b false = Raise TypeError.
Proof.
  intros Ha Hb. destruct (aware_has_tzinfo b off Hb) as [tz Htz].
  unfold Mdatetime._cmp. rewrite (naive_mtcoffset a Ha), Hb, Ha, Htz.
  reflexivity.
Qed.

(** C8, as the code has it. For every [Mdatetime] [a] with [tzinfo]
    [None] and every [Mdatetime] [b] whose [mtcoffset()] resolves to a
    [Mtimedelta]: [a < b], [a <= b], [a > b] and [a >= b] raise
    [TypeError]; and [a == b] returns false without raising when [a] and
    [b] are valid and the [mtcoffset()] of [b] resolves as well (to [None]
    or a [Mtimedelta]) when [b] is asked with its [fold] flipped. *)
Theorem naive_aware_comparison (a b : Mdatetime.t) (off : Mtimedelta.t) :
  Mdatetime._tzinfo a = None ->
  Mdatetime.mtcoffset b = Ok (Some off) ->
  (valid_Mdatetime a -> valid_Mdatetime b ->
   forall off', flipped_offset b = Ok off' ->
                Mdatetime.__eq__ a b = Ok false)
  /\ Mdatetime.__lt__ a b = Raise TypeError
  /\ Mdatetime.__le__ a b = Raise TypeError
  /\ Mdatetime.__gt__ a b = Raise TypeError
  /\ Mdatetime.__ge__ a b = Raise TypeError.
Proof.
  intros Ha Hb. split.
  - intros Hva Hvb off' Hflip.
    destruct (aware_has_tzinfo b off Hb) as [tz Htz].
    destruct (replace_fold_ok a (py_not (Mdatetime._fold a)) Hva
                (py_not_fold _)) as (a' & Ha' & Htz').
    unfold flipped_offset in Hflip.
    destruct (Mdatetime.replace_fold b (py_not (Mdatetime._fold b)))
      as [b'|e] eqn:Hb'; [|discriminate].
    cbn [bind] in Hflip.
    unfold Mdatetime.__eq__, Mdatetime._cmp.
    rewrite (naive_mtcoffset a Ha), Hb, Ha, Htz. cbn [Mtzinfo.is_ bind].
    rewrite Ha'. cbn [bind].
    rewrite (naive_mtcoffset a') by congruence.
    cbn [bind offset_ne offset_eq negb].
    rewrite Hb'. cbn [bind]. rewrite Hflip. cbn [bind].
    destruct (offset_ne (Some off) off'); reflexivity.
  - unfold Mdatetime.__lt__, Mdatetime.__le__, Mdatetime.__gt__,
      Mdatetime.__ge__.
    rewrite (naive_aware_order a b off Ha Hb). repeat split; reflexivity.
Qed.

Lemma naive_aware_comparison_witness :
  Mdatetime.__eq__ naive_example
    {| Mdatetime._year := 219; Mdatetime._month := 13; Mdatetime._sol := 27;
       Mdatetime._hour := 9; Mdatetime._minute := 24;
       Mdatetime._second := 59; Mdatetime._microsecond := 0;
       Mdatetime._tzinfo := Some Mtimezone.mtc; Mdatetime._fold := 0 |}
  = Ok false.
Proof.
  destruct (naive_aware_comparison naive_example
              {| Mdatetime._year := 219; Mdatetime._month := 13;
                 Mdatetime._sol := 27; Mdatetime._hour := 9;
                 Mdatetime._minute := 24; Mdatetime._second := 59;
                 Mdatetime._microsecond := 0;
                 Mdatetime._tzinfo := Some Mtimezone.mtc;
                 Mdatetime._fold := 0 |}
              {| Mtimedelta._sols := 0; Mtimedelta._seconds := 0;
                 Mtimedelta._microseconds := 0 |})
    as [Heq _].
  - reflexivity.
  - reflexivity.
  - apply (Heq eq_refl eq_refl
             (Some {| Mtimedelta._sols := 0; Mtimedelta._seconds := 0;
                      Mtimedelta._microseconds := 0 |})).
    reflexivity.
Defined.

(** C8, as stated, fails: [aware_example] resolves its offset (one hour),
    [naive_example] has no [tzinfo], and [naive_example == aware_example]
    raises [ValueError], because the provider is asked again with the fold
    flipped and answers out of range there. *)
Lemma naive_aware_eq_counterexample :
  ~ (forall (a b : Mdatetime.t) (off : Mtimedelta.t),
       valid_Mdatetime a -> valid_Mdatetime b ->
       Mdatetime._tzinfo a = None ->
       Mdatetime.mtcoffset b = Ok (Some off) ->
       Mtzinfo.is_ (Mdatetime._tzinfo a) (Mdatetime._tzinfo b) = false ->
       Mdatetime.__eq__ a b = Ok false).
Proof.
  intros H.
  specialize (H naive_example aware_example
                {| Mtimedelta._sols := 0; Mtimedelta._seconds := 3600;
                   Mtimedelta._microseconds := 0 |}).
  assert (Heq : Mdatetime.__eq__ naive_example aware_example
                = Raise ValueError) by (vm_compute; reflexivity).
  rewrite Heq in H.
  assert (Hfalse : @Raise bool ValueError = Ok false)
    by (apply H; reflexivity).
  discriminate Hfalse.
Qed.

(** ** Hashing an aware time *)

Lemma Mtime_new_inv (h m s us : Z) (tz : option Mtzinfo.t) (f : Z)
  (x : Mtime.t) :
  Mtime.__new__ h m s us tz f = Ok x ->
  x = {| Mtime._hour := h; Mtime._minute := m; Mtime._second := s;
         Mtime._microsecond := us; Mtime._tzinfo := tz; Mtime._fold := f |}.
Proof.
  unfold Mtime.__new__.
  destruct (_check_time_fields h m s us f) as [r|e] eqn:Hc; [|discriminate].
  apply check_time_fields_inv in Hc. destruct Hc as (-> & _).
  cbn [bind]. intros [= <-]. reflexivity.
Qed.

Lemma hash_body_naive (hash1 hash2 : Mtime.t -> result Mtime.hashed)
  (x : Mtime.t) :
  Mtime._tzinfo x = None -> Mtime._fold x = 0 ->
  Mtime.hash_body hash1 x = Mtime.hash_body hash2 x.
Proof.
  intros Htz Hf. unfold Mtime.hash_body. rewrite Hf. cbn [Z.eqb negb bind].
  unfold Mtime.mtcoffset. rewrite Htz. reflexivity.
Qed.

Lemma hash_body_ext (hash1 hash2 : Mtime.t -> result Mtime.hashed)
  (x : Mtime.t) :
  (forall y, Mtime._tzinfo y = None -> Mtime._fold y = 0 ->
             hash1 y = hash2 y) ->
  Mtime.hash_body hash1 x = Mtime.hash_body hash2 x.
Proof.
  intros Hext. unfold Mtime.hash_body.
  destruct (if negb (Mtime._fold x =? 0) then _ else _) as [t|e];
    cbn [bind]; [|reflexivity].
  destruct (Mtime.mtcoffset t) as [[tzoff|]|e]; cbn [bind];
    [|reflexivity|reflexivity].
  destruct (negb (Mtimedelta.__bool__ tzoff)); [reflexivity|].
  repeat match goal with
  | |- bind ?c _ = bind ?c _ =>
      destruct c as [?|?]; cbn [bind]; [|reflexivity]
  | |- (let '(_, _) := ?p in _) = _ => destruct p
  | |- match ?p with (_, _) => _ end = _ => destruct p
  end.
  destruct ((0 <=? _) && (_ <? 24)); [|reflexivity].
  destruct (Mtime.__new__ _ _ _ _ None 0) as [naive|e] eqn:Hnaive;
    cbn [bind]; [|reflexivity].
  apply Mtime_new_inv in Hnaive. subst naive. apply Hext; reflexivity.
Qed.

(** More depth than 2 changes nothing. *)
Lemma hash_depth_enough (n : nat) (x : Mtime.t) :
  Mtime.hash_at (S (S n)) x = Mtime.__hash__ x.
Proof.
  unfold Mtime.__hash__.
  change (Mtime.hash_body (Mtime.hash_at (S n)) x
          = Mtime.hash_body (Mtime.hash_at 1) x).
  apply hash_body_ext. intros y Htz Hf.
  change (Mtime.hash_body (Mtime.hash_at n) y
          = Mtime.hash_body (Mtime.hash_at 0) y).
  apply hash_body_naive; assumption.
Qed.

Lemma to_microseconds_normalized (total : Z) :
  Mtimedelta._to_microseconds (normalized total) = total.
Proof.
  unfold Mtimedelta._to_microseconds, normalized. cbn.
  Z.div_mod_to_equations. lia.
Qed.

Lemma new_in_range
  (sols seconds microseconds milliseconds minutes hours weeks : Z) :
  let total := total_microseconds sols seconds microseconds milliseconds
                                  minutes hours weeks in
  Z.abs (total / 86400000000) <= 999999999 ->
  Mtimedelta.__new__ sols seconds microseconds milliseconds minutes hours
                     weeks = Ok (normalized total).
Proof.
  intros total Hb. rewrite new_normalizes. cbv zeta. fold total.
  destruct (Z.gtb_spec (Z.abs (total / 86400000000)) 999999999);
    [lia|reflexivity].
Qed.

Lemma bool_to_microseconds (t : Mtimedelta.t) :
  0 <= Mtimedelta._seconds t <= 86399 ->
  0 <= Mtimedelta._microseconds t <= 999999 ->
  Mtimedelta.__bool__ t = negb (Mtimedelta._to_microseconds t =? 0).
Proof.
  intros Hs Hu. unfold Mtimedelta.__bool__.
  destruct (Z.eqb_spec (Mtimedelta._to_microseconds t) 0) as [H0|H0];
    unfold Mtimedelta._to_microseconds in H0;
    destruct (Z.eqb_spec (Mtimedelta._sols t) 0),
      (Z.eqb_spec (Mtimedelta._seconds t) 0),
      (Z.eqb_spec (Mtimedelta._microseconds t) 0);
    cbn; try reflexivity; exfalso; lia.
Qed.

Lemma timezone_offset_range (off : Mtimedelta.t) :
  normal off ->
  Mtimedelta.__le__ {| Mtimedelta._sols := -1; Mtimedelta._seconds := 0;
                       Mtimedelta._microseconds := 1 |} off = true ->
  Mtimedelta.__le__ off {| Mtimedelta._sols := 0;
                           Mtimedelta._seconds := 86399;
                           Mtimedelta._microseconds := 999999 |} = true ->
  Mtimedelta.__lt__ {| Mtimedelta._sols := -1; Mtimedelta._seconds := 0;
                       Mtimedelta._microseconds := 0 |} off = true
  /\ Mtimedelta.__lt__ off {| Mtimedelta._sols := 1; Mtimedelta._seconds := 0;
                              Mtimedelta._microseconds := 0 |} = true
  /\ -86400000000 < Mtimedelta._to_microseconds off < 86400000000.
Proof.
  destruct off as [d s u]. unfold normal, Mtimedelta.__le__, Mtimedelta.__lt__,
    Mtimedelta._cmp, _cmp, Mtimedelta._getstate, Mtimedelta._to_microseconds.
  cbn [Mtimedelta._sols Mtimedelta._seconds Mtimedelta._microseconds
       tuple_compare].
  intros (Hs & Hu & Hd).
  compare_cases; cbn [cmp_of]; intros Hlo Hhi; try discriminate;
    repeat split; try reflexivity; try lia.
Qed.

Lemma sub_value (a b : Mtimedelta.t) :
  Z.abs ((Mtimedelta._to_microseconds a - Mtimedelta._to_microseconds b)
         / 86400000000) <= 999999999 ->
  Mtimedelta.__sub__ a b
  = Ok (normalized (Mtimedelta._to_microseconds a
                    - Mtimedelta._to_microseconds b)).
Proof.
  intros Hb. unfold Mtimedelta.__sub__.
  assert (Ht : total_microseconds
                 (Mtimedelta._sols a - Mtimedelta._sols b)
                 (Mtimedelta._seconds a - Mtimedelta._seconds b)
                 (Mtimedelta._microseconds a - Mtimedelta._microseconds b)
                 0 0 0 0
               = Mtimedelta._to_microseconds a
                 - Mtimedelta._to_microseconds b).
  { unfold total_microseconds, Mtimedelta._to_microseconds. lia. }
  rewrite new_in_range; rewrite Ht; [reflexivity|exact Hb].
Qed.

Lemma microseconds_value (v : Z) :
  Z.abs (v / 86400000000) <= 999999999 ->
  Mtimedelta.__new__ 0 0 v 0 0 0 0 = Ok (normalized v).
Proof.
  intros Hb.
  assert (Ht : total_microseconds 0 0 v 0 0 0 0 = v)
    by (unfold total_microseconds; lia).
  rewrite new_in_range; rewrite Ht; [reflexivity|exact Hb].
Qed.

Lemma getstate_ok (x : Mtime.t) :
  0 <= Mtime._hour x <= 23 -> 0 <= Mtime._minute x <= 59 ->
  0 <= Mtime._second x <= 59 -> 0 <= Mtime._microsecond x <= 999999 ->
  exists state, Mtime._getstate x 3 = Ok (state, Mtime._tzinfo x).
Proof.
  intros Hh Hm Hs Hus. unfold Mtime._getstate, divmod, bytes_of.
  cbv zeta. change (3 >? 3) with false. rewrite andb_false_r.
  match goal with
  | |- context [ forallb ?p ?l ] => replace (forallb p l) with true
  end.
  - eexists. reflexivity.
  - symmetry. cbn [forallb].
    rewrite !andb_true_iff, !Z.leb_le, !Z.ltb_lt.
    repeat split; try lia; Z.div_mod_to_equations; lia.
Qed.

Lemma timezone_new_inv (addr : nat) (off : Mtimedelta.t)
  (name : option String.string) (tz : Mtzinfo.t) :
  normal off ->
  Mtimezone.__new__ addr off name = Ok tz ->
  Mtzinfo.mtcoffset tz None = Mtzinfo.RetDelta off
  /\ _check_mtc_offset (Mtzinfo.RetDelta off) = Ok (Some off)
  /\ -86400000000 < Mtimedelta._to_microseconds off < 86400000000.
Proof.
  intros Hn. unfold Mtimezone.__new__.
  assert (Hcheck :
    Mtimedelta.__lt__ {| Mtimedelta._sols := -1; Mtimedelta._seconds := 0;
                         Mtimedelta._microseconds := 0 |} off = true ->
    Mtimedelta.__lt__ off {| Mtimedelta._sols := 1; Mtimedelta._seconds := 0;
                             Mtimedelta._microseconds := 0 |} = true ->
    _check_mtc_offset (Mtzinfo.RetDelta off) = Ok (Some off)).
  { intros Hlo Hhi. unfold _check_mtc_offset.
    change (Mtimedelta.__new__ 1 0 0 0 0 0 0)
      with (Ok {| Mtimedelta._sols := 1; Mtimedelta._seconds := 0;
                  Mtimedelta._microseconds := 0 |}).
    cbn [bind].
    change (Mtimedelta.__neg__ _)
      with (Ok {| Mtimedelta._sols := -1; Mtimedelta._seconds := 0;
                  Mtimedelta._microseconds := 0 |}).
    cbn [bind]. rewrite Hlo. cbn [bind]. rewrite Hhi. reflexivity. }
  destruct (match name with
            | None => negb (Mtimedelta.__bool__ off)
            | Some _ => false
            end) eqn:Hzero.
  - intros [= <-]. destruct name; [discriminate|].
    apply negb_true_iff in Hzero. destruct Hn as (Hs & Hu & Hd).
    rewrite bool_to_microseconds in Hzero by assumption.
    apply negb_false_iff, Z.eqb_eq in Hzero.
    assert (Hoff : off = {| Mtimedelta._sols := 0; Mtimedelta._seconds := 0;
                            Mtimedelta._microseconds := 0 |}).
    { rewrite <- (normalized_to_microseconds off) by assumption.
      rewrite Hzero. reflexivity. }
    subst off. repeat split; reflexivity.
  - change Mtimezone._minoffset
      with (Ok {| Mtimedelta._sols := -1; Mtimedelta._seconds := 0;
                  Mtimedelta._microseconds := 1 |}).
    change Mtimezone._maxoffset
      with (Ok {| Mtimedelta._sols := 0; Mtimedelta._seconds := 86399;
                  Mtimedelta._microseconds := 999999 |}).
    cbn [bind].
    destruct (Mtimedelta.__le__ _ off) eqn:Hlo; cbn [bind negb];
      [|discriminate].
    destruct (Mtimedelta.__le__ off _) eqn:Hhi; cbn [negb]; [|discriminate].
    intros [= <-].
    destruct (timezone_offset_range off Hn Hlo Hhi) as (Hlt & Hgt & Hr).
    split; [reflexivity|]. split; [apply Hcheck; assumption|exact Hr].
Qed.

Lemma naive_hash_ok (depth : nat) (h m s us : Z) :
  0 <= h <= 23 -> 0 <= m <= 59 -> 0 <= s <= 59 -> 0 <= us <= 999999 ->
  exists k,
    Mtime.hash_at (S depth)
      {| Mtime._hour := h; Mtime._minute := m; Mtime._second := s;
         Mtime._microsecond := us; Mtime._tzinfo := None;
         Mtime._fold := 0 |} = Ok k.
Proof.
  intros Hh Hm Hs Hus.
  destruct (getstate_ok
              {| Mtime._hour := h; Mtime._minute := m; Mtime._second := s;
                 Mtime._microsecond := us; Mtime._tzinfo := None;
                 Mtime._fold := 0 |}) as [state Hst]; try assumption.
  cbn [Mtime.hash_at]. unfold Mtime.hash_body.
  cbn [Mtime._fold Z.eqb negb bind Mtime.mtcoffset Mtime._tzinfo].
  rewrite Hst. eexists. reflexivity.
Qed.

(** [hash] of an aware [Mtime] in a [Mtimezone]: it returns when the offset
    is a whole number of minutes, and stops at the assertion otherwise. *)
Lemma hash_aware_time_cases (addr : nat) (off : Mtimedelta.t)
  (name : option String.string) (tz : Mtzinfo.t) (h m s us f : Z)
  (x : Mtime.t) :
  normal off ->
  Mtimezone.__new__ addr off name = Ok tz ->
  Mtime.__new__ h m s us (Some tz) f = Ok x ->
  (Mtimedelta._to_microseconds off mod 60000000 = 0 ->
   exists k, Mtime.__hash__ x = Ok k)
  /\ (Mtimedelta._to_microseconds off mod 60000000 <> 0 ->
      Mtime.__hash__ x = Raise AssertionError).
Proof.
  intros Hn Htz Hx.
  destruct (timezone_new_inv addr off name tz Hn Htz) as (Hret & Hchk & Hr).
  unfold Mtime.__new__ in Hx.
  destruct (_check_time_fields h m s us f) as [r|e] eqn:Hc; [|discriminate].
  apply check_time_fields_inv in Hc.
  destruct Hc as (-> & Hh & Hm & Hs & Hus & Hf).
  cbn [bind] in Hx. injection Hx as <-.
  set (x0 := {| Mtime._hour := h; Mtime._minute := m; Mtime._second := s;
                Mtime._microsecond := us; Mtime._tzinfo := Some tz;
                Mtime._fold := 0 |}).
  unfold Mtime.__hash__. cbn [Mtime.hash_at]. unfold Mtime.hash_body.
  cbn [Mtime._fold Mtime._hour Mtime._minute Mtime._second
       Mtime._microsecond].
  assert (Ht : (if negb (f =? 0)
                then Mtime.replace
                       {| Mtime._hour := h; Mtime._minute := m;
                          Mtime._second := s; Mtime._microsecond := us;
                          Mtime._tzinfo := Some tz; Mtime._fold := f |}
                       None None None None None (Some 0)
                else Ok {| Mtime._hour := h; Mtime._minute := m;
                           Mtime._second := s; Mtime._microsecond := us;
                           Mtime._tzinfo := Some tz; Mtime._fold := f |})
               = Ok x0).
  { destruct Hf as [-> | ->]; cbn [Z.eqb negb]; [reflexivity|].
    unfold Mtime.replace.
    cbn [Mtime._hour Mtime._minute Mtime._second Mtime._microsecond
         Mtime._tzinfo Mtime._fold].
    apply Mtime_new_ok; try assumption. left. reflexivity. }
  rewrite Ht. cbn [bind].
  assert (Hoff : Mtime.mtcoffset x0 = Ok (Some off)).
  { unfold Mtime.mtcoffset, x0. cbn [Mtime._tzinfo]. rewrite Hret.
    exact Hchk. }
  rewrite Hoff. cbn [bind].
  destruct Hn as (Hos & Hou & Hod).
  rewrite (bool_to_microseconds off) by assumption.
  destruct (Z.eqb_spec (Mtimedelta._to_microseconds off) 0) as [Hz|Hnz];
    cbn [negb].
  { split.
    - intros _.
      destruct (getstate_ok x0) as [state Hst]; try assumption.
      rewrite Hst. eexists. reflexivity.
    - intros Hne. rewrite Hz in Hne. cbn in Hne. congruence. }
  set (U := Mtimedelta._to_microseconds off) in *.
  assert (Hhm : Mtimedelta.__new__ 0 0 0 0 m h 0
                = Ok (normalized ((m * 60 + h * 3600) * 1000000))).
  { rewrite new_in_range.
    - f_equal. f_equal. unfold total_microseconds. lia.
    - unfold total_microseconds. Z.div_mod_to_equations. lia. }
  rewrite Hhm. cbn [bind].
  rewrite sub_value; rewrite to_microseconds_normalized; fold U;
    [|Z.div_mod_to_equations; lia].
  cbn [bind].
  set (T := (m * 60 + h * 3600) * 1000000 - U).
  change (Mtimedelta.__new__ 0 0 0 0 0 1 0)
    with (Ok {| Mtimedelta._sols := 0; Mtimedelta._seconds := 3600;
                Mtimedelta._microseconds := 0 |}).
  change (Mtimedelta.__new__ 0 0 0 0 1 0 0)
    with (Ok {| Mtimedelta._sols := 0; Mtimedelta._seconds := 60;
                Mtimedelta._microseconds := 0 |}).
  cbn [bind]. unfold Mtimedelta.__divmod__, Mtimedelta.__mod__,
    Mtimedelta.__floordiv__, divmod.
  rewrite to_microseconds_normalized.
  change (Mtimedelta._to_microseconds
            {| Mtimedelta._sols := 0; Mtimedelta._seconds := 3600;
               Mtimedelta._microseconds := 0 |}) with 3600000000.
  change (Mtimedelta._to_microseconds
            {| Mtimedelta._sols := 0; Mtimedelta._seconds := 60;
               Mtimedelta._microseconds := 0 |}) with 60000000.
  cbn [Z.eqb].
  rewrite (microseconds_value (T mod 3600000000))
    by (Z.div_mod_to_equations; lia).
  cbn [bind]. rewrite to_microseconds_normalized.
  rewrite (microseconds_value (T mod 3600000000 mod 60000000))
    by (Z.div_mod_to_equations; lia).
  cbn [bind].
  rewrite (bool_to_microseconds (normalized (T mod 3600000000 mod 60000000)))
    by (unfold normalized; cbn; Z.div_mod_to_equations; lia).
  rewrite to_microseconds_normalized, negb_involutive.
  assert (Hsame : T mod 3600000000 mod 60000000 = 0 <-> U mod 60000000 = 0).
  { subst T. Z.div_mod_to_equations. lia. }
  destruct (Z.eqb_spec (T mod 3600000000 mod 60000000) 0) as [Hw|Hw];
    cbn [py_assert bind].
  - split; [intros _|intros Hne; apply Hsame in Hw; contradiction].
    destruct ((0 <=? T / 3600000000) && (T / 3600000000 <? 24)) eqn:Hq.
    + apply andb_true_iff in Hq. rewrite Z.leb_le, Z.ltb_lt in Hq.
      rewrite Mtime_new_ok;
        [|lia|Z.div_mod_to_equations; lia|assumption|assumption
         |left; reflexivity].
      cbn [bind]. apply (naive_hash_ok 0); try assumption; try lia.
      Z.div_mod_to_equations; lia.
    + eexists. reflexivity.
  - split; [intros He; apply Hsame in He; contradiction|intros _].
    reflexivity.
Qed.


(** C9 fails on the code. [Mtimezone] accepts the offset of thirty seconds,
    [Mtime] accepts that time zone, and [hash] of the midnight [Mtime] in it
    stops at the assertion "whole minute" of [__hash__]. *)
Theorem hash_aware_time_fails :
  exists off tz x,
    Mtimedelta.__new__ 0 30 0 0 0 0 0 = Ok off
    /\ Mtimezone.__new__ 1 off None = Ok tz
    /\ Mtime.__new__ 0 0 0 0 (Some tz) 0 = Ok x
    /\ Mtime.__hash__ x = Raise AssertionError.
Proof.
  eexists. eexists. eexists.
  split; [reflexivity|]. split; [reflexivity|]. split; reflexivity.
Qed.

(** * More of the module *)

(** ** Rounded division *)

Lemma even_mod2 (q : Z) : Z.even q = negb (q mod 2 =? 1).
Proof.
  rewrite Zmod_even. destruct (Z.even q); reflexivity.
Qed.

Lemma divide_and_round_spec (a b : Z) :
  (b = 0 -> _divide_and_round a b = Raise ZeroDivisionError)
  /\ (b <> 0 ->
      exists q, _divide_and_round a b = Ok q
                /\ Z.abs (2 * (a - q * b)) <= Z.abs b
                /\ (Z.abs (2 * (a - q * b)) = Z.abs b -> Z.even q = true)).
Proof.
  split.
  - intros ->. reflexivity.
  - intros Hb. unfold _divide_and_round, divmod.
    destruct (Z.eqb_spec b 0) as [|_]; [contradiction|].
    pose proof (Z.div_mod a b Hb) as Hdm.
    set (q := a / b) in *. set (r := a mod b) in *.
    assert (Hev1 : Z.even (q + 1) = negb (Z.even q)).
    { rewrite Z.even_add. destruct (Z.even q); reflexivity. }
    pose proof (even_mod2 q) as Hev.
    destruct (Z.gtb_spec b 0) as [Hpos|Hneg].
    + pose proof (Z.mod_pos_bound a b Hpos) as Hr. fold r in Hr.
      destruct (Z.gtb_spec (r * 2) b) as [Hgt|Hle]; cbn [orb].
      * exists (q + 1). split; [reflexivity|]. split; lia.
      * destruct (Z.eqb_spec (r * 2) b) as [Heq|Hne]; cbn [andb].
        -- destruct (Z.eqb_spec (q mod 2) 1) as [Hodd|Heven].
           ++ exists (q + 1). split; [reflexivity|]. split; [lia|].
              intros _. rewrite Hev1, Hev. reflexivity.
           ++ exists q. split; [reflexivity|]. split; [lia|].
              intros _. rewrite Hev. reflexivity.
        -- exists q. split; [reflexivity|]. split; lia.
    + assert (Hneg' : b < 0) by lia.
      pose proof (Z.mod_neg_bound a b Hneg') as Hr. fold r in Hr.
      destruct (Z.ltb_spec (r * 2) b) as [Hlt|Hge]; cbn [orb].
      * exists (q + 1). split; [reflexivity|]. split; lia.
      * destruct (Z.eqb_spec (r * 2) b) as [Heq|Hne]; cbn [andb].
        -- destruct (Z.eqb_spec (q mod 2) 1) as [Hodd|Heven].
           ++ exists (q + 1). split; [reflexivity|]. split; [lia|].
              intros _. rewrite Hev1, Hev. reflexivity.
           ++ exists q. split; [reflexivity|]. split; [lia|].
              intros _. rewrite Hev. reflexivity.
        -- exists q. split; [reflexivity|]. split; lia.
Qed.

(** [_divide_and_round(a, b)] raises [ZeroDivisionError] for [b = 0];
    otherwise it returns the integer nearest to [a / b], and the even one of
    the two when [a / b] lies half-way between them. *)
Theorem divide_and_round_nearest (a b : Z) :
  (b = 0 -> _divide_and_round a b = Raise ZeroDivisionError)
  /\ (b <> 0 ->
      exists q, _divide_and_round a b = Ok q
                /\ Z.abs (2 * (a - q * b)) <= Z.abs b
                /\ (Z.abs (2 * (a - q * b)) = Z.abs b -> Z.even q = true)).
Proof. exact (divide_and_round_spec a b). Qed.

Lemma divide_and_round_nearest_witness :
  exists q, _divide_and_round 7 2 = Ok q
            /\ Z.abs (2 * (7 - q * 2)) <= Z.abs 2
            /\ (Z.abs (2 * (7 - q * 2)) = Z.abs 2 -> Z.even q = true).
Proof.
  destruct (divide_and_round_nearest 7 2) as [_ Hround].
  apply Hround. discriminate.
Defined.

(** ** Order and arithmetic of durations *)

Lemma duration_compare_microseconds (a b : Mtimedelta.t) :
  0 <= Mtimedelta._seconds a <= 86399 ->
  0 <= Mtimedelta._microseconds a <= 999999 ->
  0 <= Mtimedelta._seconds b <= 86399 ->
  0 <= Mtimedelta._microseconds b <= 999999 ->
  tuple_compare (Mtimedelta._getstate a) (Mtimedelta._getstate b)
  = (Mtimedelta._to_microseconds a ?= Mtimedelta._to_microseconds b).
Proof.
  destruct a as [d s u], b as [d' s' u'].
  unfold Mtimedelta._getstate, Mtimedelta._to_microseconds.
  cbn [Mtimedelta._sols Mtimedelta._seconds Mtimedelta._microseconds
       tuple_compare].
  intros Hs Hu Hs' Hu'. symmetry.
  destruct (Z.compare_spec d d') as [Hd|Hd|Hd].
  - destruct (Z.compare_spec s s') as [Hse|Hse|Hse].
    + destruct (Z.compare_spec u u') as [Hus|Hus|Hus].
      * apply Z.compare_eq_iff. lia.
      * apply Z.compare_lt_iff. lia.
      * apply Z.compare_gt_iff. lia.
    + apply Z.compare_lt_iff. lia.
    + apply Z.compare_gt_iff. lia.
  - apply Z.compare_lt_iff. lia.
  - apply Z.compare_gt_iff. lia.
Qed.

(** Comparison of two normalized durations, field by field as the code
    does it, is comparison of their lengths in microseconds; [==] holds
    only between identical triples. *)
Theorem duration_order (a b : Mtimedelta.t) :
  normal a -> normal b ->
  (Mtimedelta.__lt__ a b = true
   <-> Mtimedelta._to_microseconds a < Mtimedelta._to_microseconds b)
  /\ (Mtimedelta.__le__ a b = true
      <-> Mtimedelta._to_microseconds a <= Mtimedelta._to_microseconds b)
  /\ (Mtimedelta.__gt__ a b = true
      <-> Mtimedelta._to_microseconds a > Mtimedelta._to_microseconds b)
  /\ (Mtimedelta.__ge__ a b = true
      <-> Mtimedelta._to_microseconds a >= Mtimedelta._to_microseconds b)
  /\ (Mtimedelta.__eq__ a b = true <-> a = b).
Proof.
  intros (Hs & Hu & _) (Hs' & Hu' & _).
  unfold Mtimedelta.__lt__, Mtimedelta.__le__, Mtimedelta.__gt__,
    Mtimedelta.__ge__, Mtimedelta.__eq__, Mtimedelta._cmp, _cmp.
  rewrite duration_compare_microseconds by assumption.
  assert (Hinj : Mtimedelta._to_microseconds a
                 = Mtimedelta._to_microseconds b -> a = b).
  { intros He. rewrite <- (normalized_to_microseconds a),
      <- (normalized_to_microseconds b) by assumption.
    rewrite He. reflexivity. }
  destruct (Z.compare_spec (Mtimedelta._to_microseconds a)
                           (Mtimedelta._to_microseconds b)) as [He|Hl|Hg];
    cbn [cmp_of]; repeat split; intros H; try lia; try discriminate;
    try reflexivity; try (apply Hinj; assumption); subst; lia.
Qed.

Lemma duration_order_witness :
  Mtimedelta.__lt__
    {| Mtimedelta._sols := -1; Mtimedelta._seconds := 86399;
       Mtimedelta._microseconds := 999999 |}
    {| Mtimedelta._sols := 0; Mtimedelta._seconds := 0;
       Mtimedelta._microseconds := 0 |} = true
  <-> -1 < 0.
Proof.
  destruct (duration_order
              {| Mtimedelta._sols := -1; Mtimedelta._seconds := 86399;
                 Mtimedelta._microseconds := 999999 |}
              {| Mtimedelta._sols := 0; Mtimedelta._seconds := 0;
                 Mtimedelta._microseconds := 0 |}) as [Hlt _].
  - unfold normal. cbn. lia.
  - unfold normal. cbn. lia.
  - exact Hlt.
Defined.

Lemma normal_to_microseconds_bounds (a : Mtimedelta.t) :
  normal a ->
  -86399999913600000000 <= Mtimedelta._to_microseconds a
  <= 86399999999999999999.
Proof.
  intros (Hs & Hu & Hd). unfold Mtimedelta._to_microseconds. lia.
Qed.

Lemma neg_total (a : Mtimedelta.t) :
  total_microseconds (- Mtimedelta._sols a) (- Mtimedelta._seconds a)
                     (- Mtimedelta._microseconds a) 0 0 0 0
  = - Mtimedelta._to_microseconds a.
Proof. unfold total_microseconds, Mtimedelta._to_microseconds. lia. Qed.

Lemma duration_neg_spec (a : Mtimedelta.t) :
  normal a ->
  (Mtimedelta._sols a = 999999999
   /\ (0 < Mtimedelta._seconds a \/ 0 < Mtimedelta._microseconds a) ->
   Mtimedelta.__neg__ a = Raise OverflowError)
  /\ (~ (Mtimedelta._sols a = 999999999
         /\ (0 < Mtimedelta._seconds a \/ 0 < Mtimedelta._microseconds a)) ->
      exists r, Mtimedelta.__neg__ a = Ok r /\ normal r
                /\ Mtimedelta._to_microseconds r
                   = - Mtimedelta._to_microseconds a
                /\ Mtimedelta.__neg__ r = Ok a).
Proof.
  intros Hn. pose proof Hn as (Hs & Hu & Hd).
  unfold Mtimedelta.__neg__ at 1 2. rewrite new_normalizes. cbv zeta.
  rewrite neg_total.
  set (T := Mtimedelta._to_microseconds a).
  assert (HT : T = (Mtimedelta._sols a * 86400 + Mtimedelta._seconds a)
                   * 1000000 + Mtimedelta._microseconds a) by reflexivity.
  split.
  - intros (Hmax & Hmore).
    destruct (Z.gtb_spec (Z.abs (- T / 86400000000)) 999999999) as [_|Hle];
      [reflexivity|].
    exfalso. revert Hle. Z.div_mod_to_equations. lia.
  - intros Hnot.
    destruct (Z.gtb_spec (Z.abs (- T / 86400000000)) 999999999) as [Hgt|Hle].
    { exfalso. revert Hgt. Z.div_mod_to_equations. lia. }
    exists (normalized (- T)).
    split; [reflexivity|]. split; [apply normalized_normal; exact Hle|].
    split; [apply to_microseconds_normalized|].
    unfold Mtimedelta.__neg__. rewrite new_in_range; rewrite neg_total,
      to_microseconds_normalized, Z.opp_involutive; fold T.
    + f_equal. apply normalized_to_microseconds; assumption.
    + unfold T. rewrite sols_of_to_microseconds by assumption. lia.
Qed.

(** Negating a normalized duration gives the duration of the opposite
    length, and negating that gives the first one back; the one exception
    is a duration of 999999999 sols and something more (as [Mtimedelta.max]
    is), whose negation raises [OverflowError]. *)
Theorem duration_neg (a : Mtimedelta.t) :
  normal a ->
  (Mtimedelta._sols a = 999999999
   /\ (0 < Mtimedelta._seconds a \/ 0 < Mtimedelta._microseconds a) ->
   Mtimedelta.__neg__ a = Raise OverflowError)
  /\ (~ (Mtimedelta._sols a = 999999999
         /\ (0 < Mtimedelta._seconds a \/ 0 < Mtimedelta._microseconds a)) ->
      exists r, Mtimedelta.__neg__ a = Ok r /\ normal r
                /\ Mtimedelta._to_microseconds r
                   = - Mtimedelta._to_microseconds a
                /\ Mtimedelta.__neg__ r = Ok a).
Proof. exact (duration_neg_spec a). Qed.

Lemma duration_neg_witness :
  Mtimedelta.__neg__
    {| Mtimedelta._sols := 999999999; Mtimedelta._seconds := 86399;
       Mtimedelta._microseconds := 999999 |} = Raise OverflowError
  /\ exists r,
       Mtimedelta.__neg__
         {| Mtimedelta._sols := 0; Mtimedelta._seconds := 0;
            Mtimedelta._microseconds := 1 |} = Ok r
       /\ normal r
       /\ Mtimedelta._to_microseconds r = - 1
       /\ Mtimedelta.__neg__ r
          = Ok {| Mtimedelta._sols := 0; Mtimedelta._seconds := 0;
                  Mtimedelta._microseconds := 1 |}.
Proof.
  split.
  - apply (duration_neg
             {| Mtimedelta._sols := 999999999; Mtimedelta._seconds := 86399;
                Mtimedelta._microseconds := 999999 |}).
    + unfold normal. cbn. lia.
    + cbn. lia.
  - apply (duration_neg
             {| Mtimedelta._sols := 0; Mtimedelta._seconds := 0;
                Mtimedelta._microseconds := 1 |}).
    + unfold normal. cbn. lia.
    + cbn. lia.
Defined.

(** [abs] of a normalized duration never raises: it returns the
    normalized duration of the absolute length, whose sols are not
    negative. *)
Theorem duration_abs (a : Mtimedelta.t) :
  normal a ->
  exists r, Mtimedelta.__abs__ a = Ok r /\ normal r
            /\ Mtimedelta._to_microseconds r
               = Z.abs (Mtimedelta._to_microseconds a)
            /\ 0 <= Mtimedelta._sols r.
Proof.
  intros Hn. pose proof Hn as (Hs & Hu & Hd).
  unfold Mtimedelta.__abs__.
  destruct (Z.ltb_spec (Mtimedelta._sols a) 0) as [Hneg|Hpos].
  - destruct (duration_neg_spec a Hn) as [_ Hok].
    destruct Hok as (r & Hr & Hnr & Hus & _); [lia|].
    exists r. split; [exact Hr|]. split; [exact Hnr|].
    assert (Hlt : Mtimedelta._to_microseconds a < 0)
      by (unfold Mtimedelta._to_microseconds; lia).
    split; [lia|].
    destruct Hnr as (Hrs & Hru & _).
    rewrite <- (sols_of_to_microseconds r) by assumption.
    rewrite Hus. Z.div_mod_to_equations. lia.
  - exists a. split; [reflexivity|]. split; [exact Hn|].
    split; [|exact Hpos].
    unfold Mtimedelta._to_microseconds. lia.
Qed.

Lemma duration_abs_witness :
  exists r,
    Mtimedelta.__abs__
      {| Mtimedelta._sols := -999999999; Mtimedelta._seconds := 1;
         Mtimedelta._microseconds := 0 |} = Ok r
    /\ normal r
    /\ Mtimedelta._to_microseconds r
       = Z.abs (Mtimedelta._to_microseconds
                  {| Mtimedelta._sols := -999999999;
                     Mtimedelta._seconds := 1;
                     Mtimedelta._microseconds := 0 |})
    /\ 0 <= Mtimedelta._sols r.
Proof.
  apply (duration_abs
           {| Mtimedelta._sols := -999999999; Mtimedelta._seconds := 1;
              Mtimedelta._microseconds := 0 |}).
  unfold normal. cbn. lia.
Defined.

Lemma mul_total (a : Mtimedelta.t) (k : Z) :
  total_microseconds (Mtimedelta._sols a * k) (Mtimedelta._seconds a * k)
                     (Mtimedelta._microseconds a * k) 0 0 0 0
  = Mtimedelta._to_microseconds a * k.
Proof. unfold total_microseconds, Mtimedelta._to_microseconds. lia. Qed.

Lemma add_total (a b : Mtimedelta.t) :
  total_microseconds (Mtimedelta._sols a + Mtimedelta._sols b)
    (Mtimedelta._seconds a + Mtimedelta._seconds b)
    (Mtimedelta._microseconds a + Mtimedelta._microseconds b) 0 0 0 0
  = Mtimedelta._to_microseconds a + Mtimedelta._to_microseconds b.
Proof. unfold total_microseconds, Mtimedelta._to_microseconds. lia. Qed.

Lemma mul_ok_inv (a r : Mtimedelta.t) (k : Z) :
  Mtimedelta.__mul__ a k = Ok r ->
  normal r
  /\ Mtimedelta._to_microseconds r = Mtimedelta._to_microseconds a * k.
Proof.
  unfold Mtimedelta.__mul__. intros H.
  apply new_ok_to_microseconds in H. rewrite mul_total in H. exact H.
Qed.

Lemma add_ok_inv (a b r : Mtimedelta.t) :
  Mtimedelta.__add__ a b = Ok r ->
  normal r
  /\ Mtimedelta._to_microseconds r
     = Mtimedelta._to_microseconds a + Mtimedelta._to_microseconds b.
Proof.
  unfold Mtimedelta.__add__. intros H.
  apply new_ok_to_microseconds in H. rewrite add_total in H. exact H.
Qed.

Lemma normal_injective (a b : Mtimedelta.t) :
  normal a -> normal b ->
  Mtimedelta._to_microseconds a = Mtimedelta._to_microseconds b -> a = b.
Proof.
  intros (Hs & Hu & _) (Hs' & Hu' & _) He.
  rewrite <- (normalized_to_microseconds a),
    <- (normalized_to_microseconds b) by assumption.
  rewrite He. reflexivity.
Qed.

(** Multiplying a duration by an integer multiplies its length in
    microseconds by it and returns the normalized duration of that length,
    or raises [OverflowError] when that length has more than 999999999 sols
    either way. *)
Theorem duration_mul (a : Mtimedelta.t) (k : Z) :
  (exists r, Mtimedelta.__mul__ a k = Ok r /\ normal r
             /\ Mtimedelta._to_microseconds r
                = Mtimedelta._to_microseconds a * k)
  \/ (Mtimedelta.__mul__ a k = Raise OverflowError
      /\ Z.abs (Mtimedelta._to_microseconds a * k / 86400000000)
         > 999999999).
Proof.
  unfold Mtimedelta.__mul__. rewrite new_normalizes. cbv zeta.
  rewrite mul_total.
  destruct (Z.gtb_spec
              (Z.abs (Mtimedelta._to_microseconds a * k / 86400000000))
              999999999) as [Hgt|Hle].
  - right. split; [reflexivity|lia].
  - left. eexists. split; [reflexivity|].
    split; [apply normalized_normal; exact Hle|].
    apply to_microseconds_normalized.
Qed.

(** Multiplication by an integer distributes over a sum: when [a + b],
    [(a + b) * k], [a * k] and [b * k] are all constructed,
    [a * k + b * k] is [(a + b) * k]. *)
Theorem duration_mul_add (a b c ck ak bk : Mtimedelta.t) (k : Z) :
  Mtimedelta.__add__ a b = Ok c ->
  Mtimedelta.__mul__ c k = Ok ck ->
  Mtimedelta.__mul__ a k = Ok ak ->
  Mtimedelta.__mul__ b k = Ok bk ->
  Mtimedelta.__add__ ak bk = Ok ck.
Proof.
  intros Hc Hck Hak Hbk.
  apply add_ok_inv in Hc. destruct Hc as [_ Hc].
  apply mul_ok_inv in Hck. destruct Hck as [Hnck Hck].
  apply mul_ok_inv in Hak. destruct Hak as [_ Hak].
  apply mul_ok_inv in Hbk. destruct Hbk as [_ Hbk].
  destruct Hnck as (Hs & Hu & Hd).
  unfold Mtimedelta.__add__. rewrite new_in_range; rewrite add_total.
  - f_equal.
    replace (Mtimedelta._to_microseconds ak
             + Mtimedelta._to_microseconds bk)
      with (Mtimedelta._to_microseconds ck) by lia.
    apply normalized_to_microseconds; assumption.
  - replace (Mtimedelta._to_microseconds ak
             + Mtimedelta._to_microseconds bk)
      with (Mtimedelta._to_microseconds ck) by lia.
    rewrite sols_of_to_microseconds by assumption. exact Hd.
Qed.

Lemma duration_mul_add_witness :
  Mtimedelta.__add__
    {| Mtimedelta._sols := 2; Mtimedelta._seconds := 86397;
       Mtimedelta._microseconds := 0 |}
    {| Mtimedelta._sols := -3; Mtimedelta._seconds := 6;
       Mtimedelta._microseconds := 0 |}
  = Ok {| Mtimedelta._sols := 0; Mtimedelta._seconds := 3;
          Mtimedelta._microseconds := 0 |}.
Proof.
  apply (duration_mul_add
           {| Mtimedelta._sols := 0; Mtimedelta._seconds := 86399;
              Mtimedelta._microseconds := 0 |}
           {| Mtimedelta._sols := -1; Mtimedelta._seconds := 2;
              Mtimedelta._microseconds := 0 |}
           {| Mtimedelta._sols := 0; Mtimedelta._seconds := 1;
              Mtimedelta._microseconds := 0 |}
           {| Mtimedelta._sols := 0; Mtimedelta._seconds := 3;
              Mtimedelta._microseconds := 0 |}
           {| Mtimedelta._sols := 2; Mtimedelta._seconds := 86397;
              Mtimedelta._microseconds := 0 |}
           {| Mtimedelta._sols := -3; Mtimedelta._seconds := 6;
              Mtimedelta._microseconds := 0 |} 3);
    reflexivity.
Defined.

(** Dividing a normalized duration by another with [divmod]: a zero
    divisor raises [ZeroDivisionError]; otherwise the result is an integer
    quotient [q] and a normalized remainder [r] with [a = q * b + r] in
    microseconds, the remainder lying between zero and the divisor on the
    divisor's side of zero; [//] and [%] return these same [q] and [r]. *)
Theorem duration_divmod (a b : Mtimedelta.t) :
  normal a -> normal b ->
  (Mtimedelta.__bool__ b = false ->
   Mtimedelta.__divmod__ a b = Raise ZeroDivisionError
   /\ Mtimedelta.__floordiv__ a b = Raise ZeroDivisionError
   /\ Mtimedelta.__mod__ a b = Raise ZeroDivisionError)
  /\ (Mtimedelta.__bool__ b = true ->
      exists q r,
        Mtimedelta.__divmod__ a b = Ok (q, r)
        /\ Mtimedelta.__floordiv__ a b = Ok q
        /\ Mtimedelta.__mod__ a b = Ok r
        /\ normal r
        /\ Mtimedelta._to_microseconds a
           = q * Mtimedelta._to_microseconds b
             + Mtimedelta._to_microseconds r
        /\ (0 < Mtimedelta._to_microseconds b ->
            0 <= Mtimedelta._to_microseconds r
            < Mtimedelta._to_microseconds b)
        /\ (Mtimedelta._to_microseconds b < 0 ->
            Mtimedelta._to_microseconds b
            < Mtimedelta._to_microseconds r <= 0)).
Proof.
  intros Hna Hnb. pose proof Hnb as (Hs & Hu & Hd).
  rewrite bool_to_microseconds by assumption.
  unfold Mtimedelta.__divmod__, Mtimedelta.__floordiv__, Mtimedelta.__mod__,
    divmod.
  pose proof (normal_to_microseconds_bounds b Hnb) as Hbb.
  set (A := Mtimedelta._to_microseconds a).
  set (B := Mtimedelta._to_microseconds b) in *.
  destruct (Z.eqb_spec B 0) as [Hz|Hnz]; cbn [negb]; split;
    try discriminate.
  - intros _. repeat split; reflexivity.
  - intros _.
    assert (Hr : Z.abs (A mod B / 86400000000) <= 999999999).
    { destruct (Z_lt_le_dec 0 B) as [Hp|Hm].
      - pose proof (Z.mod_pos_bound A B Hp). Z.div_mod_to_equations. lia.
      - pose proof (Z.mod_neg_bound A B ltac:(lia)).
        Z.div_mod_to_equations. lia. }
    exists (A / B), (normalized (A mod B)).
    rewrite microseconds_value by exact Hr. cbn [bind].
    rewrite to_microseconds_normalized.
    split; [reflexivity|]. split; [reflexivity|]. split; [reflexivity|].
    split; [apply normalized_normal; exact Hr|].
    split; [pose proof (Z.div_mod A B Hnz); lia|].
    split.
    + intros Hp. apply Z.mod_pos_bound. exact Hp.
    + intros Hm. apply Z.mod_neg_bound. exact Hm.
Qed.

Lemma duration_divmod_witness :
  (Mtimedelta.__divmod__
     {| Mtimedelta._sols := 1; Mtimedelta._seconds := 0;
        Mtimedelta._microseconds := 0 |}
     {| Mtimedelta._sols := 0; Mtimedelta._seconds := 0;
        Mtimedelta._microseconds := 0 |} = Raise ZeroDivisionError
   /\ Mtimedelta.__floordiv__
        {| Mtimedelta._sols := 1; Mtimedelta._seconds := 0;
           Mtimedelta._microseconds := 0 |}
        {| Mtimedelta._sols := 0; Mtimedelta._seconds := 0;
           Mtimedelta._microseconds := 0 |} = Raise ZeroDivisionError
   /\ Mtimedelta.__mod__
        {| Mtimedelta._sols := 1; Mtimedelta._seconds := 0;
           Mtimedelta._microseconds := 0 |}
        {| Mtimedelta._sols := 0; Mtimedelta._seconds := 0;
           Mtimedelta._microseconds := 0 |} = Raise ZeroDivisionError)
  /\ exists q r,
       Mtimedelta.__divmod__
         {| Mtimedelta._sols := -1; Mtimedelta._seconds := 86370;
            Mtimedelta._microseconds := 0 |}
         {| Mtimedelta._sols := 0; Mtimedelta._seconds := 3600;
            Mtimedelta._microseconds := 0 |} = Ok (q, r)
       /\ q = -1
       /\ r = {| Mtimedelta._sols := 0; Mtimedelta._seconds := 3570;
                 Mtimedelta._microseconds := 0 |}.
Proof.
  split.
  - apply (duration_divmod
             {| Mtimedelta._sols := 1; Mtimedelta._seconds := 0;
                Mtimedelta._microseconds := 0 |}
             {| Mtimedelta._sols := 0; Mtimedelta._seconds := 0;
                Mtimedelta._microseconds := 0 |}).
    + unfold normal. cbn. lia.
    + unfold normal. cbn. lia.
    + reflexivity.
  - destruct (duration_divmod
                {| Mtimedelta._sols := -1; Mtimedelta._seconds := 86370;
                   Mtimedelta._microseconds := 0 |}
                {| Mtimedelta._sols := 0; Mtimedelta._seconds := 3600;
                   Mtimedelta._microseconds := 0 |}) as [_ Hdiv].
    + unfold normal. cbn. lia.
    + unfold normal. cbn. lia.
    + destruct Hdiv as (q & r & Hqr & _); [reflexivity|].
      exists q, r. split; [exact Hqr|].
      vm_compute in Hqr. injection Hqr as <- <-. split; reflexivity.
Defined.

Lemma quotient_within (A k q lo hi : Z) :
  0 < k -> lo <= 0 <= hi -> lo <= A <= hi ->
  Z.abs (2 * (A - q * k)) <= k -> lo <= q <= hi.
Proof.
  intros Hk Hz HA Hq. split.
  - destruct (Z_le_gt_dec lo q) as [|Hgt]; [assumption|exfalso].
    assert (q * k <= (lo - 1) * k) by nia.
    assert (lo * k <= lo) by nia. lia.
  - destruct (Z_le_gt_dec q hi) as [|Hgt]; [assumption|exfalso].
    assert ((hi + 1) * k <= q * k) by nia.
    assert (hi <= hi * k) by nia. lia.
Qed.

Lemma floor_within (A k lo hi : Z) :
  0 < k -> lo <= 0 <= hi -> lo <= A <= hi -> lo <= A / k <= hi.
Proof.
  intros Hk Hz HA. split.
  - apply Z.div_le_lower_bound; [exact Hk|]. nia.
  - apply Z.div_le_upper_bound; [exact Hk|]. nia.
Qed.

(** Dividing a normalized duration by a positive integer never
    overflows: [//] gives the duration of the floored microsecond count and
    [/] the duration of the nearest one, halves going to the even count;
    both raise [ZeroDivisionError] for the integer zero. *)
Theorem duration_div_int (a : Mtimedelta.t) (k : Z) :
  normal a ->
  (k = 0 ->
   Mtimedelta.__floordiv__int a k = Raise ZeroDivisionError
   /\ Mtimedelta.__truediv__int a k = Raise ZeroDivisionError)
  /\ (0 < k ->
      exists f r,
        Mtimedelta.__floordiv__int a k = Ok f /\ normal f
        /\ Mtimedelta._to_microseconds f
           = Mtimedelta._to_microseconds a / k
        /\ Mtimedelta.__truediv__int a k = Ok r /\ normal r
        /\ Z.abs (2 * (Mtimedelta._to_microseconds a
                       - Mtimedelta._to_microseconds r * k)) <= k
        /\ (Z.abs (2 * (Mtimedelta._to_microseconds a
                        - Mtimedelta._to_microseconds r * k)) = k ->
            Z.even (Mtimedelta._to_microseconds r) = true)).
Proof.
  intros Hn. pose proof (normal_to_microseconds_bounds a Hn) as Hb.
  unfold Mtimedelta.__floordiv__int, Mtimedelta.__truediv__int.
  set (A := Mtimedelta._to_microseconds a) in *.
  split.
  - intros ->. split; reflexivity.
  - intros Hk. destruct (Z.eqb_spec k 0) as [|_]; [lia|].
    destruct (divide_and_round_spec A k) as [_ Hround].
    destruct (Hround ltac:(lia)) as (q & Hq & Hnear & Htie).
    rewrite (Z.abs_eq k) in Hnear, Htie by lia.
    assert (Hfb : Z.abs (A / k / 86400000000) <= 999999999).
    { pose proof (floor_within A k (-86399999913600000000)
                    86399999999999999999 Hk ltac:(lia) Hb).
      Z.div_mod_to_equations. lia. }
    assert (Hqb : Z.abs (q / 86400000000) <= 999999999).
    { pose proof (quotient_within A k q (-86399999913600000000)
                    86399999999999999999 Hk ltac:(lia) Hb Hnear).
      Z.div_mod_to_equations. lia. }
    exists (normalized (A / k)), (normalized q).
    rewrite Hq. cbn [bind].
    rewrite !microseconds_value by assumption.
    rewrite !to_microseconds_normalized.
    split; [reflexivity|]. split; [apply normalized_normal; exact Hfb|].
    split; [reflexivity|]. split; [reflexivity|].
    split; [apply normalized_normal; exact Hqb|].
    split; assumption.
Qed.

Lemma duration_div_int_witness :
  exists f r,
    Mtimedelta.__floordiv__int
      {| Mtimedelta._sols := 0; Mtimedelta._seconds := 0;
         Mtimedelta._microseconds := 5 |} 2 = Ok f
    /\ Mtimedelta._microseconds f = 2
    /\ Mtimedelta.__truediv__int
         {| Mtimedelta._sols := 0; Mtimedelta._seconds := 0;
            Mtimedelta._microseconds := 5 |} 2 = Ok r
    /\ Mtimedelta._microseconds r = 2.
Proof.
  destruct (duration_div_int
              {| Mtimedelta._sols := 0; Mtimedelta._seconds := 0;
                 Mtimedelta._microseconds := 5 |} 2) as [_ Hdiv].
  - unfold normal. cbn. lia.
  - destruct Hdiv as (f & r & Hf & _ & _ & Hr & _); [lia|].
    exists f, r. vm_compute in Hf, Hr.
    injection Hf as <-. injection Hr as <-.
    repeat split; reflexivity.
Defined.

(** ** Dates and their ordinals *)

Lemma sols_before_year_le (y : Z) (k : nat) :
  _sols_before_year y <= _sols_before_year (y + Z.of_nat k).
Proof.
  induction k as [|k IH].
  - rewrite Z.add_0_r. lia.
  - rewrite Nat2Z.inj_succ. unfold Z.succ.
    pose proof (year_length_bounds (y + Z.of_nat k)) as Hl.
    replace (y + (Z.of_nat k + 1)) with (y + Z.of_nat k + 1) by lia. lia.
Qed.

Lemma sols_before_year_mono (y y' : Z) :
  y <= y' -> _sols_before_year y <= _sols_before_year y'.
Proof.
  intros H. replace y' with (y + Z.of_nat (Z.to_nat (y' - y)))
    by (rewrite Z2Nat.id; lia).
  apply sols_before_year_le.
Qed.

(** The ordinal of a date of the calendar lies in the date's year. *)
Lemma ordinal_in_year (y m d : Z) :
  1 <= m <= 24 -> 1 <= d <= month_length y m ->
  _sols_before_year y < _sols_before_year y + sbm_value m + d
  <= _sols_before_year (y + 1).
Proof.
  intros Hm Hd.
  pose proof (month_length_le_longest y m) as Hlong.
  destruct (month_sol_inverse m d Hm ltac:(lia)) as [_ Hin].
  pose proof (year_length y) as Hlen.
  assert (Hsb : 0 <= sbm_value m).
  { unfold sbm_value. Z.div_mod_to_equations. lia. }
  destruct Hin as [Hle|[-> ->]].
  - destruct (_is_leap y); lia.
  - unfold month_length in Hd. cbn [Z.eqb Pos.eqb orb andb] in Hd.
    destruct (_is_leap y); cbn [negb] in Hd; [|lia].
    change (sbm_value 24) with 641. lia.
Qed.

Lemma month_sol_order (m d m' d' : Z) :
  1 <= m <= 24 -> 1 <= m' <= 24 ->
  1 <= d <= longest m -> 1 <= d' <= longest m' ->
  tuple_compare [m; d] [m'; d']
  = (sbm_value m + d ?= sbm_value m' + d').
Proof.
  intros Hm Hm' Hd Hd'. cbn [tuple_compare]. symmetry.
  unfold longest in *.
  destruct (Z.compare_spec m m') as [->|Hlt|Hgt].
  - destruct (Z.compare_spec d d') as [->|Hl|Hg].
    + apply Z.compare_eq_iff. reflexivity.
    + apply Z.compare_lt_iff. lia.
    + apply Z.compare_gt_iff. lia.
  - apply Z.compare_lt_iff. unfold sbm_value.
    destruct ((m =? 6) || (m =? 12) || (m =? 18)) eqn:Hsix.
    + Z.div_mod_to_equations. lia.
    + apply orb_false_iff in Hsix. destruct Hsix as [Hsix H18].
      apply orb_false_iff in Hsix. destruct Hsix as [H6 H12].
      apply Z.eqb_neq in H6, H12, H18.
      Z.div_mod_to_equations. lia.
  - apply Z.compare_gt_iff. unfold sbm_value.
    destruct ((m' =? 6) || (m' =? 12) || (m' =? 18)) eqn:Hsix.
    + Z.div_mod_to_equations. lia.
    + apply orb_false_iff in Hsix. destruct Hsix as [Hsix H18].
      apply orb_false_iff in Hsix. destruct Hsix as [H6 H12].
      apply Z.eqb_neq in H6, H12, H18.
      Z.div_mod_to_equations. lia.
Qed.

Lemma date_compare_ordinal (y m d y' m' d' : Z) :
  1 <= m <= 24 -> 1 <= d <= month_length y m ->
  1 <= m' <= 24 -> 1 <= d' <= month_length y' m' ->
  tuple_compare [y; m; d] [y'; m'; d']
  = (_sols_before_year y + sbm_value m + d
     ?= _sols_before_year y' + sbm_value m' + d').
Proof.
  intros Hm Hd Hm' Hd'.
  pose proof (ordinal_in_year y m d Hm Hd) as Ho.
  pose proof (ordinal_in_year y' m' d' Hm' Hd') as Ho'.
  pose proof (month_length_le_longest y m).
  pose proof (month_length_le_longest y' m').
  change (tuple_compare [y; m; d] [y'; m'; d'])
    with (match y ?= y' with
          | Eq => tuple_compare [m; d] [m'; d']
          | c => c
          end).
  destruct (Z.compare_spec y y') as [->|Hlt|Hgt].
  - rewrite month_sol_order by lia.
    rewrite <- !Z.add_assoc, Z.add_compare_mono_l. reflexivity.
  - symmetry. apply Z.compare_lt_iff.
    pose proof (sols_before_year_mono (y + 1) y' ltac:(lia)). lia.
  - symmetry. apply Z.compare_gt_iff.
    pose proof (sols_before_year_mono (y' + 1) y ltac:(lia)). lia.
Qed.

(** The order of valid dates, compared as (year, month, sol), is the
    order of their ordinals; two valid dates are [==] exactly when they
    are the same date, which is when their ordinals are equal. *)
Theorem date_order_is_ordinal_order (d1 d2 : Mdate.t) :
  valid_Mdate d1 -> valid_Mdate d2 ->
  exists o1 o2,
    Mdate.toordinal d1 = Ok o1 /\ Mdate.toordinal d2 = Ok o2
    /\ (Mdate.__lt__ d1 d2 = true <-> o1 < o2)
    /\ (Mdate.__le__ d1 d2 = true <-> o1 <= o2)
    /\ (Mdate.__gt__ d1 d2 = true <-> o1 > o2)
    /\ (Mdate.__ge__ d1 d2 = true <-> o1 >= o2)
    /\ (Mdate.__eq__ d1 d2 = true <-> o1 = o2)
    /\ (o1 = o2 <-> d1 = d2).
Proof.
  intros H1 H2.
  pose proof H1 as Hv1. pose proof H2 as Hv2.
  apply valid_Mdate_fields in H1, H2.
  destruct H1 as (Hy1 & Hm1 & Hs1), H2 as (Hy2 & Hm2 & Hs2).
  destruct (toordinal_valid d1 Hv1) as (o1 & Ho1 & _ & Hb1).
  destruct (toordinal_valid d2 Hv2) as (o2 & Ho2 & _ & Hb2).
  exists o1, o2.
  split; [exact Ho1|]. split; [exact Ho2|].
  unfold Mdate.toordinal in Ho1, Ho2.
  rewrite ymd2ord_value in Ho1, Ho2 by assumption.
  injection Ho1 as Ho1. injection Ho2 as Ho2.
  unfold Mdate.__lt__, Mdate.__le__, Mdate.__gt__, Mdate.__ge__,
    Mdate.__eq__, Mdate._cmp, _cmp.
  rewrite date_compare_ordinal by assumption. rewrite Ho1, Ho2.
  assert (Hsame : o1 = o2 <-> d1 = d2).
  { split.
    - intros He. rewrite He in Hb1. rewrite Hb1 in Hb2.
      injection Hb2 as Hy Hm Hs. destruct d1, d2. cbn in *. congruence.
    - intros He. subst d2. lia. }
  destruct (Z.compare_spec o1 o2) as [He|Hl|Hg]; cbn [cmp_of];
    repeat split; try exact (proj1 Hsame); try exact (proj2 Hsame);
    intros H; try lia; try discriminate; try reflexivity.
Qed.

Lemma date_order_is_ordinal_order_witness :
  exists o1 o2,
    Mdate.toordinal
      {| Mdate._year := 218; Mdate._month := 24; Mdate._sol := 27 |} = Ok o1
    /\ Mdate.toordinal
         {| Mdate._year := 219; Mdate._month := 1; Mdate._sol := 1 |} = Ok o2
    /\ (Mdate.__lt__
          {| Mdate._year := 218; Mdate._month := 24; Mdate._sol := 27 |}
          {| Mdate._year := 219; Mdate._month := 1; Mdate._sol := 1 |}
        = true <-> o1 < o2).
Proof.
  destruct (date_order_is_ordinal_order
              {| Mdate._year := 218; Mdate._month := 24; Mdate._sol := 27 |}
              {| Mdate._year := 219; Mdate._month := 1; Mdate._sol := 1 |})
    as (o1 & o2 & Ho1 & Ho2 & Hlt & _).
  - reflexivity.
  - reflexivity.
  - exists o1, o2. repeat split; try assumption; apply Hlt.
Defined.

Lemma fromordinal_of_toordinal (d : Mdate.t) (o : Z) :
  valid_Mdate d -> Mdate.toordinal d = Ok o -> Mdate.fromordinal o = Ok d.
Proof.
  intros Hv Ho.
  destruct (toordinal_valid d Hv) as (o' & Ho' & Hr & Hback).
  rewrite Ho in Ho'. injection Ho' as <-.
  destruct (fromordinal_ok o Hr) as (d' & Hfrom & _ & _ & Hback').
  rewrite Hback in Hback'. injection Hback' as Hy Hm Hs.
  rewrite Hfrom. f_equal. destruct d, d'. cbn in *. congruence.
Qed.

Lemma date_add_inv (d d' : Mdate.t) (t : Mtimedelta.t) :
  valid_Mdate d -> Mdate.__add__ d t = Ok d' ->
  exists o, Mdate.toordinal d = Ok o
            /\ 1 <= o + Mtimedelta._sols t <= _MAXORDINAL
            /\ valid_Mdate d'
            /\ Mdate.toordinal d' = Ok (o + Mtimedelta._sols t).
Proof.
  intros Hv Hadd.
  destruct (toordinal_valid d Hv) as (o & Ho & _ & _).
  exists o. split; [exact Ho|].
  unfold Mdate.__add__ in Hadd. rewrite Ho in Hadd. cbn [bind] in Hadd.
  destruct ((0 <? o + Mtimedelta._sols t)
            && (o + Mtimedelta._sols t <=? _MAXORDINAL)) eqn:Hr;
    [|discriminate].
  apply andb_true_iff in Hr. rewrite Z.ltb_lt, Z.leb_le in Hr.
  destruct (fromordinal_ok (o + Mtimedelta._sols t)) as
    (d'' & Hfrom & Hv'' & Hto & _); [lia|].
  rewrite Hfrom in Hadd. injection Hadd as <-.
  split; [lia|]. split; assumption.
Qed.

Lemma sols_value (n : Z) :
  Z.abs n <= 999999999 ->
  Mtimedelta.__new__ n 0 0 0 0 0 0
  = Ok {| Mtimedelta._sols := n; Mtimedelta._seconds := 0;
          Mtimedelta._microseconds := 0 |}.
Proof.
  intros Hn. rewrite new_in_range.
  - f_equal. unfold normalized, total_microseconds. f_equal;
      Z.div_mod_to_equations; lia.
  - unfold total_microseconds. Z.div_mod_to_equations. lia.
Qed.

(** The difference of two valid dates is the duration of whole sols
    between their ordinals, with no seconds and no microseconds; it never
    raises, and adding it to the second date gives the first. *)
Theorem date_sub_date (d1 d2 : Mdate.t) :
  valid_Mdate d1 -> valid_Mdate d2 ->
  exists o1 o2,
    Mdate.toordinal d1 = Ok o1 /\ Mdate.toordinal d2 = Ok o2
    /\ Mdate.__sub__ d1 d2
       = Ok {| Mtimedelta._sols := o1 - o2; Mtimedelta._seconds := 0;
               Mtimedelta._microseconds := 0 |}
    /\ Mdate.__add__ d2
         {| Mtimedelta._sols := o1 - o2; Mtimedelta._seconds := 0;
            Mtimedelta._microseconds := 0 |} = Ok d1.
Proof.
  intros Hv1 Hv2.
  destruct (toordinal_valid d1 Hv1) as (o1 & Ho1 & Hr1 & _).
  destruct (toordinal_valid d2 Hv2) as (o2 & Ho2 & Hr2 & _).
  exists o1, o2. split; [exact Ho1|]. split; [exact Ho2|].
  unfold _MAXORDINAL in *. split.
  - unfold Mdate.__sub__. rewrite Ho1, Ho2. cbn [bind].
    apply sols_value. lia.
  - unfold Mdate.__add__. rewrite Ho2. cbn [bind Mtimedelta._sols].
    replace (o2 + (o1 - o2)) with o1 by lia.
    replace ((0 <? o1) && (o1 <=? _MAXORDINAL)) with true.
    + apply fromordinal_of_toordinal; assumption.
    + symmetry. apply andb_true_iff. rewrite Z.ltb_lt, Z.leb_le.
      unfold _MAXORDINAL. lia.
Qed.

Lemma date_sub_date_witness :
  exists o1 o2,
    Mdate.__sub__
      {| Mdate._year := 219; Mdate._month := 1; Mdate._sol := 1 |}
      {| Mdate._year := 218; Mdate._month := 24; Mdate._sol := 27 |}
    = Ok {| Mtimedelta._sols := o1 - o2; Mtimedelta._seconds := 0;
            Mtimedelta._microseconds := 0 |}
    /\ o1 - o2 = 1.
Proof.
  destruct (date_sub_date
              {| Mdate._year := 219; Mdate._month := 1; Mdate._sol := 1 |}
              {| Mdate._year := 218; Mdate._month := 24; Mdate._sol := 27 |})
    as (o1 & o2 & Ho1 & Ho2 & Hsub & _).
  - reflexivity.
  - reflexivity.
  - exists o1, o2. split; [exact Hsub|].
    vm_compute in Ho1, Ho2. injection Ho1 as <-. injection Ho2 as <-.
    reflexivity.
Defined.

(** Subtracting a normalized duration from a date undoes adding it:
    whenever [d + t] is a date, [(d + t) - t] is [d]. *)
Theorem date_add_then_sub (d d' : Mdate.t) (t : Mtimedelta.t) :
  valid_Mdate d -> normal t ->
  Mdate.__add__ d t = Ok d' ->
  Mdate.__sub__delta d' t = Ok d.
Proof.
  intros Hv (_ & _ & Hd) Hadd.
  destruct (date_add_inv d d' t Hv Hadd) as (o & Ho & Hr & Hv' & Ho').
  destruct (toordinal_valid d Hv) as (o0 & Ho0 & Hr0 & _).
  rewrite Ho in Ho0. injection Ho0 as <-.
  unfold Mdate.__sub__delta. rewrite sols_value by lia. cbn [bind].
  unfold Mdate.__add__. rewrite Ho'. cbn [bind Mtimedelta._sols].
  replace (o + Mtimedelta._sols t + - Mtimedelta._sols t) with o by lia.
  replace ((0 <? o) && (o <=? _MAXORDINAL)) with true.
  - apply fromordinal_of_toordinal; assumption.
  - symmetry. apply andb_true_iff. rewrite Z.ltb_lt, Z.leb_le. lia.
Qed.

Lemma date_add_then_sub_witness :
  Mdate.__sub__delta
    {| Mdate._year := 219; Mdate._month := 1; Mdate._sol := 1 |}
    {| Mtimedelta._sols := 1; Mtimedelta._seconds := 86399;
       Mtimedelta._microseconds := 0 |}
  = Ok {| Mdate._year := 218; Mdate._month := 24; Mdate._sol := 27 |}.
Proof.
  apply (date_add_then_sub
           {| Mdate._year := 218; Mdate._month := 24; Mdate._sol := 27 |}
           {| Mdate._year := 219; Mdate._month := 1; Mdate._sol := 1 |}
           {| Mtimedelta._sols := 1; Mtimedelta._seconds := 86399;
              Mtimedelta._microseconds := 0 |}).
  - reflexivity.
  - unfold normal. cbn. lia.
  - reflexivity.
Defined.

(** Subtracting a duration from a date looks at the sols of the
    duration alone, so it is not adding the negated duration: for a
    normalized [t] with seconds or microseconds, [d + (-t)] is the sol
    before [d - t]. *)
Theorem date_sub_is_not_add_neg (d d1 d2 : Mdate.t)
  (t nt : Mtimedelta.t) :
  valid_Mdate d -> normal t ->
  0 < Mtimedelta._seconds t \/ 0 < Mtimedelta._microseconds t ->
  Mtimedelta.__neg__ t = Ok nt ->
  Mdate.__sub__delta d t = Ok d1 ->
  Mdate.__add__ d nt = Ok d2 ->
  exists o1, Mdate.toordinal d1 = Ok o1
             /\ Mdate.toordinal d2 = Ok (o1 - 1).
Proof.
  intros Hv Hn Hmore Hneg Hsub Hadd.
  pose proof Hn as (Hs & Hu & Hd).
  unfold Mdate.__sub__delta in Hsub. rewrite sols_value in Hsub by lia.
  cbn [bind] in Hsub.
  destruct (date_add_inv d d1 _ Hv Hsub) as (o & Ho & _ & _ & Ho1).
  destruct (date_add_inv d d2 _ Hv Hadd) as (o' & Ho' & _ & _ & Ho2).
  rewrite Ho in Ho'. injection Ho' as <-.
  cbn [Mtimedelta._sols] in Ho1.
  exists (o + - Mtimedelta._sols t). split; [exact Ho1|].
  rewrite Ho2. f_equal.
  unfold Mtimedelta.__neg__ in Hneg. apply new_ok_inv in Hneg.
  cbv zeta in Hneg. destruct Hneg as [-> _]. rewrite neg_total.
  unfold normalized, Mtimedelta._to_microseconds. cbn [Mtimedelta._sols].
  Z.div_mod_to_equations. lia.
Qed.

Lemma date_sub_is_not_add_neg_witness :
  exists o1,
    Mdate.toordinal
      {| Mdate._year := 219; Mdate._month := 1; Mdate._sol := 2 |} = Ok o1
    /\ Mdate.toordinal
         {| Mdate._year := 219; Mdate._month := 1; Mdate._sol := 1 |}
       = Ok (o1 - 1).
Proof.
  apply (date_sub_is_not_add_neg
           {| Mdate._year := 219; Mdate._month := 1; Mdate._sol := 2 |}
           {| Mdate._year := 219; Mdate._month := 1; Mdate._sol := 2 |}
           {| Mdate._year := 219; Mdate._month := 1; Mdate._sol := 1 |}
           {| Mtimedelta._sols := 0; Mtimedelta._seconds := 1;
              Mtimedelta._microseconds := 0 |}
           {| Mtimedelta._sols := -1; Mtimedelta._seconds := 86399;
              Mtimedelta._microseconds := 0 |}).
  - reflexivity.
  - unfold normal. cbn. lia.
  - left. cbn. lia.
  - reflexivity.
  - reflexivity.
  - reflexivity.
Defined.

(** ** Pickled dates *)

Lemma bytes_of_ok (items : list Z) :
  Forall (fun b => 0 <= b < 256) items -> bytes_of items = Ok items.
Proof.
  intros H. unfold bytes_of.
  replace (forallb _ items) with true; [reflexivity|].
  symmetry. apply forallb_forall. rewrite Forall_forall in H.
  intros b Hb. specialize (H b Hb).
  apply andb_true_iff. rewrite Z.leb_le, Z.ltb_lt. exact H.
Qed.

(** The pickled state of a valid date is four bytes, and the
    constructor called on those bytes returns the date. *)
Theorem date_pickle_roundtrip (d : Mdate.t) :
  valid_Mdate d ->
  exists state, Mdate._getstate d = Ok state
                /\ length state = 4%nat
                /\ Mdate.__new__bytes state = Ok d.
Proof.
  intros Hv. apply valid_Mdate_fields in Hv. destruct Hv as (Hy & Hm & Hs).
  pose proof (month_length_le_longest (Mdate._year d) (Mdate._month d)).
  assert (Hlong : longest (Mdate._month d) <= 28)
    by (unfold longest; destruct (_ || _); lia).
  unfold Mdate._getstate, divmod.
  rewrite bytes_of_ok.
  2:{ repeat constructor; try lia; Z.div_mod_to_equations; lia. }
  eexists. split; [reflexivity|]. split; [reflexivity|].
  unfold Mdate.__new__bytes. cbn [length nth Z.of_nat Pos.of_succ_nat
    Pos.succ Z.eqb Pos.eqb andb].
  replace ((1 <=? Mdate._month d) && (Mdate._month d <=? 24)) with true
    by (symmetry; apply range_test; exact Hm).
  unfold Mdate.__setstate.
  replace (Mdate._year d / 256 * 256 + Mdate._year d mod 256)
    with (Mdate._year d) by (Z.div_mod_to_equations; lia).
  destruct d; reflexivity.
Qed.

Lemma date_pickle_roundtrip_witness :
  exists state,
    Mdate._getstate
      {| Mdate._year := 9999; Mdate._month := 24; Mdate._sol := 28 |}
    = Ok state
    /\ length state = 4%nat
    /\ Mdate.__new__bytes state
       = Ok {| Mdate._year := 9999; Mdate._month := 24; Mdate._sol := 28 |}.
Proof.
  apply (date_pickle_roundtrip
           {| Mdate._year := 9999; Mdate._month := 24; Mdate._sol := 28 |}).
  reflexivity.
Defined.

(** ** Pickled times and date-times *)

Lemma lor_shiftl_byte (a b : Z) :
  0 <= b < 256 -> Z.lor (Z.shiftl a 8) b = a * 256 + b.
Proof.
  intros Hb.
  assert (Hland : Z.land (Z.shiftl a 8) b = 0).
  { apply Z.bits_inj'. intros n Hn.
    rewrite Z.land_spec, Z.bits_0.
    destruct (Z_lt_le_dec n 8) as [Hlow|Hhigh].
    - rewrite Z.shiftl_spec_low by exact Hlow. reflexivity.
    - destruct (Z.eq_dec b 0) as [->|Hnz].
      + rewrite Z.bits_0. apply andb_false_r.
      + rewrite (Z.bits_above_log2 b n); [apply andb_false_r|lia|].
        assert (Z.log2 b < 8) by (apply Z.log2_lt_pow2; lia). lia. }
  rewrite <- Z.lxor_lor, <- Z.add_nocarry_lxor by exact Hland.
  rewrite Z.shiftl_mul_pow2 by lia. reflexivity.
Qed.

Lemma microsecond_bytes (us : Z) :
  0 <= us <= 999999 ->
  Z.lor (Z.shiftl (Z.lor (Z.shiftl (us / 256 / 256) 8) (us / 256 mod 256))
                  8) (us mod 256) = us.
Proof.
  intros Hus.
  rewrite !lor_shiftl_byte by (apply Z.mod_pos_bound; lia).
  Z.div_mod_to_equations. lia.
Qed.

Lemma land_127 (b : Z) : Z.land b 127 = b mod 128.
Proof. change 127 with (Z.ones 7). rewrite Z.land_ones by lia. reflexivity. Qed.

(** The pickled state of a time is six bytes, and the constructor called
    on them (and on the [tzinfo], which travels beside them) returns the
    time with the same reading: with its fold from protocol 4 on, with
    fold 0 below, where the fold bit is not written; and with its
    [tzinfo], unless that object is false as a truth value, in which case
    the time comes back without [tzinfo]. *)
Theorem time_pickle_roundtrip (truth : Mtzinfo.t -> bool)
  (h m s us f protocol : Z) (tz : option Mtzinfo.t) (x : Mtime.t) :
  Mtime.__new__ h m s us tz f = Ok x ->
  exists state,
    Mtime._getstate x protocol = Ok (state, tz)
    /\ length state = 6%nat
    /\ Mtime.__new__bytes truth state tz
       = Ok {| Mtime._hour := h; Mtime._minute := m; Mtime._second := s;
               Mtime._microsecond := us;
               Mtime._tzinfo :=
                 match tz with
                 | Some p => if truth p then Some p else None
                 | None => None
                 end;
               Mtime._fold := if protocol >? 3 then f else 0 |}.
Proof.
  intros Hx. unfold Mtime.__new__ in Hx.
  destruct (_check_time_fields h m s us f) as [r|e] eqn:Hc; [|discriminate].
  apply check_time_fields_inv in Hc.
  destruct Hc as (-> & Hh & Hm & Hs & Hus & Hf).
  cbn [bind] in Hx. injection Hx as <-.
  unfold Mtime._getstate, divmod.
  cbn [Mtime._hour Mtime._minute Mtime._second Mtime._microsecond
       Mtime._tzinfo Mtime._fold].
  set (h' := if negb (f =? 0) && (protocol >? 3) then h + 128 else h).
  assert (Hh' : 0 <= h' < 256 /\ h' mod 128 = h
                /\ (h' >? 127) = negb (f =? 0) && (protocol >? 3)).
  { subst h'. destruct (negb (f =? 0) && (protocol >? 3)).
    - split; [lia|]. split; [Z.div_mod_to_equations; lia|].
      apply Z.gtb_lt. lia.
    - split; [lia|]. split; [Z.div_mod_to_equations; lia|].
      destruct (Z.gtb_spec h 127); [lia|reflexivity]. }
  destruct Hh' as (Hr & Hmod & Hhigh).
  rewrite bytes_of_ok.
  2:{ repeat constructor; try lia; Z.div_mod_to_equations; lia. }
  cbn [bind]. eexists. split; [reflexivity|]. split; [reflexivity|].
  unfold Mtime.__new__bytes.
  cbn [length nth Z.of_nat Pos.of_succ_nat Pos.succ Z.eqb Pos.eqb andb].
  rewrite land_127, Hmod.
  destruct (Z.ltb_spec h 24) as [_|]; [|lia].
  unfold Mtime.__setstate. rewrite Hhigh, microsecond_bytes by exact Hus.
  subst h'.
  destruct Hf as [-> | ->]; cbn [Z.eqb negb andb];
    destruct (protocol >? 3); cbn [andb]; f_equal; f_equal; lia.
Qed.

Lemma time_pickle_roundtrip_witness :
  exists state,
    Mtime._getstate
      {| Mtime._hour := 23; Mtime._minute := 59; Mtime._second := 59;
         Mtime._microsecond := 999999; Mtime._tzinfo := Some east_tz;
         Mtime._fold := 1 |} 4 = Ok (state, Some east_tz)
    /\ length state = 6%nat
    /\ Mtime.__new__bytes (fun _ => false) state (Some east_tz)
       = Ok {| Mtime._hour := 23; Mtime._minute := 59; Mtime._second := 59;
               Mtime._microsecond := 999999; Mtime._tzinfo := None;
               Mtime._fold := if 4 >? 3 then 1 else 0 |}.
Proof.
  apply (time_pickle_roundtrip (fun _ => false) 23 59 59 999999 1 4
           (Some east_tz)
           {| Mtime._hour := 23; Mtime._minute := 59; Mtime._second := 59;
              Mtime._microsecond := 999999; Mtime._tzinfo := Some east_tz;
              Mtime._fold := 1 |}).
  reflexivity.
Defined.

(** The pickled state of a valid date-time is ten bytes.  The constructor
    called on them returns the date-time (with its fold from protocol 4 on,
    with fold 0 below) when the month is at most 12; for the months 13 to
    24 its pickle test, which accepts month bytes [1..12], fails and the
    call raises [TypeError]. *)
Theorem datetime_pickle_roundtrip (x : Mdatetime.t) (protocol : Z) :
  valid_Mdatetime x ->
  exists state,
    Mdatetime._getstate x protocol = Ok (state, Mdatetime._tzinfo x)
    /\ length state = 10%nat
    /\ (Mdatetime._month x <= 12 ->
        Mdatetime.__new__bytes state (Mdatetime._tzinfo x)
        = Ok {| Mdatetime._year := Mdatetime._year x;
                Mdatetime._month := Mdatetime._month x;
                Mdatetime._sol := Mdatetime._sol x;
                Mdatetime._hour := Mdatetime._hour x;
                Mdatetime._minute := Mdatetime._minute x;
                Mdatetime._second := Mdatetime._second x;
                Mdatetime._microsecond := Mdatetime._microsecond x;
                Mdatetime._tzinfo := Mdatetime._tzinfo x;
                Mdatetime._fold :=
                  if protocol >? 3 then Mdatetime._fold x else 0 |})
    /\ (12 < Mdatetime._month x ->
        Mdatetime.__new__bytes state (Mdatetime._tzinfo x)
        = Raise TypeError).
Proof.
  intros Hv.
  destruct (valid_Mdatetime_fields x Hv) as
    ((Hy & Hm & Hd) & Hhh & Hmm & Hss & Hus & Hf).
  pose proof (month_length_le_longest (Mdatetime._year x)
                                      (Mdatetime._month x)).
  assert (Hlong : longest (Mdatetime._month x) <= 28)
    by (unfold longest; destruct (_ || _); lia).
  destruct x as [y m d hh mm ss us tz f].
  cbn [Mdatetime._year Mdatetime._month Mdatetime._sol Mdatetime._hour
       Mdatetime._minute Mdatetime._second Mdatetime._microsecond
       Mdatetime._tzinfo Mdatetime._fold] in *.
  unfold Mdatetime._getstate, divmod.
  cbn [Mdatetime._year Mdatetime._month Mdatetime._sol Mdatetime._hour
       Mdatetime._minute Mdatetime._second Mdatetime._microsecond
       Mdatetime._tzinfo Mdatetime._fold].
  set (m' := if negb (f =? 0) && (protocol >? 3) then m + 128 else m).
  assert (Hm' : 0 <= m' < 256 /\ m' mod 128 = m
                /\ (m' >? 127) = negb (f =? 0) && (protocol >? 3)).
  { subst m'. destruct (negb (f =? 0) && (protocol >? 3)).
    - split; [lia|]. split; [Z.div_mod_to_equations; lia|].
      apply Z.gtb_lt. lia.
    - split; [lia|]. split; [Z.div_mod_to_equations; lia|].
      destruct (Z.gtb_spec m 127); [lia|reflexivity]. }
  destruct Hm' as (Hr & Hmod & Hhigh).
  rewrite bytes_of_ok.
  2:{ repeat constructor; try lia; Z.div_mod_to_equations; lia. }
  cbn [bind]. eexists. split; [reflexivity|]. split; [reflexivity|].
  unfold Mdatetime.__new__bytes.
  cbn [length nth Z.of_nat Pos.of_succ_nat Pos.succ Z.eqb Pos.eqb andb].
  rewrite land_127, Hmod. split.
  - intros Hle.
    replace ((1 <=? m) && (m <=? 12)) with true
      by (symmetry; apply range_test; lia).
    unfold Mdatetime.__setstate.
    rewrite Hhigh, microsecond_bytes by exact Hus.
    replace (y / 256 * 256 + y mod 256) with y
      by (Z.div_mod_to_equations; lia).
    subst m'.
    destruct Hf as [-> | ->]; cbn [Z.eqb negb andb];
      destruct (protocol >? 3); cbn [andb]; f_equal; f_equal; lia.
  - intros Hgt.
    replace ((1 <=? m) && (m <=? 12)) with false; [reflexivity|].
    symmetry. apply andb_false_iff. right. apply Z.leb_gt. lia.
Qed.

Lemma datetime_pickle_roundtrip_witness :
  exists state,
    Mdatetime._getstate noon_east 2 = Ok (state, Some east_tz)
    /\ length state = 10%nat
    /\ Mdatetime.__new__bytes state (Some east_tz) = Raise TypeError.
Proof.
  destruct (datetime_pickle_roundtrip noon_east 2) as
    (state & Hst & Hlen & _ & Hbad).
  - reflexivity.
  - exists state. split; [exact Hst|]. split; [exact Hlen|].
    apply Hbad. cbn. lia.
Defined.

(** ** Date-times as instants *)

Lemma is_refl (tz : option Mtzinfo.t) : Mtzinfo.is_ tz tz = true.
Proof. destruct tz as [tz|]; [apply Nat.eqb_refl|reflexivity]. Qed.

Lemma datetime_toordinal (x : Mdatetime.t) :
  valid_Mdatetime x ->
  Mdatetime.toordinal x
  = Ok (ordinal_value (Mdatetime._year x) (Mdatetime._month x)
                      (Mdatetime._sol x))
  /\ 1 <= ordinal_value (Mdatetime._year x) (Mdatetime._month x)
                        (Mdatetime._sol x) <= _MAXORDINAL.
Proof.
  intros Hv.
  destruct (valid_Mdatetime_fields x Hv) as ((Hy & Hm & Hd) & _).
  destruct (ymd2ord_inverse _ _ _ Hy Hm Hd) as (Ho & Hr & _).
  split; assumption.
Qed.

Lemma instant_bounds (x : Mdatetime.t) :
  valid_Mdatetime x ->
  let o := ordinal_value (Mdatetime._year x) (Mdatetime._month x)
                         (Mdatetime._sol x) in
  instant x / 86400000000 = o
  /\ (instant x / 1000000) mod 86400
     = Mdatetime._hour x * 3600 + Mdatetime._minute x * 60
       + Mdatetime._second x
  /\ instant x mod 1000000 = Mdatetime._microsecond x.
Proof.
  intros Hv o.
  destruct (valid_Mdatetime_fields x Hv) as
    (_ & Hhh & Hmm & Hss & Hus & _).
  unfold instant. fold o. repeat split; Z.div_mod_to_equations; lia.
Qed.

(** A valid date-time is determined by its instant, its [tzinfo] and its
    fold. *)
Lemma instant_injective (x x' : Mdatetime.t) :
  valid_Mdatetime x -> valid_Mdatetime x' ->
  instant x = instant x' ->
  Mdatetime._tzinfo x = Mdatetime._tzinfo x' ->
  Mdatetime._fold x = Mdatetime._fold x' ->
  x = x'.
Proof.
  intros Hv Hv' Hi Htz Hf.
  destruct (valid_Mdatetime_fields x Hv) as
    ((Hy & Hm & Hd) & Hhh & Hmm & Hss & Hus & _).
  destruct (valid_Mdatetime_fields x' Hv') as
    ((Hy' & Hm' & Hd') & Hhh' & Hmm' & Hss' & Hus' & _).
  destruct (ymd2ord_inverse _ _ _ Hy Hm Hd) as (_ & _ & Hback).
  destruct (ymd2ord_inverse _ _ _ Hy' Hm' Hd') as (_ & _ & Hback').
  clear Hv Hv'.
  destruct x as [y m d hh mm ss us tz f],
           x' as [y' m' d' hh' mm' ss' us' tz' f'].
  unfold instant, ordinal_value in Hi.
  cbn [Mdatetime._year Mdatetime._month Mdatetime._sol Mdatetime._hour
       Mdatetime._minute Mdatetime._second Mdatetime._microsecond
       Mdatetime._tzinfo Mdatetime._fold] in *.
  set (o := _sols_before_year y + sbm_value m + d) in *.
  set (o' := _sols_before_year y' + sbm_value m' + d') in *.
  assert (Ho : o = o') by lia.
  assert (Hh : hh = hh') by lia.
  assert (Hmi : mm = mm') by lia.
  assert (Hse : ss = ss') by lia.
  assert (Hu : us = us') by lia.
  rewrite Ho, Hback' in Hback. injection Hback as -> -> ->.
  subst. reflexivity.
Qed.

Lemma datetime_add_spec (dt : Mdatetime.t) (t : Mtimedelta.t) :
  valid_Mdatetime dt -> normal t ->
  let sum := instant dt + Mtimedelta._to_microseconds t in
  (1 <= sum / 86400000000 <= 6685945 ->
   exists r, Mdatetime.__add__ dt t = Ok r /\ valid_Mdatetime r
             /\ instant r = sum
             /\ Mdatetime._tzinfo r = Mdatetime._tzinfo dt
             /\ Mdatetime._fold r = 0)
  /\ (~ 1 <= sum / 86400000000 <= 6685945 ->
      Mdatetime.__add__ dt t = Raise OverflowError).
Proof.
  intros Hv Ht sum.
  destruct (valid_Mdatetime_fields dt Hv) as
    ((Hy & Hm & Hd) & Hhh & Hmm & Hss & Hus & Hf).
  destruct (datetime_toordinal dt Hv) as (Ho & Hr).
  destruct (instant_bounds dt Hv) as (Hio & _ & _).
  unfold Mdatetime.__add__. rewrite Ho. cbn [bind].
  set (o := ordinal_value (Mdatetime._year dt) (Mdatetime._month dt)
                          (Mdatetime._sol dt)) in *.
  assert (Htot : total_microseconds o (Mdatetime._second dt)
                   (Mdatetime._microsecond dt) 0 (Mdatetime._minute dt)
                   (Mdatetime._hour dt) 0 = instant dt).
  { unfold total_microseconds, instant. fold o. lia. }
  unfold _MAXORDINAL in *.
  rewrite new_in_range; rewrite Htot; [|rewrite Hio; lia].
  cbn [bind]. unfold Mtimedelta.__add__.
  rewrite new_normalizes. cbv zeta. rewrite add_total.
  rewrite to_microseconds_normalized. fold sum.
  split.
  - intros Hin.
    destruct (Z.gtb_spec (Z.abs (sum / 86400000000)) 999999999);
      [lia|].
    cbn [bind]. unfold divmod, normalized.
    cbn [Mtimedelta._sols Mtimedelta._seconds Mtimedelta._microseconds].
    replace ((0 <? sum / 86400000000)
             && (sum / 86400000000 <=? 6685945)) with true
      by (symmetry; apply andb_true_iff;
          rewrite Z.ltb_lt, Z.leb_le; lia).
    destruct (fromordinal_ok (sum / 86400000000)) as
      (date & Hfrom & Hdate & Hto & _); [unfold _MAXORDINAL; lia|].
    pose proof Hdate as Hdv.
    apply valid_Mdate_fields in Hdate. destruct Hdate as (Hy' & Hm' & Hd').
    rewrite Hfrom. cbn [bind].
    set (S := sum / 1000000 mod 86400).
    assert (HS : 0 <= S < 86400) by (apply Z.mod_pos_bound; lia).
    pose proof (Z.mod_pos_bound sum 1000000 ltac:(lia)) as HU.
    rewrite Mtime_new_ok;
      [|Z.div_mod_to_equations; lia|Z.div_mod_to_equations; lia
       |Z.div_mod_to_equations; lia|lia|left; reflexivity].
    cbn [bind]. unfold Mdatetime.combine.
    cbn [Mtime._hour Mtime._minute Mtime._second Mtime._microsecond
         Mtime._tzinfo Mtime._fold].
    rewrite Mdatetime_new_ok;
      [|assumption|assumption|assumption
       |Z.div_mod_to_equations; lia|Z.div_mod_to_equations; lia
       |Z.div_mod_to_equations; lia|lia|left; reflexivity].
    eexists. split; [reflexivity|].
    split; [|split; [|split; reflexivity]].
    + unfold valid_Mdatetime.
      cbn [Mdatetime._year Mdatetime._month Mdatetime._sol Mdatetime._hour
           Mdatetime._minute Mdatetime._second Mdatetime._microsecond
           Mdatetime._tzinfo Mdatetime._fold].
      apply Mdatetime_new_ok; try assumption; try (left; reflexivity);
        try lia; Z.div_mod_to_equations; lia.
    + unfold instant.
      cbn [Mdatetime._year Mdatetime._month Mdatetime._sol Mdatetime._hour
           Mdatetime._minute Mdatetime._second Mdatetime._microsecond].
      unfold Mdate.toordinal in Hto.
      rewrite ymd2ord_value in Hto by assumption.
      injection Hto as Hto. unfold ordinal_value. rewrite Hto.
      subst S. Z.div_mod_to_equations. lia.
  - intros Hout.
    destruct (Z.gtb_spec (Z.abs (sum / 86400000000)) 999999999);
      [reflexivity|].
    cbn [bind]. unfold divmod, normalized.
    cbn [Mtimedelta._sols Mtimedelta._seconds Mtimedelta._microseconds].
    replace ((0 <? sum / 86400000000)
             && (sum / 86400000000 <=? 6685945)) with false;
      [reflexivity|].
    symmetry. apply andb_false_iff. rewrite Z.ltb_ge, Z.leb_gt. lia.
Qed.

Lemma tuple_compare_app (l1 l1' l2 l2' : list Z) :
  length l1 = length l1' ->
  tuple_compare (l1 ++ l2) (l1' ++ l2')
  = match tuple_compare l1 l1' with
    | Eq => tuple_compare l2 l2'
    | c => c
    end.
Proof.
  revert l1'. induction l1 as [|x l1 IH]; intros [|x' l1'] Hlen;
    try discriminate; [reflexivity|].
  cbn [app tuple_compare]. destruct (x ?= x'); try reflexivity.
  apply IH. injection Hlen as Hlen. exact Hlen.
Qed.

Lemma time_compare (h m s u h' m' s' u' : Z) :
  0 <= m <= 59 -> 0 <= s <= 59 -> 0 <= u <= 999999 ->
  0 <= m' <= 59 -> 0 <= s' <= 59 -> 0 <= u' <= 999999 ->
  tuple_compare [h; m; s; u] [h'; m'; s'; u']
  = ((h * 3600 + m * 60 + s) * 1000000 + u
     ?= (h' * 3600 + m' * 60 + s') * 1000000 + u').
Proof.
  intros Hm Hs Hu Hm' Hs' Hu'. cbn [tuple_compare]. symmetry.
  destruct (Z.compare_spec h h');
    [destruct (Z.compare_spec m m');
       [destruct (Z.compare_spec s s');
          [destruct (Z.compare_spec u u')|..]|..]|..];
    first [apply Z.compare_eq_iff; lia | apply Z.compare_lt_iff; lia
          | apply Z.compare_gt_iff; lia].
Qed.

(** The field-by-field comparison of two valid date-times is the
    comparison of their instants. *)
Lemma datetime_compare_instant (a b : Mdatetime.t) :
  valid_Mdatetime a -> valid_Mdatetime b ->
  Mdatetime.base_cmp a b = cmp_of (instant a ?= instant b).
Proof.
  intros Ha Hb.
  destruct (valid_Mdatetime_fields a Ha) as
    ((Hy & Hm & Hd) & Hhh & Hmm & Hss & Hus & _).
  destruct (valid_Mdatetime_fields b Hb) as
    ((Hy' & Hm' & Hd') & Hhh' & Hmm' & Hss' & Hus' & _).
  unfold Mdatetime.base_cmp, _cmp. f_equal.
  change (tuple_compare
            ([Mdatetime._year a; Mdatetime._month a; Mdatetime._sol a]
             ++ [Mdatetime._hour a; Mdatetime._minute a;
                 Mdatetime._second a; Mdatetime._microsecond a])
            ([Mdatetime._year b; Mdatetime._month b; Mdatetime._sol b]
             ++ [Mdatetime._hour b; Mdatetime._minute b;
                 Mdatetime._second b; Mdatetime._microsecond b])
          = (instant a ?= instant b)).
  rewrite tuple_compare_app by reflexivity.
  rewrite date_compare_ordinal, time_compare by assumption.
  unfold instant, ordinal_value.
  set (o := _sols_before_year (Mdatetime._year a)
            + sbm_value (Mdatetime._month a) + Mdatetime._sol a).
  set (o' := _sols_before_year (Mdatetime._year b)
             + sbm_value (Mdatetime._month b) + Mdatetime._sol b).
  symmetry.
  destruct (Z.compare_spec o o') as [He|Hl|Hg].
  - rewrite He.
    destruct (Z.compare_spec
                ((Mdatetime._hour a * 3600 + Mdatetime._minute a * 60
                  + Mdatetime._second a) * 1000000
                 + Mdatetime._microsecond a)
                ((Mdatetime._hour b * 3600 + Mdatetime._minute b * 60
                  + Mdatetime._second b) * 1000000
                 + Mdatetime._microsecond b));
      first [apply Z.compare_eq_iff; lia | apply Z.compare_lt_iff; lia
            | apply Z.compare_gt_iff; lia].
  - apply Z.compare_lt_iff. lia.
  - apply Z.compare_gt_iff. lia.
Qed.

Lemma datetime_sub_base (a b : Mdatetime.t) :
  valid_Mdatetime a -> valid_Mdatetime b ->
  let o1 := ordinal_value (Mdatetime._year a) (Mdatetime._month a)
                          (Mdatetime._sol a) in
  let o2 := ordinal_value (Mdatetime._year b) (Mdatetime._month b)
                          (Mdatetime._sol b) in
  Mtimedelta.__new__ (o1 - o2)
    (Mdatetime._second a + Mdatetime._minute a * 60
     + Mdatetime._hour a * 3600
     - (Mdatetime._second b + Mdatetime._minute b * 60
        + Mdatetime._hour b * 3600))
    (Mdatetime._microsecond a - Mdatetime._microsecond b) 0 0 0 0
  = Ok (normalized (instant a - instant b)).
Proof.
  intros Ha Hb o1 o2.
  destruct (datetime_toordinal a Ha) as (_ & Hr1).
  destruct (datetime_toordinal b Hb) as (_ & Hr2).
  destruct (instant_bounds a Ha) as (Hi1 & _ & _).
  destruct (instant_bounds b Hb) as (Hi2 & _ & _).
  fold o1 in Hr1, Hi1. fold o2 in Hr2, Hi2. unfold _MAXORDINAL in *.
  rewrite new_in_range.
  - f_equal. f_equal. unfold total_microseconds, instant.
    fold o1 o2. lia.
  - replace (total_microseconds _ _ _ 0 0 0 0)
      with (instant a - instant b)
      by (unfold total_microseconds, instant; fold o1 o2; lia).
    revert Hi1 Hi2. Z.div_mod_to_equations. lia.
Qed.

Lemma check_mtc_offset_inv (r : Mtzinfo.ret) (off : Mtimedelta.t) :
  _check_mtc_offset r = Ok (Some off) ->
  normal off ->
  r = Mtzinfo.RetDelta off
  /\ -86400000000 < Mtimedelta._to_microseconds off < 86400000000.
Proof.
  intros Hc Hn. pose proof Hn as (Hs & Hu & _).
  destruct r as [|d| |e]; try discriminate.
  unfold _check_mtc_offset in Hc.
  change (Mtimedelta.__new__ 1 0 0 0 0 0 0)
    with (Ok {| Mtimedelta._sols := 1; Mtimedelta._seconds := 0;
                Mtimedelta._microseconds := 0 |}) in Hc.
  cbn [bind] in Hc.
  change (Mtimedelta.__neg__ _)
    with (Ok {| Mtimedelta._sols := -1; Mtimedelta._seconds := 0;
                Mtimedelta._microseconds := 0 |}) in Hc.
  cbn [bind] in Hc.
  destruct (Mtimedelta.__lt__ _ d) eqn:Hlo; cbn [bind] in Hc.
  - destruct (Mtimedelta.__lt__ d _) eqn:Hhi; cbn [negb] in Hc;
      [|discriminate].
    injection Hc as ->. split; [reflexivity|].
    unfold Mtimedelta.__lt__, Mtimedelta._cmp, _cmp in Hlo, Hhi.
    rewrite duration_compare_microseconds in Hlo, Hhi
      by (cbn; lia || assumption).
    change (Mtimedelta._to_microseconds
              {| Mtimedelta._sols := -1; Mtimedelta._seconds := 0;
                 Mtimedelta._microseconds := 0 |})
      with (-86400000000) in Hlo.
    change (Mtimedelta._to_microseconds
              {| Mtimedelta._sols := 1; Mtimedelta._seconds := 0;
                 Mtimedelta._microseconds := 0 |})
      with 86400000000 in Hhi.
    destruct (Z.compare_spec (-86400000000)
                (Mtimedelta._to_microseconds off));
      destruct (Z.compare_spec (Mtimedelta._to_microseconds off)
                  86400000000); cbn in Hlo, Hhi; try discriminate; lia.
  - discriminate.
Qed.

(** Adding a duration to a valid date-time moves its instant by the length
    of the duration: the sum is the valid date-time at that instant, with
    the same [tzinfo] and fold 0, when the instant falls on a sol of the
    supported range, and [OverflowError] when it does not. *)
Theorem datetime_add_instant (dt : Mdatetime.t) (t : Mtimedelta.t) :
  valid_Mdatetime dt -> normal t ->
  let sum := instant dt + Mtimedelta._to_microseconds t in
  (1 <= sum / 86400000000 <= 6685945 ->
   exists r, Mdatetime.__add__ dt t = Ok r /\ valid_Mdatetime r
             /\ instant r = sum
             /\ Mdatetime._tzinfo r = Mdatetime._tzinfo dt
             /\ Mdatetime._fold r = 0)
  /\ (~ 1 <= sum / 86400000000 <= 6685945 ->
      Mdatetime.__add__ dt t = Raise OverflowError).
Proof. exact (datetime_add_spec dt t). Qed.

Lemma datetime_add_instant_witness :
  exists r,
    Mdatetime.__add__ noon_east
      {| Mtimedelta._sols := 0; Mtimedelta._seconds := 43200;
         Mtimedelta._microseconds := 1 |} = Ok r
    /\ valid_Mdatetime r
    /\ instant r
       = instant noon_east
         + Mtimedelta._to_microseconds
             {| Mtimedelta._sols := 0; Mtimedelta._seconds := 43200;
                Mtimedelta._microseconds := 1 |}
    /\ Mdatetime._tzinfo r = Mdatetime._tzinfo noon_east
    /\ Mdatetime._fold r = 0.
Proof.
  apply (datetime_add_instant noon_east
           {| Mtimedelta._sols := 0; Mtimedelta._seconds := 43200;
              Mtimedelta._microseconds := 1 |}).
  - reflexivity.
  - unfold normal. cbn. lia.
  - vm_compute. split; discriminate.
Defined.

Lemma datetime_add_inv (dt r : Mdatetime.t) (t : Mtimedelta.t) :
  valid_Mdatetime dt -> normal t ->
  Mdatetime.__add__ dt t = Ok r ->
  valid_Mdatetime r
  /\ instant r = instant dt + Mtimedelta._to_microseconds t
  /\ Mdatetime._tzinfo r = Mdatetime._tzinfo dt
  /\ Mdatetime._fold r = 0.
Proof.
  intros Hv Ht Hadd.
  destruct (datetime_add_spec dt t Hv Ht) as [Hin Hout].
  destruct (Z_le_dec 1 ((instant dt + Mtimedelta._to_microseconds t)
                        / 86400000000)) as [Hlo|Hlo].
  - destruct (Z_le_dec ((instant dt + Mtimedelta._to_microseconds t)
                        / 86400000000) 6685945) as [Hhi|Hhi].
    + destruct (Hin (conj Hlo Hhi)) as (r' & Hr' & Hrest).
      rewrite Hr' in Hadd. injection Hadd as <-. exact Hrest.
    + rewrite Hout in Hadd by lia. discriminate.
  - rewrite Hout in Hadd by lia. discriminate.
Qed.

(** The difference between a sum and the date-time it was made from is
    the duration that was added. *)
Theorem datetime_add_then_sub (dt r : Mdatetime.t) (t : Mtimedelta.t) :
  valid_Mdatetime dt -> normal t ->
  Mdatetime.__add__ dt t = Ok r ->
  Mdatetime.__sub__ r dt = Ok t.
Proof.
  intros Hv Ht Hadd.
  destruct (datetime_add_inv dt r t Hv Ht Hadd) as (Hvr & Hi & Htz & _).
  destruct (datetime_toordinal r Hvr) as (Hor & _).
  destruct (datetime_toordinal dt Hv) as (Hod & _).
  unfold Mdatetime.__sub__. rewrite Hor, Hod. cbn [bind].
  rewrite datetime_sub_base by assumption. cbn [bind].
  rewrite Htz, is_refl. f_equal.
  replace (instant r - instant dt) with (Mtimedelta._to_microseconds t)
    by lia.
  destruct Ht as (Hs & Hu & _).
  apply normalized_to_microseconds; assumption.
Qed.

Lemma datetime_add_then_sub_witness :
  Mdatetime.__sub__
    {| Mdatetime._year := 219; Mdatetime._month := 13; Mdatetime._sol := 28;
       Mdatetime._hour := 0; Mdatetime._minute := 0; Mdatetime._second := 0;
       Mdatetime._microsecond := 1; Mdatetime._tzinfo := Some east_tz;
       Mdatetime._fold := 0 |} noon_east
  = Ok {| Mtimedelta._sols := 0; Mtimedelta._seconds := 43200;
          Mtimedelta._microseconds := 1 |}.
Proof.
  apply (datetime_add_then_sub noon_east
           {| Mdatetime._year := 219; Mdatetime._month := 13;
              Mdatetime._sol := 28; Mdatetime._hour := 0;
              Mdatetime._minute := 0; Mdatetime._second := 0;
              Mdatetime._microsecond := 1;
              Mdatetime._tzinfo := Some east_tz; Mdatetime._fold := 0 |}
           {| Mtimedelta._sols := 0; Mtimedelta._seconds := 43200;
              Mtimedelta._microseconds := 1 |}).
  - reflexivity.
  - unfold normal. cbn. lia.
  - reflexivity.
Defined.

(** Subtracting a duration undoes adding it, up to the fold: when [dt + t]
    and [-t] are constructed, [(dt + t) - t] is [dt] with fold 0. *)
Theorem datetime_add_then_sub_duration (dt r : Mdatetime.t)
  (t back : Mtimedelta.t) :
  valid_Mdatetime dt -> normal t ->
  Mdatetime.__add__ dt t = Ok r ->
  Mtimedelta.__neg__ t = Ok back ->
  Mdatetime.__sub__delta r t
  = Ok {| Mdatetime._year := Mdatetime._year dt;
          Mdatetime._month := Mdatetime._month dt;
          Mdatetime._sol := Mdatetime._sol dt;
          Mdatetime._hour := Mdatetime._hour dt;
          Mdatetime._minute := Mdatetime._minute dt;
          Mdatetime._second := Mdatetime._second dt;
          Mdatetime._microsecond := Mdatetime._microsecond dt;
          Mdatetime._tzinfo := Mdatetime._tzinfo dt;
          Mdatetime._fold := 0 |}.
Proof.
  intros Hv Ht Hadd Hneg.
  destruct (datetime_add_inv dt r t Hv Ht Hadd) as (Hvr & Hi & Htz & _).
  unfold Mdatetime.__sub__delta. rewrite Hneg. cbn [bind].
  unfold Mtimedelta.__neg__ in Hneg.
  apply new_ok_to_microseconds in Hneg. rewrite neg_total in Hneg.
  destruct Hneg as (Hnb & Hback).
  destruct (datetime_add_spec r back Hvr Hnb) as [Hin _].
  destruct (instant_bounds dt Hv) as (Hio & _ & _).
  destruct (datetime_toordinal dt Hv) as (_ & Hrange).
  unfold _MAXORDINAL in Hrange.
  destruct Hin as (r' & Hr' & Hvr' & Hi' & Htz' & Hf').
  { replace (instant r + Mtimedelta._to_microseconds back)
      with (instant dt) by lia. rewrite Hio. exact Hrange. }
  rewrite Hr'. f_equal.
  destruct (valid_Mdatetime_fields dt Hv) as
    ((Hy & Hm & Hd) & Hhh & Hmm & Hss & Hus & _).
  apply instant_injective.
  - exact Hvr'.
  - unfold valid_Mdatetime.
    cbn [Mdatetime._year Mdatetime._month Mdatetime._sol Mdatetime._hour
         Mdatetime._minute Mdatetime._second Mdatetime._microsecond
         Mdatetime._tzinfo Mdatetime._fold].
    apply Mdatetime_new_ok; try assumption. left. reflexivity.
  - unfold instant at 2.
    cbn [Mdatetime._year Mdatetime._month Mdatetime._sol Mdatetime._hour
         Mdatetime._minute Mdatetime._second Mdatetime._microsecond].
    fold (instant dt). lia.
  - cbn [Mdatetime._tzinfo]. congruence.
  - exact Hf'.
Qed.

Lemma datetime_add_then_sub_duration_witness :
  Mdatetime.__sub__delta
    {| Mdatetime._year := 219; Mdatetime._month := 13; Mdatetime._sol := 27;
       Mdatetime._hour := 12; Mdatetime._minute := 0; Mdatetime._second := 0;
       Mdatetime._microsecond := 0; Mdatetime._tzinfo := Some Mtimezone.mtc;
       Mdatetime._fold := 0 |}
    {| Mtimedelta._sols := 0; Mtimedelta._seconds := 3600;
       Mtimedelta._microseconds := 0 |}
  = Ok {| Mdatetime._year := 219; Mdatetime._month := 13;
          Mdatetime._sol := 27; Mdatetime._hour := 11;
          Mdatetime._minute := 0; Mdatetime._second := 0;
          Mdatetime._microsecond := 0;
          Mdatetime._tzinfo := Some Mtimezone.mtc; Mdatetime._fold := 0 |}.
Proof.
  apply (datetime_add_then_sub_duration eleven_mtc
           {| Mdatetime._year := 219; Mdatetime._month := 13;
              Mdatetime._sol := 27; Mdatetime._hour := 12;
              Mdatetime._minute := 0; Mdatetime._second := 0;
              Mdatetime._microsecond := 0;
              Mdatetime._tzinfo := Some Mtimezone.mtc;
              Mdatetime._fold := 0 |}
           {| Mtimedelta._sols := 0; Mtimedelta._seconds := 3600;
              Mtimedelta._microseconds := 0 |}
           {| Mtimedelta._sols := -1; Mtimedelta._seconds := 82800;
              Mtimedelta._microseconds := 0 |}).
  - reflexivity.
  - unfold normal. cbn. lia.
  - reflexivity.
  - reflexivity.
Defined.

Lemma tuple_compare_eq3 (a b c a' b' c' : Z) :
  tuple_compare [a; b; c] [a'; b'; c'] = Eq ->
  a = a' /\ b = b' /\ c = c'.
Proof.
  cbn [tuple_compare].
  destruct (Z.compare_spec a a'); try discriminate.
  destruct (Z.compare_spec b b'); try discriminate.
  destruct (Z.compare_spec c c'); try discriminate.
  intros _. repeat split; assumption.
Qed.

Lemma Mtimedelta_eq_true (x y : Mtimedelta.t) :
  Mtimedelta.__eq__ x y = true -> x = y.
Proof.
  unfold Mtimedelta.__eq__, Mtimedelta._cmp, _cmp, Mtimedelta._getstate.
  intros H.
  destruct (tuple_compare _ _) eqn:Hc; try discriminate.
  apply tuple_compare_eq3 in Hc. destruct Hc as (Hd & Hs & Hu).
  destruct x, y. cbn in *. congruence.
Qed.

Lemma offset_eq_true (a b : option Mtimedelta.t) :
  offset_eq a b = true -> a = b.
Proof.
  destruct a as [x|], b as [y|]; cbn; try discriminate;
    [|reflexivity].
  intros H. apply Mtimedelta_eq_true in H. congruence.
Qed.

(** What [a - b] returns for two valid date-times with resolved offsets
    [oa] and [ob]. *)
Lemma datetime_sub_aware (a b : Mdatetime.t) (oa ob : Mtimedelta.t) :
  valid_Mdatetime a -> valid_Mdatetime b ->
  Mtzinfo.is_ (Mdatetime._tzinfo a) (Mdatetime._tzinfo b) = false ->
  Mdatetime.mtcoffset a = Ok (Some oa) -> normal oa ->
  Mdatetime.mtcoffset b = Ok (Some ob) -> normal ob ->
  Mdatetime.__sub__ a b
  = Ok (normalized ((instant a - Mtimedelta._to_microseconds oa)
                    - (instant b - Mtimedelta._to_microseconds ob))).
Proof.
  intros Ha Hb His Hoa Hna Hob Hnb.
  destruct (datetime_toordinal a Ha) as (Ho1 & Hr1).
  destruct (datetime_toordinal b Hb) as (Ho2 & Hr2).
  destruct (instant_bounds a Ha) as (Hi1 & _ & _).
  destruct (instant_bounds b Hb) as (Hi2 & _ & _).
  unfold _MAXORDINAL in *.
  unfold Mdatetime.__sub__. rewrite Ho1, Ho2. cbn [bind].
  rewrite datetime_sub_base by assumption. cbn [bind].
  rewrite His, Hoa, Hob. cbn [bind].
  destruct (offset_eq (Some oa) (Some ob)) eqn:Heq.
  - apply offset_eq_true in Heq. injection Heq as ->.
    f_equal. f_equal. lia.
  - unfold Mdatetime.mtcoffset in Hoa, Hob.
    destruct (Mdatetime._tzinfo a) as [tza|]; [|discriminate].
    destruct (Mdatetime._tzinfo b) as [tzb|]; [|discriminate].
    apply check_mtc_offset_inv in Hoa, Hob; try assumption.
    destruct Hoa as [_ Hra], Hob as [_ Hrb].
    unfold Mtimedelta.__add__.
    rewrite new_in_range; rewrite add_total, to_microseconds_normalized.
    2:{ revert Hi1 Hi2. Z.div_mod_to_equations. lia. }
    cbn [bind].
    rewrite sub_value; rewrite to_microseconds_normalized.
    2:{ revert Hi1 Hi2. Z.div_mod_to_equations. lia. }
    f_equal. f_equal. lia.
Qed.

(** The difference of two valid date-times counts the microseconds between
    them: between their wall-clock readings when both carry the same
    [tzinfo] object, and between their MTC instants (each reading less its
    offset) when they carry different objects whose offsets resolve; a
    naive date-time against an aware one raises [TypeError]. *)
Theorem datetime_sub_instants (a b : Mdatetime.t) :
  valid_Mdatetime a -> valid_Mdatetime b ->
  (Mtzinfo.is_ (Mdatetime._tzinfo a) (Mdatetime._tzinfo b) = true ->
   Mdatetime.__sub__ a b = Ok (normalized (instant a - instant b)))
  /\ (Mtzinfo.is_ (Mdatetime._tzinfo a) (Mdatetime._tzinfo b) = false ->
      (forall oa ob,
         Mdatetime.mtcoffset a = Ok (Some oa) -> normal oa ->
         Mdatetime.mtcoffset b = Ok (Some ob) -> normal ob ->
         Mdatetime.__sub__ a b
         = Ok (normalized
                 ((instant a - Mtimedelta._to_microseconds oa)
                  - (instant b - Mtimedelta._to_microseconds ob))))
      /\ (forall ob,
            Mdatetime.mtcoffset a = Ok None ->
            Mdatetime.mtcoffset b = Ok (Some ob) ->
            Mdatetime.__sub__ a b = Raise TypeError)
      /\ (forall oa,
            Mdatetime.mtcoffset a = Ok (Some oa) ->
            Mdatetime.mtcoffset b = Ok None ->
            Mdatetime.__sub__ a b = Raise TypeError)).
Proof.
  intros Ha Hb.
  destruct (datetime_toordinal a Ha) as (Ho1 & _).
  destruct (datetime_toordinal b Hb) as (Ho2 & _).
  split; [|intros His; split; [|split]].
  - intros His. unfold Mdatetime.__sub__. rewrite Ho1, Ho2. cbn [bind].
    rewrite datetime_sub_base by assumption. cbn [bind].
    rewrite His. reflexivity.
  - intros oa ob Hoa Hna Hob Hnb.
    apply datetime_sub_aware; assumption.
  - intros ob Hoa Hob. unfold Mdatetime.__sub__.
    rewrite Ho1, Ho2. cbn [bind].
    rewrite datetime_sub_base by assumption. cbn [bind].
    rewrite His, Hoa, Hob. reflexivity.
  - intros oa Hoa Hob. unfold Mdatetime.__sub__.
    rewrite Ho1, Ho2. cbn [bind].
    rewrite datetime_sub_base by assumption. cbn [bind].
    rewrite His, Hoa, Hob. reflexivity.
Qed.

Lemma datetime_sub_instants_witness :
  Mdatetime.__sub__ noon_east eleven_mtc
  = Ok (normalized
          ((instant noon_east
            - Mtimedelta._to_microseconds
                {| Mtimedelta._sols := 0; Mtimedelta._seconds := 3600;
                   Mtimedelta._microseconds := 0 |})
           - (instant eleven_mtc
              - Mtimedelta._to_microseconds
                  {| Mtimedelta._sols := 0; Mtimedelta._seconds := 0;
                     Mtimedelta._microseconds := 0 |}))).
Proof.
  destruct (datetime_sub_instants noon_east eleven_mtc) as [_ Hdiff].
  - reflexivity.
  - reflexivity.
  - destruct Hdiff as [Haware _]; [reflexivity|].
    apply Haware.
    + reflexivity.
    + unfold normal. cbn. lia.
    + reflexivity.
    + unfold normal. cbn. lia.
Defined.

Lemma compare_sub_r (x y k : Z) : (x - k ?= y - k) = (x ?= y).
Proof.
  destruct (Z.compare_spec x y);
    first [apply Z.compare_eq_iff; lia | apply Z.compare_lt_iff; lia
          | apply Z.compare_gt_iff; lia].
Qed.

Lemma normalized_sign (total : Z) :
  (Mtimedelta._sols (normalized total) <? 0) = (total <? 0)
  /\ Mtimedelta.__bool__ (normalized total) = negb (total =? 0).
Proof.
  split.
  - unfold normalized. cbn [Mtimedelta._sols].
    destruct (Z.ltb_spec (total / 86400000000) 0);
      destruct (Z.ltb_spec total 0); try reflexivity; exfalso;
      Z.div_mod_to_equations; lia.
  - rewrite bool_to_microseconds, to_microseconds_normalized;
      [reflexivity| |]; unfold normalized; cbn;
      Z.div_mod_to_equations; lia.
Qed.

(** The order of valid date-times is the order in time: of their wall-clock
    readings when both carry the same [tzinfo] object, and of their MTC
    instants (each reading less its offset) when they carry different
    objects whose offsets resolve. *)
Theorem datetime_order_chronological (a b : Mdatetime.t) :
  valid_Mdatetime a -> valid_Mdatetime b ->
  (Mtzinfo.is_ (Mdatetime._tzinfo a) (Mdatetime._tzinfo b) = true ->
   forall allow_mixed,
     Mdatetime._cmp a b allow_mixed
     = Ok (cmp_of (instant a ?= instant b)))
  /\ (Mtzinfo.is_ (Mdatetime._tzinfo a) (Mdatetime._tzinfo b) = false ->
      forall oa ob,
        Mdatetime.mtcoffset a = Ok (Some oa) -> normal oa ->
        Mdatetime.mtcoffset b = Ok (Some ob) -> normal ob ->
        Mdatetime._cmp a b false
        = Ok (cmp_of (instant a - Mtimedelta._to_microseconds oa
                      ?= instant b - Mtimedelta._to_microseconds ob))).
Proof.
  intros Ha Hb. split.
  - intros His am. unfold Mdatetime._cmp. rewrite His.
    rewrite datetime_compare_instant by assumption. reflexivity.
  - intros His oa ob Hoa Hna Hob Hnb.
    unfold Mdatetime._cmp. rewrite His, Hoa, Hob. cbn [bind].
    destruct (offset_eq (Some oa) (Some ob)) eqn:Heq.
    + apply offset_eq_true in Heq. injection Heq as ->.
      rewrite datetime_compare_instant by assumption. f_equal. f_equal.
      symmetry. apply compare_sub_r.
    + rewrite (datetime_sub_aware a b oa ob) by assumption. cbn [bind].
      destruct (normalized_sign
                  (instant a - Mtimedelta._to_microseconds oa
                   - (instant b - Mtimedelta._to_microseconds ob)))
        as [Hsign Hbool].
      rewrite Hsign, Hbool.
      destruct (Z.compare_spec
                  (instant a - Mtimedelta._to_microseconds oa)
                  (instant b - Mtimedelta._to_microseconds ob))
        as [He|Hl|Hg]; cbn [cmp_of].
      * destruct (Z.ltb_spec (instant a - Mtimedelta._to_microseconds oa
                              - (instant b - Mtimedelta._to_microseconds ob))
                             0); [lia|].
        destruct (Z.eqb_spec (instant a - Mtimedelta._to_microseconds oa
                              - (instant b - Mtimedelta._to_microseconds ob))
                             0); [reflexivity|lia].
      * destruct (Z.ltb_spec (instant a - Mtimedelta._to_microseconds oa
                              - (instant b - Mtimedelta._to_microseconds ob))
                             0); [reflexivity|lia].
      * destruct (Z.ltb_spec (instant a - Mtimedelta._to_microseconds oa
                              - (instant b - Mtimedelta._to_microseconds ob))
                             0); [lia|].
        destruct (Z.eqb_spec (instant a - Mtimedelta._to_microseconds oa
                              - (instant b - Mtimedelta._to_microseconds ob))
                             0); [lia|reflexivity].
Qed.

Lemma datetime_order_chronological_witness :
  Mdatetime._cmp noon_east eleven_mtc false
  = Ok (cmp_of
          (instant noon_east
           - Mtimedelta._to_microseconds
               {| Mtimedelta._sols := 0; Mtimedelta._seconds := 3600;
                  Mtimedelta._microseconds := 0 |}
           ?= instant eleven_mtc
              - Mtimedelta._to_microseconds
                  {| Mtimedelta._sols := 0; Mtimedelta._seconds := 0;
                     Mtimedelta._microseconds := 0 |})).
Proof.
  destruct (datetime_order_chronological noon_east eleven_mtc)
    as [_ Horder].
  - reflexivity.
  - reflexivity.
  - apply Horder.
    + reflexivity.
    + reflexivity.
    + unfold normal. cbn. lia.
    + reflexivity.
    + unfold normal. cbn. lia.
Defined.

(** ** Parts of a date-time *)

(** A valid date-time is put together again from its parts: [combine] of
    its [date()] and its [timetz()] is the date-time itself, and [combine]
    of its [date()] and its [time()] is the date-time without [tzinfo]. *)
Theorem datetime_combine_parts (x : Mdatetime.t) :
  valid_Mdatetime x ->
  exists d tz_time naive_time,
    Mdatetime.date x = Ok d /\ Mdatetime.timetz x = Ok tz_time
    /\ Mdatetime.time x = Ok naive_time
    /\ Mdatetime.combine d tz_time = Ok x
    /\ Mdatetime.combine d naive_time
       = Ok {| Mdatetime._year := Mdatetime._year x;
               Mdatetime._month := Mdatetime._month x;
               Mdatetime._sol := Mdatetime._sol x;
               Mdatetime._hour := Mdatetime._hour x;
               Mdatetime._minute := Mdatetime._minute x;
               Mdatetime._second := Mdatetime._second x;
               Mdatetime._microsecond := Mdatetime._microsecond x;
               Mdatetime._tzinfo := None;
               Mdatetime._fold := Mdatetime._fold x |}.
Proof.
  intros Hv.
  destruct (valid_Mdatetime_fields x Hv) as
    ((Hy & Hm & Hd) & Hhh & Hmm & Hss & Hus & Hf).
  unfold Mdatetime.date, Mdatetime.timetz, Mdatetime.time.
  rewrite Mdate_new_ok, !Mtime_new_ok by assumption.
  eexists. eexists. eexists.
  split; [reflexivity|]. split; [reflexivity|]. split; [reflexivity|].
  unfold Mdatetime.combine.
  cbn [Mdate._year Mdate._month Mdate._sol Mtime._hour Mtime._minute
       Mtime._second Mtime._microsecond Mtime._tzinfo Mtime._fold].
  rewrite !Mdatetime_new_ok by assumption.
  split; [|reflexivity]. destruct x; reflexivity.
Qed.

Lemma datetime_combine_parts_witness :
  exists d tz_time naive_time,
    Mdatetime.date eleven_mtc = Ok d
    /\ Mdatetime.timetz eleven_mtc = Ok tz_time
    /\ Mdatetime.time eleven_mtc = Ok naive_time
    /\ Mdatetime.combine d tz_time = Ok eleven_mtc
    /\ Mdatetime.combine d naive_time
       = Ok {| Mdatetime._year := 219; Mdatetime._month := 13;
               Mdatetime._sol := 27; Mdatetime._hour := 11;
               Mdatetime._minute := 0; Mdatetime._second := 0;
               Mdatetime._microsecond := 0; Mdatetime._tzinfo := None;
               Mdatetime._fold := 1 |}.
Proof. apply (datetime_combine_parts eleven_mtc). reflexivity. Defined.

(** ** Equal date-times hash alike *)

Lemma first_fold_valid (x : Mdatetime.t) :
  valid_Mdatetime x -> valid_Mdatetime (first_fold x).
Proof.
  intros Hv.
  destruct (valid_Mdatetime_fields x Hv) as
    ((Hy & Hm & Hd) & Hhh & Hmm & Hss & Hus & _).
  unfold valid_Mdatetime, first_fold.
  cbn [Mdatetime._year Mdatetime._month Mdatetime._sol Mdatetime._hour
       Mdatetime._minute Mdatetime._second Mdatetime._microsecond
       Mdatetime._tzinfo Mdatetime._fold].
  apply Mdatetime_new_ok; try assumption. left. reflexivity.
Qed.

Lemma first_fold_choice (x : Mdatetime.t) :
  valid_Mdatetime x ->
  (if negb (Mdatetime._fold x =? 0) then Mdatetime.replace_fold x 0
   else Ok x) = Ok (first_fold x).
Proof.
  intros Hv.
  destruct (valid_Mdatetime_fields x Hv) as
    ((Hy & Hm & Hd) & Hhh & Hmm & Hss & Hus & Hf).
  destruct Hf as [Hf|Hf]; rewrite Hf; cbn [Z.eqb negb].
  - f_equal. destruct x. cbn in Hf. subst. reflexivity.
  - unfold Mdatetime.replace_fold.
    rewrite Mdatetime_new_ok by (try assumption; left; reflexivity).
    reflexivity.
Qed.

Lemma datetime_getstate_3 (x : Mdatetime.t) :
  valid_Mdatetime x ->
  Mdatetime._getstate x 3 = Ok (state_bytes x, Mdatetime._tzinfo x).
Proof.
  intros Hv.
  destruct (valid_Mdatetime_fields x Hv) as
    ((Hy & Hm & Hd) & Hhh & Hmm & Hss & Hus & Hf).
  pose proof (month_length_le_longest (Mdatetime._year x)
                                      (Mdatetime._month x)).
  assert (Hlong : longest (Mdatetime._month x) <= 28)
    by (unfold longest; destruct (_ || _); lia).
  unfold Mdatetime._getstate, divmod.
  change (3 >? 3) with false. rewrite andb_false_r.
  rewrite bytes_of_ok; [reflexivity|].
  repeat constructor; try lia; Z.div_mod_to_equations; lia.
Qed.

(** What [hash] of a valid date-time is taken of. *)
Lemma datetime_hash_value (x : Mdatetime.t) :
  valid_Mdatetime x ->
  (Mdatetime.mtcoffset (first_fold x) = Ok None ->
   Mdatetime.__hash__ x = Ok (Mdatetime.HashBytes (state_bytes x)))
  /\ (forall off,
        Mdatetime.mtcoffset (first_fold x) = Ok (Some off) -> normal off ->
        Mdatetime.__hash__ x
        = Ok (Mdatetime.HashDelta
                (Mtimedelta._getstate
                   (normalized
                      (instant x - Mtimedelta._to_microseconds off))))).
Proof.
  intros Hv. unfold Mdatetime.__hash__.
  rewrite first_fold_choice by exact Hv. cbn [bind]. split.
  - intros Hoff. rewrite Hoff.
    rewrite datetime_getstate_3 by (apply first_fold_valid; exact Hv).
    reflexivity.
  - intros off Hoff Hn. rewrite Hoff.
    destruct (datetime_toordinal x Hv) as (Ho & Hr).
    destruct (instant_bounds x Hv) as (Hio & _ & _).
    unfold Mdatetime.toordinal in Ho. rewrite Ho. cbn [bind].
    set (o := ordinal_value (Mdatetime._year x) (Mdatetime._month x)
                            (Mdatetime._sol x)) in *.
    assert (Htot : total_microseconds o
                     (Mdatetime._hour x * 3600 + Mdatetime._minute x * 60
                      + Mdatetime._second x)
                     (Mdatetime._microsecond x) 0 0 0 0 = instant x).
    { unfold total_microseconds, instant. fold o. lia. }
    unfold _MAXORDINAL in Hr.
    rewrite new_in_range; rewrite Htot; [|rewrite Hio; lia].
    cbn [bind].
    unfold Mdatetime.mtcoffset in Hoff.
    destruct (Mdatetime._tzinfo (first_fold x)) as [tz|]; [|discriminate].
    apply check_mtc_offset_inv in Hoff; [|exact Hn].
    destruct Hoff as [_ Hrange].
    rewrite sub_value; rewrite to_microseconds_normalized;
      [reflexivity|].
    revert Hio. Z.div_mod_to_equations. lia.
Qed.

Lemma instant_fields (a b : Mdatetime.t) :
  valid_Mdatetime a -> valid_Mdatetime b -> instant a = instant b ->
  state_bytes (first_fold a) = state_bytes (first_fold b)
  /\ (Mdatetime._tzinfo a = Mdatetime._tzinfo b ->
      first_fold a = first_fold b).
Proof.
  intros Ha Hb Hi.
  assert (Hsame : first_fold a
                  = {| Mdatetime._year := Mdatetime._year b;
                       Mdatetime._month := Mdatetime._month b;
                       Mdatetime._sol := Mdatetime._sol b;
                       Mdatetime._hour := Mdatetime._hour b;
                       Mdatetime._minute := Mdatetime._minute b;
                       Mdatetime._second := Mdatetime._second b;
                       Mdatetime._microsecond := Mdatetime._microsecond b;
                       Mdatetime._tzinfo := Mdatetime._tzinfo a;
                       Mdatetime._fold := 0 |}).
  { apply instant_injective.
    - apply first_fold_valid. exact Ha.
    - pose proof (first_fold_valid b Hb) as Hb0.
      destruct (valid_Mdatetime_fields b Hb) as
        ((Hy & Hm & Hd) & Hhh & Hmm & Hss & Hus & _).
      unfold valid_Mdatetime.
      cbn [Mdatetime._year Mdatetime._month Mdatetime._sol Mdatetime._hour
           Mdatetime._minute Mdatetime._second Mdatetime._microsecond
           Mdatetime._tzinfo Mdatetime._fold].
      apply Mdatetime_new_ok; try assumption. left. reflexivity.
    - exact Hi.
    - reflexivity.
    - reflexivity. }
  split.
  - rewrite Hsame. reflexivity.
  - intros Htz. rewrite Hsame, Htz. reflexivity.
Qed.

Lemma cmp_of_zero (c : comparison) : (cmp_of c =? 0) = true -> c = Eq.
Proof. destruct c; cbn; try discriminate. reflexivity. Qed.

Lemma offset_normal (x : Mdatetime.t) (off : Mtimedelta.t) :
  normal_offsets (Mdatetime._tzinfo x) ->
  Mdatetime.mtcoffset x = Ok (Some off) -> normal off.
Proof.
  intros Hn Hoff. unfold Mdatetime.mtcoffset in Hoff.
  destruct (Mdatetime._tzinfo x) as [tz|] eqn:Htz; [|discriminate].
  destruct (Mtzinfo.mtcoffset tz (Some (Mdatetime.fields x)))
    as [|d| |e] eqn:Hret; try discriminate.
  assert (Hd : normal d) by (apply (Hn tz _ d eq_refl Hret)).
  unfold _check_mtc_offset in Hoff.
  destruct (Mtimedelta.__new__ 1 0 0 0 0 0 0) as [one|]; [|discriminate].
  cbn [bind] in Hoff.
  destruct (Mtimedelta.__neg__ one) as [lo|]; [|discriminate].
  cbn [bind] in Hoff.
  destruct (if Mtimedelta.__lt__ lo d then _ else _) as [inside|];
    [|discriminate].
  cbn [bind] in Hoff. destruct (negb inside); [discriminate|].
  injection Hoff as <-. exact Hd.
Qed.

(** The offset that [hash] asks for, on the first fold, is the offset of
    the date-time itself once [==] has found the two folds to agree. *)
Lemma first_fold_offset (x : Mdatetime.t) (off off' : option Mtimedelta.t)
  (x' : Mdatetime.t) :
  valid_Mdatetime x ->
  Mdatetime.mtcoffset x = Ok off ->
  Mdatetime.replace_fold x (py_not (Mdatetime._fold x)) = Ok x' ->
  Mdatetime.mtcoffset x' = Ok off' ->
  offset_ne off off' = false ->
  Mdatetime.mtcoffset (first_fold x) = Ok off.
Proof.
  intros Hv Hoff Hflip Hoff' Hne.
  apply negb_false_iff, offset_eq_true in Hne. subst off'.
  destruct (valid_Mdatetime_fields x Hv) as
    ((Hy & Hm & Hd) & Hhh & Hmm & Hss & Hus & Hf).
  destruct Hf as [Hf|Hf].
  - replace (first_fold x) with x; [exact Hoff|].
    destruct x. cbn in Hf. subst. reflexivity.
  - rewrite Hf in Hflip. cbn [py_not Z.eqb] in Hflip.
    unfold Mdatetime.replace_fold in Hflip.
    rewrite Mdatetime_new_ok in Hflip
      by (try assumption; left; reflexivity).
    injection Hflip as <-. exact Hoff'.
Qed.

(** Two valid date-times that [==] finds equal have the same hash,
    whenever both hashes are computed; a provider object is taken to be
    determined by its identity, and the offsets it returns to be
    constructed durations. *)
Theorem datetime_equal_hash (a b : Mdatetime.t)
  (ka kb : Mdatetime.hashed) :
  valid_Mdatetime a -> valid_Mdatetime b ->
  same_object (Mdatetime._tzinfo a) (Mdatetime._tzinfo b) ->
  normal_offsets (Mdatetime._tzinfo a) ->
  normal_offsets (Mdatetime._tzinfo b) ->
  Mdatetime.__eq__ a b = Ok true ->
  Mdatetime.__hash__ a = Ok ka -> Mdatetime.__hash__ b = Ok kb ->
  ka = kb.
Proof.
  intros Ha Hb Hobj Hna Hnb Heq Hka Hkb.
  pose proof (first_fold_valid a Ha) as Ha0.
  pose proof (first_fold_valid b Hb) as Hb0.
  destruct (datetime_hash_value a Ha) as [Hnaive_a Haware_a].
  destruct (datetime_hash_value b Hb) as [Hnaive_b Haware_b].
  unfold Mdatetime.__eq__, Mdatetime._cmp in Heq.
  destruct (Mtzinfo.is_ (Mdatetime._tzinfo a) (Mdatetime._tzinfo b))
    eqn:His.
  - (* one provider object: the wall-clock fields agree *)
    cbn [bind] in Heq. injection Heq as Heq.
    rewrite datetime_compare_instant in Heq by assumption.
    apply cmp_of_zero, Z.compare_eq_iff in Heq.
    destruct (instant_fields a b Ha Hb Heq) as [_ Hsame].
    specialize (Hsame (Hobj His)).
    assert (Hhash : forall x, valid_Mdatetime x ->
              Mdatetime.__hash__ x = Mdatetime.__hash__ (first_fold x)).
    { intros x Hx. unfold Mdatetime.__hash__.
      rewrite (first_fold_choice x Hx).
      rewrite (first_fold_choice (first_fold x) (first_fold_valid x Hx)).
      reflexivity. }
    rewrite (Hhash a Ha), Hsame, <- (Hhash b Hb), Hkb in Hka.
    injection Hka as <-. reflexivity.
  - destruct (Mdatetime.mtcoffset a) as [myoff|] eqn:Hmy; [|discriminate].
    cbn [bind] in Heq.
    destruct (Mdatetime.mtcoffset b) as [otoff|] eqn:Hot; [|discriminate].
    cbn [bind] in Heq.
    destruct (Mdatetime.replace_fold a (py_not (Mdatetime._fold a)))
      as [a'|] eqn:Hfa; [|discriminate].
    cbn [bind] in Heq.
    destruct (Mdatetime.mtcoffset a') as [myoff'|] eqn:Hmy';
      [|discriminate].
    cbn [bind] in Heq.
    destruct (offset_ne myoff myoff') eqn:Hne1; [discriminate|].
    destruct (Mdatetime.replace_fold b (py_not (Mdatetime._fold b)))
      as [b'|] eqn:Hfb; [|discriminate].
    cbn [bind] in Heq.
    destruct (Mdatetime.mtcoffset b') as [otoff'|] eqn:Hot';
      [|discriminate].
    cbn [bind] in Heq.
    destruct (offset_ne otoff otoff') eqn:Hne2; [discriminate|].
    pose proof (first_fold_offset a _ _ _ Ha Hmy Hfa Hmy' Hne1) as H0a.
    pose proof (first_fold_offset b _ _ _ Hb Hot Hfb Hot' Hne2) as H0b.
    destruct (offset_eq myoff otoff) eqn:Hoe.
    + (* equal offsets: the wall-clock fields agree *)
      apply offset_eq_true in Hoe. subst otoff.
      injection Heq as Heq.
      rewrite datetime_compare_instant in Heq by assumption.
      apply cmp_of_zero, Z.compare_eq_iff in Heq.
      destruct myoff as [off|].
      * pose proof (offset_normal a off Hna Hmy) as Hn.
        rewrite (Haware_a off H0a Hn) in Hka.
        rewrite (Haware_b off H0b Hn) in Hkb.
        injection Hka as <-. injection Hkb as <-. rewrite Heq.
        reflexivity.
      * rewrite (Hnaive_a H0a) in Hka. rewrite (Hnaive_b H0b) in Hkb.
        injection Hka as <-. injection Hkb as <-.
        destruct (instant_fields a b Ha Hb Heq) as [Hst _].
        exact (f_equal Mdatetime.HashBytes Hst).
    + destruct myoff as [oa|], otoff as [ob|]; try discriminate.
      pose proof (offset_normal a oa Hna Hmy) as Hnoa.
      pose proof (offset_normal b ob Hnb Hot) as Hnob.
      rewrite (datetime_sub_aware a b oa ob) in Heq by assumption.
      cbn [bind] in Heq.
      destruct (normalized_sign
                  (instant a - Mtimedelta._to_microseconds oa
                   - (instant b - Mtimedelta._to_microseconds ob)))
        as [Hsign Hbool].
      rewrite Hsign, Hbool in Heq.
      destruct (Z.ltb_spec (instant a - Mtimedelta._to_microseconds oa
                            - (instant b - Mtimedelta._to_microseconds ob))
                           0); [discriminate|].
      destruct (Z.eqb_spec (instant a - Mtimedelta._to_microseconds oa
                            - (instant b - Mtimedelta._to_microseconds ob))
                           0) as [Hz|]; [|discriminate].
      rewrite (Haware_a oa H0a Hnoa) in Hka.
      rewrite (Haware_b ob H0b Hnob) in Hkb.
      injection Hka as <-. injection Hkb as <-.
      replace (instant a - Mtimedelta._to_microseconds oa)
        with (instant b - Mtimedelta._to_microseconds ob) by lia.
      reflexivity.
Qed.

Lemma datetime_equal_hash_witness :
  exists ka kb,
    Mdatetime.__hash__ noon_east = Ok ka
    /\ Mdatetime.__hash__ eleven_mtc = Ok kb
    /\ ka = kb.
Proof.
  eexists. eexists. split; [reflexivity|]. split; [reflexivity|].
  apply (datetime_equal_hash noon_east eleven_mtc).
  - reflexivity.
  - reflexivity.
  - intros His. discriminate His.
  - intros p arg d [= <-] Hret. cbn in Hret. injection Hret as <-.
    unfold normal. cbn. lia.
  - intros p arg d [= <-] Hret. cbn in Hret. injection Hret as <-.
    unfold normal. cbn. lia.
  - reflexivity.
  - reflexivity.
  - reflexivity.
Defined.

(** ** Times of day *)

Lemma time_naive_mtcoffset (x : Mtime.t) :
  Mtime._tzinfo x = None -> Mtime.mtcoffset x = Ok None.
Proof. intros H. unfold Mtime.mtcoffset. rewrite H. reflexivity. Qed.

Lemma time_aware_has_tzinfo (x : Mtime.t) (off : Mtimedelta.t) :
  Mtime.mtcoffset x = Ok (Some off) ->
  exists tz, Mtime._tzinfo x = Some tz.
Proof.
  unfold Mtime.mtcoffset.
  destruct (Mtime._tzinfo x) as [tz|]; [|discriminate].
  intros _. exists tz. reflexivity.
Qed.

(** Between a time without [tzinfo] and a time whose offset resolves to a
    [Mtimedelta], [==] returns false both ways without raising, and [<],
    [<=], [>] and [>=] raise [TypeError]. *)
Theorem time_naive_aware_comparison (a b : Mtime.t) (off : Mtimedelta.t) :
  Mtime._tzinfo a = None ->
  Mtime.mtcoffset b = Ok (Some off) ->
  Mtime.__eq__ a b = Ok false /\ Mtime.__eq__ b a = Ok false
  /\ Mtime.__lt__ a b = Raise TypeError
  /\ Mtime.__le__ a b = Raise TypeError
  /\ Mtime.__gt__ a b = Raise TypeError
  /\ Mtime.__ge__ a b = Raise TypeError.
Proof.
  intros Ha Hb. destruct (time_aware_has_tzinfo b off Hb) as [tz Htz].
  unfold Mtime.__eq__, Mtime.__lt__, Mtime.__le__, Mtime.__gt__,
    Mtime.__ge__, Mtime._cmp.
  rewrite (time_naive_mtcoffset a Ha), Hb, Ha, Htz.
  repeat split; reflexivity.
Qed.

Lemma time_naive_aware_comparison_witness :
  Mtime.__eq__
    {| Mtime._hour := 12; Mtime._minute := 0; Mtime._second := 0;
       Mtime._microsecond := 0; Mtime._tzinfo := None; Mtime._fold := 0 |}
    noon_east_time = Ok false
  /\ Mtime.__lt__
       {| Mtime._hour := 12; Mtime._minute := 0; Mtime._second := 0;
          Mtime._microsecond := 0; Mtime._tzinfo := None;
          Mtime._fold := 0 |}
       noon_east_time = Raise TypeError.
Proof.
  destruct (time_naive_aware_comparison
              {| Mtime._hour := 12; Mtime._minute := 0; Mtime._second := 0;
                 Mtime._microsecond := 0; Mtime._tzinfo := None;
                 Mtime._fold := 0 |}
              noon_east_time
              {| Mtimedelta._sols := 0; Mtimedelta._seconds := 3600;
                 Mtimedelta._microseconds := 0 |})
    as (Heq & _ & Hlt & _).
  - reflexivity.
  - reflexivity.
  - split; assumption.
Defined.

Lemma valid_Mtime_fields (x : Mtime.t) :
  valid_Mtime x ->
  0 <= Mtime._hour x <= 23 /\ 0 <= Mtime._minute x <= 59
  /\ 0 <= Mtime._second x <= 59 /\ 0 <= Mtime._microsecond x <= 999999
  /\ (Mtime._fold x = 0 \/ Mtime._fold x = 1).
Proof.
  unfold valid_Mtime, Mtime.__new__.
  destruct (_check_time_fields _ _ _ _ _) as [r|e] eqn:Hc; [|discriminate].
  apply check_time_fields_inv in Hc. intros _. tauto.
Qed.

Lemma minute_second_compare (n s u n' s' u' : Z) :
  0 <= s <= 59 -> 0 <= u <= 999999 -> 0 <= s' <= 59 -> 0 <= u' <= 999999 ->
  tuple_compare [n; s; u] [n'; s'; u']
  = ((n * 60 + s) * 1000000 + u ?= (n' * 60 + s') * 1000000 + u').
Proof.
  intros Hs Hu Hs' Hu'. cbn [tuple_compare]. symmetry.
  destruct (Z.compare_spec n n');
    [destruct (Z.compare_spec s s'); [destruct (Z.compare_spec u u')|..]
    |..];
    first [apply Z.compare_eq_iff; lia | apply Z.compare_lt_iff; lia
          | apply Z.compare_gt_iff; lia].
Qed.

Lemma one_minute_value :
  Mtimedelta.__new__ 0 0 0 0 1 0 0
  = Ok {| Mtimedelta._sols := 0; Mtimedelta._seconds := 60;
          Mtimedelta._microseconds := 0 |}.
Proof. reflexivity. Qed.

(** The order of valid times is the order of their readings when both
    carry the same [tzinfo] object; when they carry different objects whose
    offsets resolve, it is the order of the readings less the offsets, each
    offset rounded down to whole minutes, and with no wrap at
    midnight. *)
Theorem time_order (a b : Mtime.t) (allow_mixed : bool) :
  valid_Mtime a -> valid_Mtime b ->
  (Mtzinfo.is_ (Mtime._tzinfo a) (Mtime._tzinfo b) = true ->
   Mtime._cmp a b allow_mixed
   = Ok (cmp_of (time_of_sol a ?= time_of_sol b)))
  /\ (Mtzinfo.is_ (Mtime._tzinfo a) (Mtime._tzinfo b) = false ->
      forall oa ob,
        Mtime.mtcoffset a = Ok (Some oa) ->
        Mtime.mtcoffset b = Ok (Some ob) ->
        Mtime._cmp a b allow_mixed
        = Ok (cmp_of
                (time_of_sol a
                 - 60000000 * (Mtimedelta._to_microseconds oa / 60000000)
                 ?= time_of_sol b
                    - 60000000
                      * (Mtimedelta._to_microseconds ob / 60000000)))).
Proof.
  intros Ha Hb.
  destruct (valid_Mtime_fields a Ha) as (Hh & Hm & Hs & Hu & _).
  destruct (valid_Mtime_fields b Hb) as (Hh' & Hm' & Hs' & Hu' & _).
  assert (Hbase : Mtime.base_cmp a b
                  = cmp_of (time_of_sol a ?= time_of_sol b)).
  { unfold Mtime.base_cmp, _cmp, time_of_sol. f_equal.
    apply time_compare; assumption. }
  unfold Mtime._cmp. split.
  - intros His. rewrite His, Hbase. reflexivity.
  - intros His oa ob Hoa Hob. rewrite His, Hoa, Hob. cbn [bind].
    destruct (offset_eq (Some oa) (Some ob)) eqn:Heq.
    + apply offset_eq_true in Heq. injection Heq as ->.
      rewrite Hbase. f_equal. f_equal. symmetry. apply compare_sub_r.
    + rewrite one_minute_value. cbn [bind].
      unfold Mtimedelta.__floordiv__.
      change (Mtimedelta._to_microseconds
                {| Mtimedelta._sols := 0; Mtimedelta._seconds := 60;
                   Mtimedelta._microseconds := 0 |}) with 60000000.
      cbn [Z.eqb bind]. unfold _cmp. f_equal. f_equal.
      rewrite minute_second_compare by assumption.
      unfold time_of_sol.
      set (ka := Mtimedelta._to_microseconds oa / 60000000).
      set (kb := Mtimedelta._to_microseconds ob / 60000000).
      destruct (Z.compare_spec
                  (((Mtime._hour a * 60 + Mtime._minute a - ka) * 60
                    + Mtime._second a) * 1000000 + Mtime._microsecond a)
                  (((Mtime._hour b * 60 + Mtime._minute b - kb) * 60
                    + Mtime._second b) * 1000000 + Mtime._microsecond b));
        symmetry;
        first [apply Z.compare_eq_iff; lia | apply Z.compare_lt_iff; lia
              | apply Z.compare_gt_iff; lia].
Qed.

Lemma time_order_witness :
  Mtime._cmp noon_east_time eleven_mtc_time true
  = Ok (cmp_of
          (time_of_sol noon_east_time
           - 60000000
             * (Mtimedelta._to_microseconds
                  {| Mtimedelta._sols := 0; Mtimedelta._seconds := 3600;
                     Mtimedelta._microseconds := 0 |} / 60000000)
           ?= time_of_sol eleven_mtc_time
              - 60000000
                * (Mtimedelta._to_microseconds
                     {| Mtimedelta._sols := 0; Mtimedelta._seconds := 0;
                        Mtimedelta._microseconds := 0 |} / 60000000))).
Proof.
  destruct (time_order noon_east_time eleven_mtc_time true) as [_ Horder].
  - reflexivity.
  - reflexivity.
  - apply Horder; reflexivity.
Defined.

(** ** Equal times hash alike *)

Lemma time_getstate_3 (x : Mtime.t) :
  0 <= Mtime._hour x <= 23 -> 0 <= Mtime._minute x <= 59 ->
  0 <= Mtime._second x <= 59 -> 0 <= Mtime._microsecond x <= 999999 ->
  Mtime._getstate x 3
  = Ok (time_state (Mtime._hour x) (Mtime._minute x) (Mtime._second x)
                   (Mtime._microsecond x), Mtime._tzinfo x).
Proof.
  intros Hh Hm Hs Hus. unfold Mtime._getstate, divmod, time_state.
  change (3 >? 3) with false. rewrite andb_false_r.
  rewrite bytes_of_ok; [reflexivity|].
  repeat constructor; try lia; Z.div_mod_to_equations; lia.
Qed.

Lemma time_first_fold (x : Mtime.t) :
  valid_Mtime x ->
  (if negb (Mtime._fold x =? 0)
   then Mtime.replace x None None None None None (Some 0)
   else Ok x)
  = Ok {| Mtime._hour := Mtime._hour x; Mtime._minute := Mtime._minute x;
          Mtime._second := Mtime._second x;
          Mtime._microsecond := Mtime._microsecond x;
          Mtime._tzinfo := Mtime._tzinfo x; Mtime._fold := 0 |}.
Proof.
  intros Hv.
  destruct (valid_Mtime_fields x Hv) as (Hh & Hm & Hs & Hu & Hf).
  destruct Hf as [Hf|Hf]; rewrite Hf; cbn [Z.eqb negb].
  - f_equal. destruct x. cbn in Hf. subst. reflexivity.
  - unfold Mtime.replace. apply Mtime_new_ok; try assumption.
    left. reflexivity.
Qed.

Lemma time_check_offset_inv (r : Mtzinfo.ret) (off : Mtimedelta.t) :
  _check_mtc_offset r = Ok (Some off) -> normal off ->
  -86400000000 < Mtimedelta._to_microseconds off < 86400000000.
Proof. intros Hc Hn. apply (check_mtc_offset_inv r off Hc Hn). Qed.

(** What [hash] of a valid time does, by its offset. *)
Lemma time_hash_value (x : Mtime.t) :
  valid_Mtime x ->
  (Mtime.mtcoffset x = Ok None ->
   Mtime.__hash__ x
   = Ok (Mtime.HashBytes
           (time_state (Mtime._hour x) (Mtime._minute x) (Mtime._second x)
                       (Mtime._microsecond x))))
  /\ (forall off,
        Mtime.mtcoffset x = Ok (Some off) -> normal off ->
        (Mtimedelta._to_microseconds off mod 60000000 = 0 ->
         Mtime.__hash__ x
         = Ok (time_hash_key (mtc_minutes x off) (Mtime._second x)
                             (Mtime._microsecond x)))
        /\ (Mtimedelta._to_microseconds off mod 60000000 <> 0 ->
            Mtime.__hash__ x = Raise AssertionError)).
Proof.
  intros Hv.
  destruct (valid_Mtime_fields x Hv) as (Hh & Hm & Hs & Hus & Hf).
  unfold Mtime.__hash__. cbn [Mtime.hash_at]. unfold Mtime.hash_body.
  rewrite (time_first_fold x Hv). cbn [bind].
  set (x0 := {| Mtime._hour := Mtime._hour x;
                Mtime._minute := Mtime._minute x;
                Mtime._second := Mtime._second x;
                Mtime._microsecond := Mtime._microsecond x;
                Mtime._tzinfo := Mtime._tzinfo x; Mtime._fold := 0 |}).
  assert (Hoff0 : Mtime.mtcoffset x0 = Mtime.mtcoffset x) by reflexivity.
  rewrite Hoff0.
  assert (Hst : Mtime._getstate x0 3
                = Ok (time_state (Mtime._hour x) (Mtime._minute x)
                        (Mtime._second x) (Mtime._microsecond x),
                      Mtime._tzinfo x)).
  { apply (time_getstate_3 x0); assumption. }
  split.
  - intros Hoff. rewrite Hoff, Hst. reflexivity.
  - intros off Hoff Hn. rewrite Hoff. cbn [bind].
    pose proof Hn as (Hos & Hou & Hod).
    assert (Hr : -86400000000 < Mtimedelta._to_microseconds off
                 < 86400000000).
    { unfold Mtime.mtcoffset in Hoff.
      destruct (Mtime._tzinfo x); [|discriminate].
      apply (time_check_offset_inv _ off Hoff Hn). }
    rewrite (bool_to_microseconds off) by assumption.
    unfold mtc_minutes, time_hash_key.
    set (U := Mtimedelta._to_microseconds off) in *.
    set (h := Mtime._hour x) in *. set (m := Mtime._minute x) in *.
    set (s := Mtime._second x) in *. set (us := Mtime._microsecond x) in *.
    destruct (Z.eqb_spec U 0) as [Hz|Hnz]; cbn [negb].
    { rewrite Hst. split.
      - intros _. rewrite Hz. change (0 / 60000000) with 0.
        rewrite Z.sub_0_r.
        replace ((h * 60 + m) / 60) with h
          by (Z.div_mod_to_equations; lia).
        replace ((h * 60 + m) mod 60) with m
          by (Z.div_mod_to_equations; lia).
        replace ((0 <=? h) && (h <? 24)) with true
          by (symmetry; apply andb_true_iff;
              rewrite Z.leb_le, Z.ltb_lt; lia).
        reflexivity.
      - intros Hne. rewrite Hz in Hne. cbn in Hne. congruence. }
    assert (Hhm : Mtimedelta.__new__ 0 0 0 0 m h 0
                  = Ok (normalized ((m * 60 + h * 3600) * 1000000))).
    { rewrite new_in_range.
      - f_equal. f_equal. unfold total_microseconds. lia.
      - unfold total_microseconds. Z.div_mod_to_equations. lia. }
    rewrite Hhm. cbn [bind].
    rewrite sub_value; rewrite to_microseconds_normalized; fold U;
      [|Z.div_mod_to_equations; lia].
    cbn [bind].
    set (T := (m * 60 + h * 3600) * 1000000 - U).
    change (Mtimedelta.__new__ 0 0 0 0 0 1 0)
      with (Ok {| Mtimedelta._sols := 0; Mtimedelta._seconds := 3600;
                  Mtimedelta._microseconds := 0 |}).
    change (Mtimedelta.__new__ 0 0 0 0 1 0 0)
      with (Ok {| Mtimedelta._sols := 0; Mtimedelta._seconds := 60;
                  Mtimedelta._microseconds := 0 |}).
    cbn [bind]. unfold Mtimedelta.__divmod__, Mtimedelta.__mod__,
      Mtimedelta.__floordiv__, divmod.
    rewrite to_microseconds_normalized.
    change (Mtimedelta._to_microseconds
              {| Mtimedelta._sols := 0; Mtimedelta._seconds := 3600;
                 Mtimedelta._microseconds := 0 |}) with 3600000000.
    change (Mtimedelta._to_microseconds
              {| Mtimedelta._sols := 0; Mtimedelta._seconds := 60;
                 Mtimedelta._microseconds := 0 |}) with 60000000.
    cbn [Z.eqb].
    rewrite (microseconds_value (T mod 3600000000))
      by (Z.div_mod_to_equations; lia).
    cbn [bind]. rewrite to_microseconds_normalized.
    rewrite (microseconds_value (T mod 3600000000 mod 60000000))
      by (Z.div_mod_to_equations; lia).
    cbn [bind].
    rewrite (bool_to_microseconds
               (normalized (T mod 3600000000 mod 60000000)))
      by (unfold normalized; cbn; Z.div_mod_to_equations; lia).
    rewrite to_microseconds_normalized, negb_involutive.
    assert (Hsame : T mod 3600000000 mod 60000000 = 0
                    <-> U mod 60000000 = 0).
    { subst T. Z.div_mod_to_equations. lia. }
    destruct (Z.eqb_spec (T mod 3600000000 mod 60000000) 0) as [Hw|Hw];
      cbn [py_assert bind].
    + split; [intros HU|intros Hne; apply Hsame in Hw; contradiction].
      assert (Hq : T / 3600000000 = (h * 60 + m - U / 60000000) / 60).
      { subst T. Z.div_mod_to_equations. lia. }
      assert (Hmin : T mod 3600000000 / 60000000
                     = (h * 60 + m - U / 60000000) mod 60).
      { subst T. Z.div_mod_to_equations. lia. }
      rewrite Hq, Hmin.
      destruct ((0 <=? (h * 60 + m - U / 60000000) / 60)
                && ((h * 60 + m - U / 60000000) / 60 <? 24)) eqn:Hin;
        [|reflexivity].
      apply andb_true_iff in Hin. rewrite Z.leb_le, Z.ltb_lt in Hin.
      pose proof (Z.mod_pos_bound (h * 60 + m - U / 60000000) 60
                    ltac:(lia)) as Hmb.
      rewrite Mtime_new_ok; [|lia|lia|assumption|assumption
                              |left; reflexivity].
      cbn [bind Mtime.hash_at]. unfold Mtime.hash_body.
      cbn [Mtime._fold Z.eqb negb bind Mtime.mtcoffset Mtime._tzinfo].
      rewrite time_getstate_3; cbn [Mtime._hour Mtime._minute
        Mtime._second Mtime._microsecond]; try assumption; try lia.
      reflexivity.
    + split; [intros He; apply Hsame in He; contradiction|intros _].
      reflexivity.
Qed.

Lemma time_offset_normal (x : Mtime.t) (off : Mtimedelta.t) :
  normal_offsets (Mtime._tzinfo x) ->
  Mtime.mtcoffset x = Ok (Some off) -> normal off.
Proof.
  intros Hn Hoff. unfold Mtime.mtcoffset in Hoff.
  destruct (Mtime._tzinfo x) as [tz|] eqn:Htz; [|discriminate].
  destruct (Mtzinfo.mtcoffset tz None) as [|d| |e] eqn:Hret;
    try discriminate.
  assert (Hd : normal d) by (apply (Hn tz _ d eq_refl Hret)).
  unfold _check_mtc_offset in Hoff.
  destruct (Mtimedelta.__new__ 1 0 0 0 0 0 0) as [one|]; [|discriminate].
  cbn [bind] in Hoff.
  destruct (Mtimedelta.__neg__ one) as [lo|]; [|discriminate].
  cbn [bind] in Hoff.
  destruct (if Mtimedelta.__lt__ lo d then _ else _) as [inside|];
    [|discriminate].
  cbn [bind] in Hoff. destruct (negb inside); [discriminate|].
  injection Hoff as <-. exact Hd.
Qed.

Lemma time_hash_by_offset (x : Mtime.t) (k : Mtime.hashed)
  (o : option Mtimedelta.t) :
  valid_Mtime x -> normal_offsets (Mtime._tzinfo x) ->
  Mtime.mtcoffset x = Ok o -> Mtime.__hash__ x = Ok k ->
  k = match o with
      | None =>
          Mtime.HashBytes
            (time_state (Mtime._hour x) (Mtime._minute x)
                        (Mtime._second x) (Mtime._microsecond x))
      | Some off =>
          time_hash_key (mtc_minutes x off) (Mtime._second x)
                        (Mtime._microsecond x)
      end.
Proof.
  intros Hv Hn Ho Hk.
  destruct (time_hash_value x Hv) as [Hnaive Haware].
  destruct o as [off|].
  - pose proof (time_offset_normal x off Hn Ho) as Hoff.
    destruct (Haware off Ho Hoff) as [Hwhole Hpart].
    destruct (Z.eq_dec (Mtimedelta._to_microseconds off mod 60000000) 0)
      as [Hz|Hnz].
    + rewrite (Hwhole Hz) in Hk. injection Hk as <-. reflexivity.
    + rewrite (Hpart Hnz) in Hk. discriminate.
  - rewrite (Hnaive Ho) in Hk. injection Hk as <-. reflexivity.
Qed.

Lemma time_hash_needs_offset (x : Mtime.t) (k : Mtime.hashed) :
  valid_Mtime x -> Mtime.__hash__ x = Ok k ->
  exists o, Mtime.mtcoffset x = Ok o.
Proof.
  intros Hv Hk.
  destruct (Mtime.mtcoffset x) as [o|e] eqn:Hm; [eauto|].
  exfalso. revert Hk. unfold Mtime.__hash__. cbn [Mtime.hash_at].
  unfold Mtime.hash_body. rewrite (time_first_fold x Hv). cbn [bind].
  assert (Hm0 : Mtime.mtcoffset
                  {| Mtime._hour := Mtime._hour x;
                     Mtime._minute := Mtime._minute x;
                     Mtime._second := Mtime._second x;
                     Mtime._microsecond := Mtime._microsecond x;
                     Mtime._tzinfo := Mtime._tzinfo x; Mtime._fold := 0 |}
                = Mtime.mtcoffset x) by reflexivity.
  rewrite Hm0, Hm. discriminate.
Qed.

Lemma time_fields_of_reading (a b : Mtime.t) :
  valid_Mtime a -> valid_Mtime b -> time_of_sol a = time_of_sol b ->
  Mtime._hour a = Mtime._hour b /\ Mtime._minute a = Mtime._minute b
  /\ Mtime._second a = Mtime._second b
  /\ Mtime._microsecond a = Mtime._microsecond b.
Proof.
  intros Ha Hb He.
  destruct (valid_Mtime_fields a Ha) as (Hh & Hm & Hs & Hu & _).
  destruct (valid_Mtime_fields b Hb) as (Hh' & Hm' & Hs' & Hu' & _).
  unfold time_of_sol in He. repeat split; lia.
Qed.

(** Two valid times that [==] finds equal have the same hash, whenever
    both hashes are computed; a provider object is taken to be determined
    by its identity, and the offsets it returns to be constructed
    durations. *)
Theorem time_equal_hash (a b : Mtime.t) (ka kb : Mtime.hashed) :
  valid_Mtime a -> valid_Mtime b ->
  same_object (Mtime._tzinfo a) (Mtime._tzinfo b) ->
  normal_offsets (Mtime._tzinfo a) -> normal_offsets (Mtime._tzinfo b) ->
  Mtime.__eq__ a b = Ok true ->
  Mtime.__hash__ a = Ok ka -> Mtime.__hash__ b = Ok kb ->
  ka = kb.
Proof.
  intros Ha Hb Hobj Hna Hnb Heq Hka Hkb.
  destruct (valid_Mtime_fields a Ha) as (Hh & Hm & Hs & Hu & _).
  destruct (valid_Mtime_fields b Hb) as (Hh' & Hm' & Hs' & Hu' & _).
  assert (Hbase : (Mtime.base_cmp a b =? 0) = true ->
                  Mtime._hour a = Mtime._hour b
                  /\ Mtime._minute a = Mtime._minute b
                  /\ Mtime._second a = Mtime._second b
                  /\ Mtime._microsecond a = Mtime._microsecond b).
  { intros Hc. unfold Mtime.base_cmp, _cmp in Hc.
    rewrite time_compare in Hc by assumption.
    apply cmp_of_zero, Z.compare_eq_iff in Hc.
    apply time_fields_of_reading; assumption. }
  destruct (time_hash_needs_offset a ka Ha Hka) as [oa Hoa].
  destruct (time_hash_needs_offset b kb Hb Hkb) as [ob Hob].
  rewrite (time_hash_by_offset a ka oa Ha Hna Hoa Hka).
  rewrite (time_hash_by_offset b kb ob Hb Hnb Hob Hkb).
  unfold Mtime.__eq__, Mtime._cmp in Heq.
  destruct (Mtzinfo.is_ (Mtime._tzinfo a) (Mtime._tzinfo b)) eqn:His.
  - cbn [bind] in Heq. injection Heq as Heq.
    destruct (Hbase Heq) as (E1 & E2 & E3 & E4).
    assert (Hsame : oa = ob).
    { unfold Mtime.mtcoffset in Hoa, Hob. rewrite (Hobj His) in Hoa.
      rewrite Hoa in Hob. injection Hob as ->. reflexivity. }
    subst ob. unfold mtc_minutes. rewrite E1, E2, E3, E4. reflexivity.
  - rewrite Hoa, Hob in Heq. cbn [bind] in Heq.
    destruct (offset_eq oa ob) eqn:Hoe.
    + apply offset_eq_true in Hoe. subst ob.
      injection Heq as Heq.
      destruct (Hbase Heq) as (E1 & E2 & E3 & E4).
      unfold mtc_minutes. rewrite E1, E2, E3, E4. reflexivity.
    + destruct oa as [oa|], ob as [ob|]; try discriminate.
      rewrite one_minute_value in Heq. cbn [bind] in Heq.
      unfold Mtimedelta.__floordiv__ in Heq.
      change (Mtimedelta._to_microseconds
                {| Mtimedelta._sols := 0; Mtimedelta._seconds := 60;
                   Mtimedelta._microseconds := 0 |}) with 60000000 in Heq.
      cbn [Z.eqb bind] in Heq. injection Heq as Heq.
      unfold _cmp in Heq. apply cmp_of_zero in Heq.
      apply tuple_compare_eq3 in Heq. destruct Heq as (E1 & E2 & E3).
      unfold mtc_minutes. rewrite E1, E2, E3. reflexivity.
Qed.

Lemma time_equal_hash_witness :
  exists ka kb,
    Mtime.__hash__ noon_east_time = Ok ka
    /\ Mtime.__hash__ eleven_mtc_time = Ok kb
    /\ ka = kb.
Proof.
  eexists. eexists. split; [reflexivity|]. split; [reflexivity|].
  apply (time_equal_hash noon_east_time eleven_mtc_time).
  - reflexivity.
  - reflexivity.
  - intros His. discriminate His.
  - intros p arg d [= <-] Hret. cbn in Hret. injection Hret as <-.
    unfold normal. cbn. lia.
  - intros p arg d [= <-] Hret. cbn in Hret. injection Hret as <-.
    unfold normal. cbn. lia.
  - reflexivity.
  - reflexivity.
  - reflexivity.
Defined.


(** ** Where [fromordinal] returns *)

Lemma sols_before_month_inv (m v : Z) :
  _sols_before_month m = Ok v -> 1 <= m <= 24 /\ v = sbm_value m.
Proof.
  unfold _sols_before_month.
  destruct ((1 <=? m) && (m <=? 24)) eqn:Hm; [|discriminate].
  apply range_test in Hm. cbn [py_assert bind]. intros [= <-].
  split; [exact Hm|reflexivity].
Qed.

(** Whatever year [_ord2ymd] settles on, the triple it returns adds up to
    the ordinal it was given. *)
Lemma ord2ymd_sum (n y m d : Z) :
  _ord2ymd n = Ok (y, m, d) ->
  1 <= m <= 24 /\ n = _sols_before_year y + sbm_value m + d.
Proof.
  rewrite ord2ymd_split.
  destruct (month_sol (n - _sols_before_year (year_of n)))
    as [[m' s]|e] eqn:Hms; [|discriminate].
  cbn [bind]. intros [= <- <- <-].
  unfold month_sol in Hms.
  destruct (_sols_before_month _) as [sbm|] in Hms; [|discriminate].
  cbn [bind] in Hms.
  destruct (if _ <=? sbm then _ else _) as [month|] in Hms;
    [|discriminate].
  cbn [bind] in Hms.
  destruct (_sols_before_month month) as [sbm'|] eqn:Hsbm;
    [|discriminate].
  cbn [bind] in Hms. injection Hms as <- <-.
  apply sols_before_month_inv in Hsbm. destruct Hsbm as [Hm ->].
  split; [exact Hm|lia].
Qed.

(** [Mdate.fromordinal(n)] returns a date exactly for the ordinals 1 to
    6685945, and that date has the ordinal [n]; for every other integer (of
    those a float holds exactly) it raises. *)
Theorem fromordinal_domain (n : Z) :
  - 9007199254740992 < n < 9007199254740992 ->
  (1 <= n <= 6685945 ->
   exists d, Mdate.fromordinal n = Ok d /\ valid_Mdate d
             /\ Mdate.toordinal d = Ok n)
  /\ (~ 1 <= n <= 6685945 ->
      exists e, Mdate.fromordinal n = Raise e).
Proof.
  intros _. split.
  - intros Hn. destruct (fromordinal_ok n Hn) as (d & Hd & Hv & Ho & _).
    exists d. repeat split; assumption.
  - intros Hout.
    destruct (Mdate.fromordinal n) as [d|e] eqn:Hfrom; [|eauto].
    exfalso. apply Hout. unfold Mdate.fromordinal in Hfrom.
    destruct (_ord2ymd n) as [[[y m] s]|] eqn:Hord; [|discriminate].
    cbn [bind] in Hfrom.
    apply ord2ymd_sum in Hord. destruct Hord as [_ Hsum].
    unfold Mdate.__new__ in Hfrom.
    destruct (_check_date_fields y m s) as [r|] eqn:Hc; [|discriminate].
    apply check_date_fields_inv in Hc. destruct Hc as (_ & Hy & Hm & Hs).
    destruct (ymd2ord_inverse y m s Hy Hm Hs) as (_ & Hr & _).
    unfold _MAXORDINAL in Hr. lia.
Qed.

Lemma fromordinal_domain_witness :
  (exists d, Mdate.fromordinal 6685945 = Ok d /\ valid_Mdate d
             /\ Mdate.toordinal d = Ok 6685945)
  /\ (exists e, Mdate.fromordinal 0 = Raise e)
  /\ (exists e, Mdate.fromordinal 6685946 = Raise e).
Proof.
  split; [|split].
  - apply (fromordinal_domain 6685945); lia.
  - apply (fromordinal_domain 0); lia.
  - apply (fromordinal_domain 6685946); lia.
Defined.

(** ** Which offsets a time zone takes *)

Lemma timezone_bounds_value :
  Mtimezone._minoffset
  = Ok {| Mtimedelta._sols := -1; Mtimedelta._seconds := 0;
          Mtimedelta._microseconds := 1 |}
  /\ Mtimezone._maxoffset
     = Ok {| Mtimedelta._sols := 0; Mtimedelta._seconds := 86399;
             Mtimedelta._microseconds := 999999 |}.
Proof. split; reflexivity. Qed.

(** [Mtimezone(offset)] and [Mtimezone(offset, name)] take a constructed
    duration exactly when it is strictly between minus and plus one sol,
    and raise [ValueError] otherwise; without a name the zero offset gives
    the one shared object [Mtimezone.mtc]; and a date-time that carries the
    returned object resolves its [mtcoffset()] to that offset without
    raising. *)
Theorem timezone_accepts (addr : nat) (off : Mtimedelta.t)
  (name : option String.string) :
  normal off ->
  (-86400000000 < Mtimedelta._to_microseconds off < 86400000000 ->
   exists tz,
     Mtimezone.__new__ addr off name = Ok tz
     /\ (name = None -> Mtimedelta._to_microseconds off = 0 ->
         tz = Mtimezone.mtc)
     /\ forall x, Mdatetime._tzinfo x = Some tz ->
                  Mdatetime.mtcoffset x = Ok (Some off))
  /\ (~ -86400000000 < Mtimedelta._to_microseconds off < 86400000000 ->
      Mtimezone.__new__ addr off name = Raise ValueError).
Proof.
  intros Hn. pose proof Hn as (Hs & Hu & Hd).
  destruct timezone_bounds_value as [Hmin Hmax].
  assert (Hle : forall a b, normal a -> normal b ->
            Mtimedelta.__le__ a b
            = (Mtimedelta._to_microseconds a
               <=? Mtimedelta._to_microseconds b)).
  { intros a b (Has & Hau & _) (Hbs & Hbu & _).
    unfold Mtimedelta.__le__, Mtimedelta._cmp, _cmp.
    rewrite duration_compare_microseconds by assumption.
    destruct (Z.compare_spec (Mtimedelta._to_microseconds a)
                             (Mtimedelta._to_microseconds b));
      cbn [cmp_of]; symmetry;
      first [apply Z.leb_le; lia | apply Z.leb_gt; lia]. }
  assert (Hlo : normal {| Mtimedelta._sols := -1; Mtimedelta._seconds := 0;
                          Mtimedelta._microseconds := 1 |})
    by (unfold normal; cbn; lia).
  assert (Hhi : normal {| Mtimedelta._sols := 0;
                          Mtimedelta._seconds := 86399;
                          Mtimedelta._microseconds := 999999 |})
    by (unfold normal; cbn; lia).
  split.
  - intros Hr.
    destruct (Mtimezone.__new__ addr off name) as [tz|e] eqn:Hnew.
    + exists tz. split; [reflexivity|].
      destruct (timezone_new_inv addr off name tz Hn Hnew)
        as (Hret & Hchk & _).
      split.
      * intros -> Hz. unfold Mtimezone.__new__ in Hnew.
        rewrite bool_to_microseconds, Hz in Hnew by assumption.
        cbn in Hnew. injection Hnew as <-. reflexivity.
      * intros x Hx. unfold Mdatetime.mtcoffset. rewrite Hx.
        unfold Mtimezone.__new__ in Hnew.
        destruct (match name with
                  | Some _ => false
                  | None => negb (Mtimedelta.__bool__ off)
                  end) eqn:Hzero.
        -- injection Hnew as <-. cbn [Mtimezone.mtc Mtimezone._create
             Mtzinfo.mtcoffset].
           destruct name; [discriminate|].
           apply negb_true_iff in Hzero.
           rewrite bool_to_microseconds in Hzero by assumption.
           apply negb_false_iff, Z.eqb_eq in Hzero.
           replace off with {| Mtimedelta._sols := 0;
                               Mtimedelta._seconds := 0;
                               Mtimedelta._microseconds := 0 |}.
           ++ reflexivity.
           ++ rewrite <- (normalized_to_microseconds off) by assumption.
              rewrite Hzero. reflexivity.
        -- rewrite Hmin, Hmax in Hnew. cbn [bind] in Hnew.
           destruct (if Mtimedelta.__le__ _ off then _ else _)
             as [inside|] in Hnew; [|discriminate].
           cbn [bind] in Hnew. destruct (negb inside); [discriminate|].
           injection Hnew as <-.
           cbn [Mtimezone._create Mtzinfo.mtcoffset]. exact Hchk.
    + exfalso. unfold Mtimezone.__new__ in Hnew.
      destruct (match name with
                | Some _ => false
                | None => negb (Mtimedelta.__bool__ off)
                end); [discriminate|].
      rewrite Hmin, Hmax in Hnew. cbn [bind] in Hnew.
      rewrite !Hle in Hnew by assumption.
      change (Mtimedelta._to_microseconds
                {| Mtimedelta._sols := -1; Mtimedelta._seconds := 0;
                   Mtimedelta._microseconds := 1 |})
        with (-86399999999) in Hnew.
      change (Mtimedelta._to_microseconds
                {| Mtimedelta._sols := 0; Mtimedelta._seconds := 86399;
                   Mtimedelta._microseconds := 999999 |})
        with 86399999999 in Hnew.
      destruct (Z.leb_spec (-86399999999)
                  (Mtimedelta._to_microseconds off)); [|lia].
      cbn [bind] in Hnew.
      destruct (Z.leb_spec (Mtimedelta._to_microseconds off) 86399999999);
        [|lia].
      discriminate.
  - intros Hout. unfold Mtimezone.__new__.
    assert (Hnz : Mtimedelta.__bool__ off = true).
    { rewrite bool_to_microseconds by assumption.
      apply negb_true_iff, Z.eqb_neq. lia. }
    rewrite Hnz. cbn [negb].
    replace (match name with Some _ => false | None => false end)
      with false by (destruct name; reflexivity).
    rewrite Hmin, Hmax. cbn [bind].
    rewrite !Hle by assumption.
    change (Mtimedelta._to_microseconds
              {| Mtimedelta._sols := -1; Mtimedelta._seconds := 0;
                 Mtimedelta._microseconds := 1 |})
      with (-86399999999).
    change (Mtimedelta._to_microseconds
              {| Mtimedelta._sols := 0; Mtimedelta._seconds := 86399;
                 Mtimedelta._microseconds := 999999 |})
      with 86399999999.
    destruct (Z.leb_spec (-86399999999) (Mtimedelta._to_microseconds off));
      cbn [bind]; [|reflexivity].
    destruct (Z.leb_spec (Mtimedelta._to_microseconds off) 86399999999);
      [lia|reflexivity].
Qed.

Lemma timezone_accepts_witness :
  (exists tz,
     Mtimezone.__new__ 5 {| Mtimedelta._sols := 0;
                            Mtimedelta._seconds := 3600;
                            Mtimedelta._microseconds := 0 |} None = Ok tz
     /\ Mdatetime.mtcoffset
          {| Mdatetime._year := 219; Mdatetime._month := 13;
             Mdatetime._sol := 27; Mdatetime._hour := 9;
             Mdatetime._minute := 24; Mdatetime._second := 59;
             Mdatetime._microsecond := 0; Mdatetime._tzinfo := Some tz;
             Mdatetime._fold := 0 |}
        = Ok (Some {| Mtimedelta._sols := 0; Mtimedelta._seconds := 3600;
                      Mtimedelta._microseconds := 0 |}))
  /\ Mtimezone.__new__ 5 {| Mtimedelta._sols := 1;
                            Mtimedelta._seconds := 0;
                            Mtimedelta._microseconds := 0 |} None
     = Raise ValueError.
Proof.
  split.
  - destruct (timezone_accepts 5
                {| Mtimedelta._sols := 0; Mtimedelta._seconds := 3600;
                   Mtimedelta._microseconds := 0 |} None)
      as [Hin _].
    + unfold normal. cbn. lia.
    + destruct Hin as (tz & Hnew & _ & Hoff).
      * cbn. lia.
      * exists tz. split; [exact Hnew|]. apply Hoff. reflexivity.
  - apply (timezone_accepts 5
             {| Mtimedelta._sols := 1; Mtimedelta._seconds := 0;
                Mtimedelta._microseconds := 0 |} None).
    + unfold normal. cbn. lia.
    + cbn. lia.
Defined.

(** ** The text of [ctime] *)

Lemma string_length_append (a b : String.string) :
  String.length (String.append a b)
  = (String.length a + String.length b)%nat.
Proof.
  induction a as [|c a IH]; simpl; [reflexivity|].
  rewrite IH. reflexivity.
Qed.

Lemma string_prefix_append (a b : String.string) :
  String.prefix a (String.append a b) = true.
Proof.
  induction a as [|c a IH]; simpl.
  - destruct b; reflexivity.
  - destruct (Ascii.ascii_dec c c) as [_|Hne]; [exact IH|].
    exfalso. apply Hne. reflexivity.
Qed.

(** A field of two digits holds every number below 100, and a field of
    four every year of the calendar. *)
Lemma format_d_width2 (zero : bool) (z : Z) :
  0 <= z <= 99 -> String.length (format_d zero 2 z) = 2%nat.
Proof.
  intros Hz.
  assert (H : forall_range 100 0
                (fun z => Nat.eqb (String.length (format_d true 2 z)) 2
                          && Nat.eqb (String.length (format_d false 2 z)) 2)
              = true) by (vm_compute; reflexivity).
  pose proof (forall_range_spec 100 0 _ H z ltac:(lia)) as Hw.
  cbv beta in Hw. apply andb_true_iff in Hw. destruct Hw as [Ht Hf].
  destruct zero; apply Nat.eqb_eq; assumption.
Qed.

Lemma format_d_width4 (z : Z) :
  0 <= z <= 9999 -> String.length (format_d true 4 z) = 4%nat.
Proof.
  intros Hz.
  assert (H : forall_range (Z.to_nat 10000) 0
                (fun z => Nat.eqb (String.length (format_d true 4 z)) 4)
              = true) by (vm_compute; reflexivity).
  pose proof (forall_range_spec _ _ _ H z) as Hw.
  rewrite Z2Nat.id in Hw by lia. specialize (Hw ltac:(lia)).
  cbv beta in Hw. apply Nat.eqb_eq. exact Hw.
Qed.

Lemma monthnames_item (m : Z) :
  1 <= m <= 24 ->
  exists name, getitem _MONTHNAMES m = Some (Some name)
               /\ String.length name = 3%nat.
Proof.
  intros Hm.
  assert (H : forall_range 24 1
                (fun m => match getitem _MONTHNAMES m with
                          | Some (Some name) =>
                              Nat.eqb (String.length name) 3
                          | _ => false
                          end) = true) by (vm_compute; reflexivity).
  pose proof (forall_range_spec 24 1 _ H m ltac:(lia)) as Hw.
  cbv beta in Hw.
  destruct (getitem _MONTHNAMES m) as [[name|]|]; try discriminate.
  exists name. split; [reflexivity|]. apply Nat.eqb_eq. exact Hw.
Qed.

Lemma solnames_item (k : Z) :
  1 <= k <= 6 ->
  exists name, getitem _SOLNAMES k = Some name
               /\ String.length name = 2%nat.
Proof.
  intros Hk.
  assert (H : forall_range 6 1
                (fun k => match getitem _SOLNAMES k with
                          | Some name => Nat.eqb (String.length name) 2
                          | None => false
                          end) = true) by (vm_compute; reflexivity).
  pose proof (forall_range_spec 6 1 _ H k ltac:(lia)) as Hw.
  cbv beta in Hw.
  destruct (getitem _SOLNAMES k) as [name|]; try discriminate.
  exists name. split; [reflexivity|]. apply Nat.eqb_eq. exact Hw.
Qed.

(** [ctime()] of a valid date-time raises [IndexError] exactly when the
    ordinal of its date is a multiple of 7, because [_SOLNAMES] has no
    entry 7; on every other sol it returns a text of 23 characters that
    begins with the entry of [_SOLNAMES] at the ordinal modulo 7. *)
Theorem ctime_seventh_sol (x : Mdatetime.t) :
  valid_Mdatetime x ->
  exists n,
    Mdatetime.toordinal x = Ok n
    /\ (n mod 7 = 0 -> Mdatetime.ctime x = IndexError)
    /\ (n mod 7 <> 0 ->
        exists s name,
          Mdatetime.ctime x = Text s
          /\ getitem _SOLNAMES (n mod 7) = Some name
          /\ String.prefix name s = true
          /\ String.length s = 23%nat).
Proof.
  intros Hv.
  destruct (datetime_toordinal x Hv) as (Ho & _).
  destruct (valid_Mdatetime_fields x Hv) as
    ((Hy & Hm & Hd) & Hhh & Hmm & Hss & _).
  pose proof (month_length_le_longest (Mdatetime._year x)
                                      (Mdatetime._month x)) as Hlen.
  assert (Hlong : longest (Mdatetime._month x) <= 28)
    by (unfold longest; destruct (_ || _); lia).
  set (n := ordinal_value _ _ _) in *.
  exists n. split; [exact Ho|]. unfold Mdatetime.ctime. rewrite Ho.
  split.
  - intros Hz. rewrite Hz. reflexivity.
  - intros Hnz.
    destruct (Z.eqb_spec (n mod 7) 0) as [Hz|_]; [contradiction|].
    pose proof (Z.mod_pos_bound n 7 ltac:(lia)) as Hk.
    destruct (solnames_item (n mod 7) ltac:(lia)) as (sn & Hsn & Hsl).
    destruct (monthnames_item (Mdatetime._month x) Hm) as (mn & Hmn & Hml).
    rewrite Hsn, Hmn. eexists. exists sn.
    split; [reflexivity|]. split; [reflexivity|].
    split; [apply string_prefix_append|].
    rewrite !string_length_append.
    rewrite Hsl. cbn [format_s]. rewrite Hml.
    rewrite !format_d_width2 by lia.
    rewrite format_d_width4 by lia.
    reflexivity.
Qed.

Lemma ctime_seventh_sol_witness :
  Mdatetime.ctime
    {| Mdatetime._year := 0; Mdatetime._month := 1; Mdatetime._sol := 7;
       Mdatetime._hour := 0; Mdatetime._minute := 0; Mdatetime._second := 0;
       Mdatetime._microsecond := 0; Mdatetime._tzinfo := None;
       Mdatetime._fold := 0 |}
  = IndexError.
Proof.
  destruct (ctime_seventh_sol
              {| Mdatetime._year := 0; Mdatetime._month := 1;
                 Mdatetime._sol := 7; Mdatetime._hour := 0;
                 Mdatetime._minute := 0; Mdatetime._second := 0;
                 Mdatetime._microsecond := 0; Mdatetime._tzinfo := None;
                 Mdatetime._fold := 0 |})
    as (n & Hn & Hraise & _).
  - reflexivity.
  - apply Hraise. injection Hn as <-. reflexivity.
Defined.

(** ** Conversion between time zones *)

Lemma datetime_sub_delta_spec (dt : Mdatetime.t) (t : Mtimedelta.t) :
  valid_Mdatetime dt -> normal t ->
  let diff := instant dt - Mtimedelta._to_microseconds t in
  (1 <= diff / 86400000000 <= 6685945 ->
   exists r, Mdatetime.__sub__delta dt t = Ok r /\ valid_Mdatetime r
             /\ instant r = diff
             /\ Mdatetime._tzinfo r = Mdatetime._tzinfo dt
             /\ Mdatetime._fold r = 0)
  /\ (~ 1 <= diff / 86400000000 <= 6685945 ->
      Mdatetime.__sub__delta dt t = Raise OverflowError).
Proof.
  intros Hv Ht diff.
  destruct (datetime_toordinal dt Hv) as (_ & Hr).
  destruct (instant_bounds dt Hv) as (Hio & _ & _). cbv zeta in Hio.
  unfold _MAXORDINAL in Hr.
  destruct (duration_neg_spec t Ht) as [Hover Hneg].
  pose proof Ht as (Hs & Hu & Hd).
  unfold Mdatetime.__sub__delta.
  destruct (Z.eq_dec (Mtimedelta._sols t) 999999999) as [Hmax|Hmax].
  - assert (Hlow : diff / 86400000000 < 1).
    { unfold diff, Mtimedelta._to_microseconds. rewrite Hmax.
      revert Hio Hr. generalize (ordinal_value (Mdatetime._year dt)
        (Mdatetime._month dt) (Mdatetime._sol dt)). intros o Hio Hr.
      Z.div_mod_to_equations. lia. }
    split; [intros Hc; exfalso; lia|]. intros _.
    destruct (Z_lt_dec 0 (Mtimedelta._seconds t)) as [Hsec|Hsec].
    { rewrite Hover by (split; [exact Hmax|left; exact Hsec]).
      reflexivity. }
    destruct (Z_lt_dec 0 (Mtimedelta._microseconds t)) as [Hus|Hus].
    { rewrite Hover by (split; [exact Hmax|right; exact Hus]).
      reflexivity. }
    destruct Hneg as (r & Hr' & Hnr & Hur & _); [lia|].
    rewrite Hr'. cbn [bind].
    destruct (datetime_add_spec dt r Hv Hnr) as [_ Hout].
    apply Hout. cbv zeta. rewrite Hur.
    replace (instant dt + - Mtimedelta._to_microseconds t) with diff
      by (unfold diff; lia).
    lia.
  - destruct Hneg as (r & Hr' & Hnr & Hur & _); [lia|].
    rewrite Hr'. cbn [bind].
    destruct (datetime_add_spec dt r Hv Hnr) as [Hin Hout].
    cbv zeta in Hin, Hout. rewrite Hur in Hin, Hout.
    replace (instant dt + - Mtimedelta._to_microseconds t) with diff
      in Hin, Hout by (unfold diff; lia).
    split; assumption.
Qed.

(** [replace(tzinfo=tz)] on a valid date-time changes that field only. *)
Lemma replace_tzinfo_ok (x : Mdatetime.t) (tz : option Mtzinfo.t) :
  valid_Mdatetime x ->
  exists r,
    Mdatetime.replace x None None None None None None None (Some tz) None
    = Ok r
    /\ valid_Mdatetime r /\ instant r = instant x
    /\ Mdatetime._tzinfo r = tz /\ Mdatetime._fold r = Mdatetime._fold x.
Proof.
  intros Hv.
  destruct (valid_Mdatetime_fields x Hv) as
    ((Hy & Hm & Hd) & Hhh & Hmm & Hss & Hus & Hf).
  unfold Mdatetime.replace.
  rewrite Mdatetime_new_ok by assumption.
  eexists. split; [reflexivity|].
  split; [|repeat split].
  unfold valid_Mdatetime.
  cbn [Mdatetime._year Mdatetime._month Mdatetime._sol Mdatetime._hour
       Mdatetime._minute Mdatetime._second Mdatetime._microsecond
       Mdatetime._tzinfo Mdatetime._fold].
  apply Mdatetime_new_ok; assumption.
Qed.

(** What [astimezone] does towards a fixed-offset zone [tz], for a valid
    date-time whose own zone ([Mtimezone.mtc] when it has none) answers
    with the duration [myoff]: when [tz] is that very zone the date-time
    itself comes back, without [tzinfo] if it had none; otherwise the
    result carries [tz] and reads the same instant by the offset of [tz],
    and [OverflowError] is raised when the reading in MTC or in [tz] falls
    outside the calendar. *)
Theorem astimezone_fixed_offset (x : Mdatetime.t) (addr : nat)
  (off : Mtimedelta.t) (mytz : Mtzinfo.t) (myoff : Mtimedelta.t) :
  valid_Mdatetime x -> normal off -> normal myoff ->
  (Mdatetime._tzinfo x = None /\ mytz = Mtimezone.mtc)
  \/ Mdatetime._tzinfo x = Some mytz ->
  Mtzinfo.mtcoffset mytz (Some (Mdatetime.fields x))
  = Mtzinfo.RetDelta myoff ->
  let tz := Mtimezone._create addr off in
  let converted := Mdatetime.astimezone x tz (Mtimezone_frommtc tz off) in
  let in_mtc := instant x - Mtimedelta._to_microseconds myoff in
  let in_tz := in_mtc + Mtimedelta._to_microseconds off in
  (Mtzinfo.ident mytz = addr -> converted = Ok x)
  /\ (Mtzinfo.ident mytz <> addr ->
      (1 <= in_mtc / 86400000000 <= 6685945
       /\ 1 <= in_tz / 86400000000 <= 6685945 ->
       exists y, converted = Ok y /\ valid_Mdatetime y
                 /\ instant y = in_tz
                 /\ Mdatetime._tzinfo y = Some tz
                 /\ Mdatetime._fold y = 0)
      /\ (~ (1 <= in_mtc / 86400000000 <= 6685945
             /\ 1 <= in_tz / 86400000000 <= 6685945) ->
          converted = Raise OverflowError)).
Proof.
  intros Hv Hoff Hmy Htz Hret tz converted in_mtc in_tz.
  assert (Hpick :
    converted
    = if Mtzinfo.is_ (Some tz) (Some mytz) then Ok x
      else
        shifted <- Mdatetime.__sub__delta x myoff ;;
        mtc <- Mdatetime.replace shifted None None None None None None
                 None (Some (Some tz)) None ;;
        Mtimezone_frommtc tz off mtc).
  { unfold converted, Mdatetime.astimezone.
    destruct Htz as [[Hnone ->]|Hsome].
    - rewrite Hnone. rewrite Hret. reflexivity.
    - rewrite Hsome. rewrite Hret. reflexivity. }
  rewrite Hpick. clear Hpick.
  cbn [Mtzinfo.is_ tz Mtimezone._create Mtzinfo.ident].
  split.
  - intros ->. rewrite Nat.eqb_refl. reflexivity.
  - intros Hne.
    destruct (Nat.eqb_spec addr (Mtzinfo.ident mytz)) as [Heq|_];
      [congruence|].
    destruct (datetime_sub_delta_spec x myoff Hv Hmy) as [Hin Hout].
    cbv zeta in Hin, Hout. fold in_mtc in Hin, Hout.
    split.
    + intros [Hm Ht].
      destruct (Hin Hm) as (s & Hs & Hvs & His & _ & _).
      rewrite Hs. cbn [bind].
      destruct (replace_tzinfo_ok s (Some tz) Hvs)
        as (m & Hrep & Hvm & Him & Htm & _).
      fold tz. rewrite Hrep. cbn [bind].
      unfold Mtimezone_frommtc. rewrite Htm, is_refl. cbn [negb].
      destruct (datetime_add_spec m off Hvm Hoff) as [Hadd _].
      cbv zeta in Hadd. rewrite Him, His in Hadd. fold in_tz in Hadd.
      destruct (Hadd Ht) as (y & Hy & Hvy & Hiy & Hty & Hfy).
      exists y. rewrite Hty, Htm in *. repeat split; assumption.
    + intros Hnot.
      destruct (Z_le_dec 1 (in_mtc / 86400000000)) as [Hlo|Hlo];
        [|rewrite Hout by lia; reflexivity].
      destruct (Z_le_dec (in_mtc / 86400000000) 6685945) as [Hhi|Hhi];
        [|rewrite Hout by lia; reflexivity].
      destruct (Hin (conj Hlo Hhi)) as (s & Hs & Hvs & His & _ & _).
      rewrite Hs. cbn [bind].
      destruct (replace_tzinfo_ok s (Some tz) Hvs)
        as (m & Hrep & Hvm & Him & Htm & _).
      fold tz. rewrite Hrep. cbn [bind].
      unfold Mtimezone_frommtc. rewrite Htm, is_refl. cbn [negb].
      destruct (datetime_add_spec m off Hvm Hoff) as [_ Hadd].
      cbv zeta in Hadd. rewrite Him, His in Hadd. fold in_tz in Hadd.
      apply Hadd. intros Ht. apply Hnot. split; [lia|exact Ht].
Qed.

Lemma astimezone_fixed_offset_witness :
  exists y,
    Mdatetime.astimezone noon_east Mtimezone.mtc
      (Mtimezone_frommtc Mtimezone.mtc
         {| Mtimedelta._sols := 0; Mtimedelta._seconds := 0;
            Mtimedelta._microseconds := 0 |}) = Ok y
    /\ instant y = instant noon_east - 3600000000
    /\ Mdatetime._tzinfo y = Some Mtimezone.mtc.
Proof.
  destruct (astimezone_fixed_offset noon_east 0
              {| Mtimedelta._sols := 0; Mtimedelta._seconds := 0;
                 Mtimedelta._microseconds := 0 |}
              east_tz
              {| Mtimedelta._sols := 0; Mtimedelta._seconds := 3600;
                 Mtimedelta._microseconds := 0 |})
    as [_ Hconv].
  - reflexivity.
  - unfold normal. cbn. lia.
  - unfold normal. cbn. lia.
  - right. reflexivity.
  - reflexivity.
  - destruct Hconv as [Hin _].
    + cbn. lia.
    + destruct Hin as (y & Hy & _ & Hiy & Hty & _).
      * vm_compute. repeat split; discriminate.
      * exists y. split; [exact Hy|]. split; [|exact Hty].
        rewrite Hiy. reflexivity.
Defined.

(** ** The inherited [frommtc] *)

(** [Mtzinfo.frommtc], for a valid date-time [dt]: it raises [ValueError]
    when [dt] does not carry the provider itself, when [dt.mtcoffset()] is
    [None] and when [dt.dst()] is [None]; otherwise, with [off] and [d]
    those two answers and [d'] the [dst()] answer at the standard-time
    reading, [dt] moved by [off - d], the result reads that standard time
    moved by [d'], keeps [tzinfo] and has fold 0. *)
Theorem frommtc_inherited (self : Mtzinfo.t) (dt : Mdatetime.t)
  (off d d' : Mtimedelta.t) :
  valid_Mdatetime dt ->
  (Mtzinfo.is_ (Mdatetime._tzinfo dt) (Some self) = false ->
   Mtzinfo_frommtc self dt = Raise ValueError)
  /\ (Mtzinfo.is_ (Mdatetime._tzinfo dt) (Some self) = true ->
      (Mdatetime.mtcoffset dt = Ok None ->
       Mtzinfo_frommtc self dt = Raise ValueError)
      /\ (Mdatetime.mtcoffset dt = Ok (Some off) ->
          Mdatetime.dst dt = Ok None ->
          Mtzinfo_frommtc self dt = Raise ValueError)
      /\ (Mdatetime.mtcoffset dt = Ok (Some off) ->
          Mdatetime.dst dt = Ok (Some d) ->
          normal off -> normal d -> normal d' ->
          let standard :=
            instant dt + Mtimedelta._to_microseconds off
            - Mtimedelta._to_microseconds d in
          (if Mtimedelta._to_microseconds off
              =? Mtimedelta._to_microseconds d
           then d' = d
           else forall r, valid_Mdatetime r -> instant r = standard ->
                          Mdatetime._tzinfo r = Mdatetime._tzinfo dt ->
                          Mdatetime._fold r = 0 ->
                          Mdatetime.dst r = Ok (Some d')) ->
          1 <= standard / 86400000000 <= 6685945 ->
          1 <= (standard + Mtimedelta._to_microseconds d') / 86400000000
            <= 6685945 ->
          exists r,
            Mtzinfo_frommtc self dt = Ok r /\ valid_Mdatetime r
            /\ instant r = standard + Mtimedelta._to_microseconds d'
            /\ Mdatetime._tzinfo r = Mdatetime._tzinfo dt
            /\ Mdatetime._fold r = 0)).
Proof.
  intros Hv. unfold Mtzinfo_frommtc. split.
  - intros ->. reflexivity.
  - intros ->. cbn [negb]. split; [|split].
    + intros ->. reflexivity.
    + intros -> ->. reflexivity.
    + intros Hoff Hdst Hno Hnd Hnd' Hnext Hstd Hloc.
      set (standard := instant dt + Mtimedelta._to_microseconds off
                       - Mtimedelta._to_microseconds d) in *.
      assert (Hro : -86400000000 < Mtimedelta._to_microseconds off
                    < 86400000000).
      { pose proof Hoff as H. unfold Mdatetime.mtcoffset in H.
        destruct (Mdatetime._tzinfo dt); [|discriminate].
        apply check_mtc_offset_inv in H; [apply H|exact Hno]. }
      assert (Hrd : -86400000000 < Mtimedelta._to_microseconds d
                    < 86400000000).
      { pose proof Hdst as H. unfold Mdatetime.dst in H.
        destruct (Mdatetime._tzinfo dt); [|discriminate].
        apply check_mtc_offset_inv in H; [apply H|exact Hnd]. }
      rewrite Hoff, Hdst. cbn [bind].
      rewrite sub_value
        by (apply Z.abs_le; split; Z.div_mod_to_equations; lia).
      cbn [bind].
      set (gap := Mtimedelta._to_microseconds off
                  - Mtimedelta._to_microseconds d) in *.
      assert (Hng : normal (normalized gap)).
      { apply normalized_normal.
        apply Z.abs_le; split; Z.div_mod_to_equations; lia. }
      rewrite bool_to_microseconds by apply Hng.
      rewrite to_microseconds_normalized.
      destruct (Z.eqb_spec (Mtimedelta._to_microseconds off)
                           (Mtimedelta._to_microseconds d)) as [Heq|Hne].
      * subst d'.
        destruct (Z.eqb_spec gap 0) as [_|Hg]; [|unfold gap in Hg; lia].
        cbn [negb].
        destruct (datetime_add_spec dt d Hv Hnd) as [Hadd _].
        cbv zeta in Hadd.
        replace (instant dt + Mtimedelta._to_microseconds d)
          with (standard + Mtimedelta._to_microseconds d) in Hadd
          by (unfold standard; lia).
        destruct (Hadd Hloc) as (r & Hr & Hrest).
        exists r. split; [exact Hr|exact Hrest].
      * destruct (Z.eqb_spec gap 0) as [Hg|_]; [unfold gap in Hg; lia|].
        cbn [negb].
        destruct (datetime_add_spec dt (normalized gap) Hv Hng)
          as [Hadd _].
        cbv zeta in Hadd. rewrite to_microseconds_normalized in Hadd.
        replace (instant dt + gap) with standard in Hadd
          by (unfold standard, gap; lia).
        destruct (Hadd Hstd) as (r1 & Hr1 & Hv1 & Hi1 & Ht1 & Hf1).
        rewrite Hr1. cbn [bind].
        rewrite (Hnext r1 Hv1 Hi1 Ht1 Hf1). cbn [bind].
        destruct (datetime_add_spec r1 d' Hv1 Hnd') as [Hadd' _].
        cbv zeta in Hadd'. rewrite Hi1 in Hadd'.
        destruct (Hadd' Hloc) as (r & Hr & Hvr & Hir & Htr & Hfr).
        exists r. rewrite Htr, Ht1. repeat split; assumption.
Qed.

Lemma frommtc_inherited_witness :
  exists r,
    Mtzinfo_frommtc summer_tz noon_summer = Ok r
    /\ instant r = instant noon_summer + 7200000000
    /\ Mdatetime._tzinfo r = Some summer_tz.
Proof.
  destruct (frommtc_inherited summer_tz noon_summer
              {| Mtimedelta._sols := 0; Mtimedelta._seconds := 7200;
                 Mtimedelta._microseconds := 0 |}
              {| Mtimedelta._sols := 0; Mtimedelta._seconds := 3600;
                 Mtimedelta._microseconds := 0 |}
              {| Mtimedelta._sols := 0; Mtimedelta._seconds := 3600;
                 Mtimedelta._microseconds := 0 |})
    as [_ Hsame].
  - reflexivity.
  - destruct Hsame as (_ & _ & Hmain); [reflexivity|].
    destruct Hmain as (r & Hr & _ & Hi & Ht & _).
    + reflexivity.
    + reflexivity.
    + unfold normal. cbn. lia.
    + unfold normal. cbn. lia.
    + unfold normal. cbn. lia.
    + cbn. intros r _ _ Ht _. unfold Mdatetime.dst. rewrite Ht.
      reflexivity.
    + vm_compute. repeat split; discriminate.
    + vm_compute. repeat split; discriminate.
    + exists r. split; [exact Hr|]. split; [|exact Ht].
      rewrite Hi. reflexivity.
Defined.
